(** * The frame cadence adapter of video/frame_cadence_adapter.cc

    A shallow embedding of the two adapter modes (pass-through and zero-hertz)
    and of [FrameCadenceAdapterImpl], followed by the properties of the
    cadence state machine.

    Conventions of the embedding:
    - a member function [void C::F(args)] becomes [C.F args self], returning
      the new object and the effects it had on the outside world, in order
      (tasks posted, callback calls, histogram samples);
    - a function returns [None] exactly where the C++ leaves the behaviour
      undefined or aborts: a failing [RTC_DCHECK], signed overflow, a call
      through a null pointer, access to an empty [absl::optional];
    - readings of the clock are inputs of the function that reads it. *)

From Stdlib Require Import ZArith Floats.
From stdpp Require Import base option list strings.

Local Open Scope Z_scope.

(** ** Machine integers *)

Definition INT_MIN : Z := - 2 ^ 31.
Definition INT_MAX : Z := 2 ^ 31 - 1.
Definition INT64_MIN : Z := - 2 ^ 63.
Definition INT64_MAX : Z := 2 ^ 63 - 1.

(** [int] addition: overflow is undefined behaviour. *)
Definition int_add (a b : Z) : option Z :=
  let r := a + b in
  if (INT_MIN <=? r) && (r <=? INT_MAX) then Some r else None.

(** [int64_t] addition: overflow is undefined behaviour. *)
Definition int64_add (a b : Z) : option Z :=
  let r := a + b in
  if (INT64_MIN <=? r) && (r <=? INT64_MAX) then Some r else None.

(** Arithmetic of [std::atomic<int>] wraps around in two's complement. *)
Definition atomic_int_wrap (z : Z) : Z := (z + 2 ^ 31) mod 2 ^ 32 - 2 ^ 31.

(** ** Collaborators declared outside this translation unit

    The units library (api/units), the clock and [RateStatistics] are used
    by the adapter but defined elsewhere; the embedding is parametric in
    them. *)

Class External := {
  (** [webrtc::TimeDelta] *)
  TimeDelta : Type;
  (** [webrtc::Timestamp], as returned by [Clock::CurrentTime] *)
  Timestamp : Type;
  (** [TimeDelta::us()] *)
  TimeDelta_us : TimeDelta → Z;
  (** [TimeDelta::ms()] *)
  TimeDelta_ms : TimeDelta → Z;
  (** [TimeDelta::Seconds(1) / d] for a [double] d *)
  TimeDelta_Seconds1_div : float → TimeDelta;
  (** [FrameCadenceAdapterInterface::kZeroHertzIdleRepeatRatePeriod] *)
  kZeroHertzIdleRepeatRatePeriod : TimeDelta;
  (** [webrtc::RateStatistics], its constructor from a window size and a
      scale, [Update(count, now_ms)] and [Rate(now_ms)] *)
  RateStatistics : Type;
  RateStatistics_new : Z → Z → RateStatistics;
  RateStatistics_Update : Z → Z → RateStatistics → RateStatistics;
  RateStatistics_Rate : Z → RateStatistics → option Z * RateStatistics;
  (** [FrameCadenceAdapterInterface::kFrameRateAveragingWindowSizeMs] *)
  kFrameRateAveragingWindowSizeMs : Z;
  (** the conversion of a [double] to [uint32_t] *)
  double_to_uint32 : float → Z;
}.

(** ** Video frames

    Modelled from the spec: [VideoFrame] is declared in
    api/video/video_frame.h; the adapter reads and writes its presentation
    timestamp, its NTP timestamp and its update rectangle, and treats the
    rest (here [video_frame_buffer]) as an opaque handle. *)

Record UpdateRect := {
  offset_x : Z;
  offset_y : Z;
  width : Z;
  height : Z;
}.

(** The rectangle [r] after [r.MakeEmptyUpdate()]. *)
Definition MakeEmptyUpdate (r : UpdateRect) : UpdateRect :=
  {| offset_x := 0; offset_y := 0; width := 0; height := 0 |}.

Definition UpdateRect_IsEmpty (r : UpdateRect) : bool :=
  (width r =? 0) && (height r =? 0).

Record VideoFrame := {
  video_frame_buffer : nat;
  timestamp_us : Z;
  ntp_time_ms : Z;
  update_rect : UpdateRect;
}.

Definition set_update_rect (r : UpdateRect) (f : VideoFrame) : VideoFrame :=
  {| video_frame_buffer := video_frame_buffer f;
     timestamp_us := timestamp_us f;
     ntp_time_ms := ntp_time_ms f;
     update_rect := r |}.

Definition set_timestamp_us (t : Z) (f : VideoFrame) : VideoFrame :=
  {| video_frame_buffer := video_frame_buffer f;
     timestamp_us := t;
     ntp_time_ms := ntp_time_ms f;
     update_rect := update_rect f |}.

Definition set_ntp_time_ms (t : Z) (f : VideoFrame) : VideoFrame :=
  {| video_frame_buffer := video_frame_buffer f;
     timestamp_us := timestamp_us f;
     ntp_time_ms := t;
     update_rect := update_rect f |}.

(** ** Configuration records of the interface header *)

(** Modelled from the spec: [ZeroHertzModeParams] carries the number of
    simulcast layers. *)
Record ZeroHertzModeParams := {
  num_simulcast_layers : nat;
}.

(** [VideoTrackSourceConstraints]: two [absl::optional<double>]. *)
Record VideoTrackSourceConstraints := {
  min_fps : option float;
  max_fps : option float;
}.

(** [absl::optional<T>::value_or] and [has_value]. *)
Definition value_or {A} (o : option A) (d : A) : A :=
  match o with Some v => v | None => d end.

Definition has_value {A} (o : option A) : bool :=
  match o with Some _ => true | None => false end.

(** ** The outside world *)

(** [FrameCadenceAdapterInterface::Callback*]; address 0 is [nullptr]. *)
Definition Callback : Type := nat.
Definition nullptr : Callback := 0%nat.

Section Effects.
Context {ext : External}.

(** The closures handed to the task queue, with what they capture. *)
Inductive Task :=
| ProcessOnDelayedCadenceTask
| ProcessRepeatedFrameOnDelayedCadenceTask
    (frame_id : Z) (repeat_delay : TimeDelta)
| OnFrameTask (post_time : Timestamp) (frame : VideoFrame)
| OnConstraintsChangedTask (constraints : VideoTrackSourceConstraints).

Inductive Effect :=
| PostTask (task : Task)
| PostDelayedTask (task : Task) (milliseconds : Z)
| Callback_OnFrame (callback : Callback) (post_time : Timestamp)
    (frames_scheduled_for_processing : Z) (frame : VideoFrame)
| Callback_OnDiscardedFrame (callback : Callback)
| RTC_HISTOGRAM_BOOLEAN (name : string) (sample : bool)
| RTC_HISTOGRAM_COUNTS_100 (name : string) (sample : float)
| RTC_HISTOGRAM_ENUMERATION_SPARSE (name : string) (sample : float)
    (boundary : Z).

(** [callback->OnFrame(...)] *)
Definition call_OnFrame (callback : Callback) (post_time : Timestamp)
    (frames_scheduled_for_processing : Z) (frame : VideoFrame)
  : option (list Effect) :=
  if (callback =? nullptr)%nat then None
  else Some [Callback_OnFrame callback post_time
               frames_scheduled_for_processing frame].

(** [callback->OnDiscardedFrame()] *)
Definition call_OnDiscardedFrame (callback : Callback)
  : option (list Effect) :=
  if (callback =? nullptr)%nat then None
  else Some [Callback_OnDiscardedFrame callback].
End Effects.

(** ** The pass-through mode *)

Module PassthroughAdapterMode.
Section Mode.
Context {ext : External}.

Record t := {
  callback_ : Callback;
  (** input frame rate statistics for use when not in zero-hertz mode *)
  input_framerate_ : RateStatistics;
}.

Definition new (callback : Callback) : t :=
  {| callback_ := callback;
     input_framerate_ :=
       RateStatistics_new kFrameRateAveragingWindowSizeMs 1000 |}.

Definition OnFrame (post_time : Timestamp)
    (frames_scheduled_for_processing : Z) (frame : VideoFrame) (self : t)
  : option (t * list Effect) :=
  sent ← call_OnFrame (callback_ self) post_time
           frames_scheduled_for_processing frame;
  Some (self, sent).

Definition GetInputFrameRateFps (now_ms : Z) (self : t) : option Z * t :=
  let '(rate, stats) := RateStatistics_Rate now_ms (input_framerate_ self) in
  (rate, {| callback_ := callback_ self; input_framerate_ := stats |}).

Definition UpdateFrameRate (now_ms : Z) (self : t) : t :=
  {| callback_ := callback_ self;
     input_framerate_ :=
       RateStatistics_Update 1 now_ms (input_framerate_ self) |}.
End Mode.
End PassthroughAdapterMode.

(** ** The zero-hertz mode *)

Module ZeroHertzAdapterMode.
Section Mode.
Context {ext : External}.

(** The tracking state of a spatial layer: if [quality_converged] is
    unset the layer is disabled, otherwise it carries the quality
    convergence status of the layer. *)
Record SpatialLayerTracker := {
  quality_converged : option bool;
}.

Record t := {
  callback_ : Callback;
  max_fps_ : float;
  frame_delay_ : TimeDelta;
  queued_frames_ : list VideoFrame;
  current_frame_id_ : Z;
  is_repeating_ : bool;
  layer_trackers_ : list SpatialLayerTracker;
}.

Definition set_layer_trackers (l : list SpatialLayerTracker) (self : t) : t :=
  {| callback_ := callback_ self; max_fps_ := max_fps_ self;
     frame_delay_ := frame_delay_ self;
     queued_frames_ := queued_frames_ self;
     current_frame_id_ := current_frame_id_ self;
     is_repeating_ := is_repeating_ self;
     layer_trackers_ := l |}.

Definition set_queued_frames (q : list VideoFrame) (self : t) : t :=
  {| callback_ := callback_ self; max_fps_ := max_fps_ self;
     frame_delay_ := frame_delay_ self;
     queued_frames_ := q;
     current_frame_id_ := current_frame_id_ self;
     is_repeating_ := is_repeating_ self;
     layer_trackers_ := layer_trackers_ self |}.

Definition set_current_frame_id (id : Z) (self : t) : t :=
  {| callback_ := callback_ self; max_fps_ := max_fps_ self;
     frame_delay_ := frame_delay_ self;
     queued_frames_ := queued_frames_ self;
     current_frame_id_ := id;
     is_repeating_ := is_repeating_ self;
     layer_trackers_ := layer_trackers_ self |}.

Definition set_is_repeating (b : bool) (self : t) : t :=
  {| callback_ := callback_ self; max_fps_ := max_fps_ self;
     frame_delay_ := frame_delay_ self;
     queued_frames_ := queued_frames_ self;
     current_frame_id_ := current_frame_id_ self;
     is_repeating_ := b;
     layer_trackers_ := layer_trackers_ self |}.

(** The constructor: every tracker starts with [quality_converged] unset,
    [frame_delay_] is initialised from [max_fps_]. *)
Definition new (callback : Callback) (max_fps : float)
    (params : ZeroHertzModeParams) : t :=
  {| callback_ := callback;
     max_fps_ := max_fps;
     frame_delay_ := TimeDelta_Seconds1_div max_fps;
     queued_frames_ := [];
     current_frame_id_ := 0;
     is_repeating_ := false;
     layer_trackers_ :=
       replicate (num_simulcast_layers params)
         {| quality_converged := None |} |}.

(** [layer_trackers_[spatial_index]], after
    [RTC_DCHECK_LT(spatial_index, layer_trackers_.size())]. *)
Definition tracker_at (spatial_index : Z) (self : t)
  : option SpatialLayerTracker :=
  if 0 <=? spatial_index
  then layer_trackers_ self !! Z.to_nat spatial_index
  else None.

Definition UpdateLayerQualityConvergence (spatial_index : Z)
    (quality_converged' : bool) (self : t) : option t :=
  tracker ← tracker_at spatial_index self;
  if has_value (quality_converged tracker)
  then Some (set_layer_trackers
               (<[Z.to_nat spatial_index :=
                    {| quality_converged := Some quality_converged' |}]>
                  (layer_trackers_ self)) self)
  else Some self.

Definition UpdateLayerStatus (spatial_index : Z) (enabled : bool) (self : t)
  : option t :=
  tracker ← tracker_at spatial_index self;
  if enabled then
    if negb (has_value (quality_converged tracker))
    then (* Assume quality has not converged until hearing otherwise. *)
      Some (set_layer_trackers
              (<[Z.to_nat spatial_index :=
                   {| quality_converged := Some false |}]>
                 (layer_trackers_ self)) self)
    else Some self
  else
    Some (set_layer_trackers
            (<[Z.to_nat spatial_index := {| quality_converged := None |}]>
               (layer_trackers_ self)) self).

(** The loop at the head of [OnFrame]: all enabled layers are assumed
    unconverged after frame entry. *)
Definition reset_tracker (tracker : SpatialLayerTracker)
  : SpatialLayerTracker :=
  if has_value (quality_converged tracker)
  then {| quality_converged := Some false |}
  else tracker.

Definition OnFrame (post_time : Timestamp)
    (frames_scheduled_for_processing : Z) (frame : VideoFrame) (self : t)
  : option (t * list Effect) :=
  let self := set_layer_trackers
                (reset_tracker <$> layer_trackers_ self) self in
  (* Remove stored repeating frame if needed. *)
  self ← (if is_repeating_ self then
            if (length (queued_frames_ self) =? 1)%nat
            then Some (set_queued_frames (tail (queued_frames_ self)) self)
            else None
          else Some self);
  (* Store the frame in the queue and schedule deferred processing. *)
  let self := set_queued_frames (queued_frames_ self ++ [frame]) self in
  id ← int_add (current_frame_id_ self) 1;
  let self := set_current_frame_id id self in
  let self := set_is_repeating false self in
  Some (self,
        [PostDelayedTask ProcessOnDelayedCadenceTask
           (TimeDelta_ms (frame_delay_ self))]).

Definition GetInputFrameRateFps (self : t) : option Z :=
  Some (double_to_uint32 (max_fps_ self)).

Definition UpdateFrameRate (self : t) : t := self.

Definition SendFrameNow (now : Timestamp) (frame : VideoFrame) (self : t)
  : option (list Effect) :=
  call_OnFrame (callback_ self) now 1 frame.

(** The predicate of [absl::c_all_of] in [ScheduleRepeat]:
    [!tracker.quality_converged.has_value() ||
     tracker.quality_converged.value()]. *)
Definition converged_or_disabled (tracker : SpatialLayerTracker) : bool :=
  negb (has_value (quality_converged tracker))
  || value_or (quality_converged tracker) false.

Definition ScheduleRepeat (frame_id : Z) (self : t) : list Effect :=
  let quality_converged :=
    forallb converged_or_disabled (layer_trackers_ self) in
  let repeat_delay :=
    if quality_converged then kZeroHertzIdleRepeatRatePeriod
    else frame_delay_ self in
  [PostDelayedTask
     (ProcessRepeatedFrameOnDelayedCadenceTask frame_id repeat_delay)
     (TimeDelta_ms repeat_delay)].

Definition ProcessOnDelayedCadence (now : Timestamp) (self : t)
  : option (t * list Effect) :=
  match queued_frames_ self with
  | [] => None
  | front :: rest =>
      sent ← SendFrameNow now front self;
      (* If there were two or more frames stored, we do not have to
         schedule repeats of the front frame. *)
      if (1 <? length (queued_frames_ self))%nat
      then Some (set_queued_frames rest self, sent)
      else
        (* There's only one frame to send. Schedule a repeat sequence. *)
        let self := set_is_repeating true self in
        Some (self, sent ++ ScheduleRepeat (current_frame_id_ self) self)
  end.

Definition ProcessRepeatedFrameOnDelayedCadence (now : Timestamp)
    (frame_id : Z) (scheduled_delay : TimeDelta) (self : t)
  : option (t * list Effect) :=
  match queued_frames_ self with
  | [] => None
  | frame :: rest =>
      (* Cancel this invocation if new frames turned up. *)
      if negb (frame_id =? current_frame_id_ self) then Some (self, [])
      else
        (* Since this is a repeated frame, nothing changed compared to
           before. *)
        let frame := set_update_rect (MakeEmptyUpdate (update_rect frame))
                       frame in
        (* Adjust timestamps of the frame of the repeat. *)
        frame ← (if timestamp_us frame >? 0 then
                   ts ← int64_add (timestamp_us frame)
                          (TimeDelta_us scheduled_delay);
                   Some (set_timestamp_us ts frame)
                 else Some frame);
        frame ← (if negb (ntp_time_ms frame =? 0) then
                   ts ← int64_add (ntp_time_ms frame)
                          (TimeDelta_ms scheduled_delay);
                   Some (set_ntp_time_ms ts frame)
                 else Some frame);
        let self := set_queued_frames (frame :: rest) self in
        sent ← SendFrameNow now frame self;
        (* Schedule another repeat. *)
        Some (self, sent ++ ScheduleRepeat frame_id self)
  end.

(** The body of a delayed task of this mode. *)
Definition run_task (now : Timestamp) (task : Task) (self : t)
  : option (t * list Effect) :=
  match task with
  | ProcessOnDelayedCadenceTask => ProcessOnDelayedCadence now self
  | ProcessRepeatedFrameOnDelayedCadenceTask frame_id repeat_delay =>
      ProcessRepeatedFrameOnDelayedCadence now frame_id repeat_delay self
  | _ => Some (self, [])
  end.
End Mode.
End ZeroHertzAdapterMode.

(** ** The adapter *)

Module FrameCadenceAdapterImpl.
Section Adapter.
Context {ext : External}.

(** [AdapterMode* current_adapter_mode_]: null, or the address of the
    object held by one of the two optional members. *)
Inductive AdapterModePtr :=
| null_adapter_mode
| to_passthrough_adapter
| to_zero_hertz_adapter.

Record t := {
  (** the field trial WebRTC-ZeroHertzScreenshare, read by the constructor *)
  zero_hertz_screenshare_enabled_ : bool;
  passthrough_adapter_ : option PassthroughAdapterMode.t;
  zero_hertz_adapter_ : option ZeroHertzAdapterMode.t;
  zero_hertz_params_ : option ZeroHertzModeParams;
  current_adapter_mode_ : AdapterModePtr;
  callback_ : Callback;
  source_constraints_ : option VideoTrackSourceConstraints;
  has_reported_screenshare_frame_rate_umas_ : bool;
  frames_scheduled_for_processing_ : Z;
}.

Definition new (field_trial_enabled : bool) : t :=
  {| zero_hertz_screenshare_enabled_ := field_trial_enabled;
     passthrough_adapter_ := None;
     zero_hertz_adapter_ := None;
     zero_hertz_params_ := None;
     current_adapter_mode_ := null_adapter_mode;
     callback_ := nullptr;
     source_constraints_ := None;
     has_reported_screenshare_frame_rate_umas_ := false;
     frames_scheduled_for_processing_ := 0 |}.

Definition set_passthrough_adapter (p : option PassthroughAdapterMode.t)
    (self : t) : t :=
  {| zero_hertz_screenshare_enabled_ := zero_hertz_screenshare_enabled_ self;
     passthrough_adapter_ := p;
     zero_hertz_adapter_ := zero_hertz_adapter_ self;
     zero_hertz_params_ := zero_hertz_params_ self;
     current_adapter_mode_ := current_adapter_mode_ self;
     callback_ := callback_ self;
     source_constraints_ := source_constraints_ self;
     has_reported_screenshare_frame_rate_umas_ :=
       has_reported_screenshare_frame_rate_umas_ self;
     frames_scheduled_for_processing_ :=
       frames_scheduled_for_processing_ self |}.

Definition set_zero_hertz_adapter (z : option ZeroHertzAdapterMode.t)
    (self : t) : t :=
  {| zero_hertz_screenshare_enabled_ := zero_hertz_screenshare_enabled_ self;
     passthrough_adapter_ := passthrough_adapter_ self;
     zero_hertz_adapter_ := z;
     zero_hertz_params_ := zero_hertz_params_ self;
     current_adapter_mode_ := current_adapter_mode_ self;
     callback_ := callback_ self;
     source_constraints_ := source_constraints_ self;
     has_reported_screenshare_frame_rate_umas_ :=
       has_reported_screenshare_frame_rate_umas_ self;
     frames_scheduled_for_processing_ :=
       frames_scheduled_for_processing_ self |}.

Definition set_zero_hertz_params (p : option ZeroHertzModeParams)
    (self : t) : t :=
  {| zero_hertz_screenshare_enabled_ := zero_hertz_screenshare_enabled_ self;
     passthrough_adapter_ := passthrough_adapter_ self;
     zero_hertz_adapter_ := zero_hertz_adapter_ self;
     zero_hertz_params_ := p;
     current_adapter_mode_ := current_adapter_mode_ self;
     callback_ := callback_ self;
     source_constraints_ := source_constraints_ self;
     has_reported_screenshare_frame_rate_umas_ :=
       has_reported_screenshare_frame_rate_umas_ self;
     frames_scheduled_for_processing_ :=
       frames_scheduled_for_processing_ self |}.

Definition set_current_adapter_mode (m : AdapterModePtr) (self : t) : t :=
  {| zero_hertz_screenshare_enabled_ := zero_hertz_screenshare_enabled_ self;
     passthrough_adapter_ := passthrough_adapter_ self;
     zero_hertz_adapter_ := zero_hertz_adapter_ self;
     zero_hertz_params_ := zero_hertz_params_ self;
     current_adapter_mode_ := m;
     callback_ := callback_ self;
     source_constraints_ := source_constraints_ self;
     has_reported_screenshare_frame_rate_umas_ :=
       has_reported_screenshare_frame_rate_umas_ self;
     frames_scheduled_for_processing_ :=
       frames_scheduled_for_processing_ self |}.

Definition set_callback (c : Callback) (self : t) : t :=
  {| zero_hertz_screenshare_enabled_ := zero_hertz_screenshare_enabled_ self;
     passthrough_adapter_ := passthrough_adapter_ self;
     zero_hertz_adapter_ := zero_hertz_adapter_ self;
     zero_hertz_params_ := zero_hertz_params_ self;
     current_adapter_mode_ := current_adapter_mode_ self;
     callback_ := c;
     source_constraints_ := source_constraints_ self;
     has_reported_screenshare_frame_rate_umas_ :=
       has_reported_screenshare_frame_rate_umas_ self;
     frames_scheduled_for_processing_ :=
       frames_scheduled_for_processing_ self |}.

Definition set_source_constraints (c : option VideoTrackSourceConstraints)
    (self : t) : t :=
  {| zero_hertz_screenshare_enabled_ := zero_hertz_screenshare_enabled_ self;
     passthrough_adapter_ := passthrough_adapter_ self;
     zero_hertz_adapter_ := zero_hertz_adapter_ self;
     zero_hertz_params_ := zero_hertz_params_ self;
     current_adapter_mode_ := current_adapter_mode_ self;
     callback_ := callback_ self;
     source_constraints_ := c;
     has_reported_screenshare_frame_rate_umas_ :=
       has_reported_screenshare_frame_rate_umas_ self;
     frames_scheduled_for_processing_ :=
       frames_scheduled_for_processing_ self |}.

Definition set_has_reported (b : bool) (self : t) : t :=
  {| zero_hertz_screenshare_enabled_ := zero_hertz_screenshare_enabled_ self;
     passthrough_adapter_ := passthrough_adapter_ self;
     zero_hertz_adapter_ := zero_hertz_adapter_ self;
     zero_hertz_params_ := zero_hertz_params_ self;
     current_adapter_mode_ := current_adapter_mode_ self;
     callback_ := callback_ self;
     source_constraints_ := source_constraints_ self;
     has_reported_screenshare_frame_rate_umas_ := b;
     frames_scheduled_for_processing_ :=
       frames_scheduled_for_processing_ self |}.

Definition set_frames_scheduled (n : Z) (self : t) : t :=
  {| zero_hertz_screenshare_enabled_ := zero_hertz_screenshare_enabled_ self;
     passthrough_adapter_ := passthrough_adapter_ self;
     zero_hertz_adapter_ := zero_hertz_adapter_ self;
     zero_hertz_params_ := zero_hertz_params_ self;
     current_adapter_mode_ := current_adapter_mode_ self;
     callback_ := callback_ self;
     source_constraints_ := source_constraints_ self;
     has_reported_screenshare_frame_rate_umas_ :=
       has_reported_screenshare_frame_rate_umas_ self;
     frames_scheduled_for_processing_ := n |}.

Definition Initialize (callback : Callback) (self : t) : t :=
  let self := set_callback callback self in
  let self := set_passthrough_adapter
                (Some (PassthroughAdapterMode.new callback)) self in
  set_current_adapter_mode to_passthrough_adapter self.

Definition IsZeroHertzScreenshareEnabled (self : t) : bool :=
  zero_hertz_screenshare_enabled_ self
  && match source_constraints_ self with
     | Some constraints =>
         (0 <? value_or (max_fps constraints) (-1))%float
         && (value_or (min_fps constraints) (-1) =? 0)%float
     | None => false
     end
  && has_value (zero_hertz_params_ self).

Definition MaybeReconfigureAdapters (was_zero_hertz_enabled : bool)
    (self : t) : option t :=
  let is_zero_hertz_enabled := IsZeroHertzScreenshareEnabled self in
  if is_zero_hertz_enabled then
    self ← (if negb was_zero_hertz_enabled then
              constraints ← source_constraints_ self;
              max_fps ← max_fps constraints;
              params ← zero_hertz_params_ self;
              Some (set_zero_hertz_adapter
                      (Some (ZeroHertzAdapterMode.new (callback_ self)
                               max_fps params)) self)
            else Some self);
    _ ← zero_hertz_adapter_ self;
    Some (set_current_adapter_mode to_zero_hertz_adapter self)
  else
    let self := if was_zero_hertz_enabled
                then set_zero_hertz_adapter None self else self in
    _ ← passthrough_adapter_ self;
    Some (set_current_adapter_mode to_passthrough_adapter self).

Definition SetZeroHertzModeEnabled (params : option ZeroHertzModeParams)
    (self : t) : option t :=
  let was_zero_hertz_enabled := has_value (zero_hertz_params_ self) in
  let self := if has_value params && negb was_zero_hertz_enabled
              then set_has_reported false self else self in
  let self := set_zero_hertz_params params self in
  MaybeReconfigureAdapters was_zero_hertz_enabled self.

(** [current_adapter_mode_->GetInputFrameRateFps()] *)
Definition GetInputFrameRateFps (now_ms : Z) (self : t)
  : option (option Z * t) :=
  match current_adapter_mode_ self with
  | null_adapter_mode => None
  | to_passthrough_adapter =>
      mode ← passthrough_adapter_ self;
      let '(rate, mode) :=
        PassthroughAdapterMode.GetInputFrameRateFps now_ms mode in
      Some (rate, set_passthrough_adapter (Some mode) self)
  | to_zero_hertz_adapter =>
      mode ← zero_hertz_adapter_ self;
      Some (ZeroHertzAdapterMode.GetInputFrameRateFps mode, self)
  end.

Definition UpdateFrameRate (now_ms : Z) (self : t) : option t :=
  mode ← passthrough_adapter_ self;
  Some (set_passthrough_adapter
          (Some (PassthroughAdapterMode.UpdateFrameRate now_ms mode)) self).

Definition UpdateLayerQualityConvergence (spatial_index : Z)
    (quality_converged : bool) (self : t) : option t :=
  match zero_hertz_adapter_ self with
  | Some mode =>
      mode ← ZeroHertzAdapterMode.UpdateLayerQualityConvergence
                spatial_index quality_converged mode;
      Some (set_zero_hertz_adapter (Some mode) self)
  | None => Some self
  end.

Definition UpdateLayerStatus (spatial_index : Z) (enabled : bool) (self : t)
  : option t :=
  match zero_hertz_adapter_ self with
  | Some mode =>
      mode ← ZeroHertzAdapterMode.UpdateLayerStatus spatial_index enabled
                mode;
      Some (set_zero_hertz_adapter (Some mode) self)
  | None => Some self
  end.

Definition OnDiscardedFrame (self : t) : option (list Effect) :=
  call_OnDiscardedFrame (callback_ self).

(** [current_adapter_mode_->OnFrame(...)] *)
Definition OnFrameOnMainQueue (post_time : Timestamp)
    (frames_scheduled_for_processing : Z) (frame : VideoFrame) (self : t)
  : option (t * list Effect) :=
  match current_adapter_mode_ self with
  | null_adapter_mode => None
  | to_passthrough_adapter =>
      mode ← passthrough_adapter_ self;
      '(mode, effects) ← PassthroughAdapterMode.OnFrame post_time
                            frames_scheduled_for_processing frame mode;
      Some (set_passthrough_adapter (Some mode) self, effects)
  | to_zero_hertz_adapter =>
      mode ← zero_hertz_adapter_ self;
      '(mode, effects) ← ZeroHertzAdapterMode.OnFrame post_time
                            frames_scheduled_for_processing frame mode;
      Some (set_zero_hertz_adapter (Some mode) self, effects)
  end.

(** [frames_scheduled_for_processing_.fetch_add(n)] and [fetch_sub(n)]:
    both return the value the counter held before the operation. *)
Definition fetch_add (n : Z) (self : t) : Z * t :=
  (frames_scheduled_for_processing_ self,
   set_frames_scheduled
     (atomic_int_wrap (frames_scheduled_for_processing_ self + n)) self).

Definition fetch_sub (n : Z) (self : t) : Z * t :=
  (frames_scheduled_for_processing_ self,
   set_frames_scheduled
     (atomic_int_wrap (frames_scheduled_for_processing_ self - n)) self).

Definition kMaxBucketCount : Z := 60 * 60 + 60 - 1.

(** The histogram samples of [MaybeReportFrameRateConstraintUmas] once
    [source_constraints_] is known to hold a value. *)
Definition report_constraints (constraints : VideoTrackSourceConstraints)
  : list Effect :=
  [RTC_HISTOGRAM_BOOLEAN
     "WebRTC.Screenshare.FrameRateConstraints.Min.Exists"
     (has_value (min_fps constraints))]
  ++ match min_fps constraints with
     | Some min =>
         [RTC_HISTOGRAM_COUNTS_100
            "WebRTC.Screenshare.FrameRateConstraints.Min.Value" min]
     | None => []
     end
  ++ [RTC_HISTOGRAM_BOOLEAN
        "WebRTC.Screenshare.FrameRateConstraints.Max.Exists"
        (has_value (max_fps constraints))]
  ++ match max_fps constraints with
     | Some max =>
         [RTC_HISTOGRAM_COUNTS_100
            "WebRTC.Screenshare.FrameRateConstraints.Max.Value" max]
     | None => []
     end
  ++ match min_fps constraints with
     | None =>
         match max_fps constraints with
         | Some max =>
             [RTC_HISTOGRAM_COUNTS_100
                "WebRTC.Screenshare.FrameRateConstraints.MinUnset.Max" max]
         | None => []
         end
     | Some min =>
         match max_fps constraints with
         | Some max =>
             (if (min <? max)%float then
                [RTC_HISTOGRAM_COUNTS_100
                   "WebRTC.Screenshare.FrameRateConstraints.MinLessThanMax.Min"
                   min;
                 RTC_HISTOGRAM_COUNTS_100
                   "WebRTC.Screenshare.FrameRateConstraints.MinLessThanMax.Max"
                   max]
              else [])
             (* Multi-dimensional histogram for min and max FPS making it
                possible to uncover min and max combinations. *)
             ++ [RTC_HISTOGRAM_ENUMERATION_SPARSE
                   "WebRTC.Screenshare.FrameRateConstraints.60MinPlusMaxMinusOne"
                   (min * 60 + max - 1)%float kMaxBucketCount]
         | None => []
         end
     end.

Definition MaybeReportFrameRateConstraintUmas (self : t) : t * list Effect :=
  if has_reported_screenshare_frame_rate_umas_ self then (self, [])
  else
    let self := set_has_reported true self in
    if negb (has_value (zero_hertz_params_ self)) then (self, [])
    else
      (self,
       RTC_HISTOGRAM_BOOLEAN "WebRTC.Screenshare.FrameRateConstraints.Exists"
         (has_value (source_constraints_ self))
       :: match source_constraints_ self with
          | None => []
          | Some constraints => report_constraints constraints
          end).

(** [OnFrame], called off the queue: it reads the clock, counts the frame
    and posts [OnFrameTask]. *)
Definition OnFrame (now : Timestamp) (frame : VideoFrame) (self : t)
  : t * list Effect :=
  let post_time := now in
  let '(_, self) := fetch_add 1 self in
  (self, [PostTask (OnFrameTask post_time frame)]).

(** The closure posted by [OnFrame]. *)
Definition run_OnFrameTask (post_time : Timestamp) (frame : VideoFrame)
    (self : t) : option (t * list Effect) :=
  let '(frames_scheduled_for_processing, self) := fetch_sub 1 self in
  '(self, delivered) ← OnFrameOnMainQueue post_time
                          frames_scheduled_for_processing frame self;
  let '(self, reported) := MaybeReportFrameRateConstraintUmas self in
  Some (self, delivered ++ reported).

Definition OnConstraintsChanged (constraints : VideoTrackSourceConstraints)
    (self : t) : t * list Effect :=
  (self, [PostTask (OnConstraintsChangedTask constraints)]).

(** The closure posted by [OnConstraintsChanged]. *)
Definition run_OnConstraintsChangedTask
    (constraints : VideoTrackSourceConstraints) (self : t) : option t :=
  let was_zero_hertz_enabled := IsZeroHertzScreenshareEnabled self in
  let self := set_source_constraints (Some constraints) self in
  MaybeReconfigureAdapters was_zero_hertz_enabled self.

(** A task taken from the queue. The tasks of the zero-hertz mode are
    guarded by the [ScopedTaskSafety] of the mode: they do nothing once the
    mode is destroyed. A run may hand any task to the mode that exists,
    also one that an earlier mode object posted, so the runs of the model
    include those of the code. *)
Definition run_task (now : Timestamp) (task : Task) (self : t)
  : option (t * list Effect) :=
  match task with
  | OnFrameTask post_time frame => run_OnFrameTask post_time frame self
  | OnConstraintsChangedTask constraints =>
      self ← run_OnConstraintsChangedTask constraints self;
      Some (self, [])
  | _ =>
      match zero_hertz_adapter_ self with
      | Some mode =>
          '(mode, effects) ← ZeroHertzAdapterMode.run_task now task mode;
          Some (set_zero_hertz_adapter (Some mode) self, effects)
      | None => Some (self, [])
      end
  end.

(** *** Sequences of operations

    What a client and the task queue can do to an adapter. *)
Inductive Op :=
| CallInitialize (callback : Callback)
| CallSetZeroHertzModeEnabled (params : option ZeroHertzModeParams)
| CallGetInputFrameRateFps (now_ms : Z)
| CallUpdateFrameRate (now_ms : Z)
| CallUpdateLayerQualityConvergence (spatial_index : Z)
    (quality_converged : bool)
| CallUpdateLayerStatus (spatial_index : Z) (enabled : bool)
| CallOnFrame (now : Timestamp) (frame : VideoFrame)
| CallOnDiscardedFrame
| CallOnConstraintsChanged (constraints : VideoTrackSourceConstraints)
| RunTask (now : Timestamp) (task : Task).

Definition step (op : Op) (self : t) : option (t * list Effect) :=
  match op with
  | CallInitialize callback => Some (Initialize callback self, [])
  | CallSetZeroHertzModeEnabled params =>
      self ← SetZeroHertzModeEnabled params self; Some (self, [])
  | CallGetInputFrameRateFps now_ms =>
      '(_, self) ← GetInputFrameRateFps now_ms self; Some (self, [])
  | CallUpdateFrameRate now_ms =>
      self ← UpdateFrameRate now_ms self; Some (self, [])
  | CallUpdateLayerQualityConvergence spatial_index quality_converged =>
      self ← UpdateLayerQualityConvergence spatial_index quality_converged
               self;
      Some (self, [])
  | CallUpdateLayerStatus spatial_index enabled =>
      self ← UpdateLayerStatus spatial_index enabled self; Some (self, [])
  | CallOnFrame now frame => Some (OnFrame now frame self)
  | CallOnDiscardedFrame =>
      effects ← OnDiscardedFrame self; Some (self, effects)
  | CallOnConstraintsChanged constraints =>
      Some (OnConstraintsChanged constraints self)
  | RunTask now task => run_task now task self
  end.

Fixpoint run (ops : list Op) (self : t) : option (t * list Effect) :=
  match ops with
  | [] => Some (self, [])
  | op :: ops =>
      '(self, effects) ← step op self;
      '(self, effects') ← run ops self;
      Some (self, effects ++ effects')
  end.
End Adapter.
End FrameCadenceAdapterImpl.

(** ** A concrete platform

    Time counted in microseconds, with the idle repeat period of one
    second; the examples below run the adapter on it. *)

(** The integer part of a [double]. *)
Definition float_trunc (f : float) : Z :=
  match Prim2SF f with
  | S754_finite s m e =>
      let a := Z.shiftl (Z.pos m) e in if s then - a else a
  | _ => 0
  end.

Definition micros : External := {|
  TimeDelta := Z;
  Timestamp := Z;
  TimeDelta_us := λ d, d;
  TimeDelta_ms := λ d, (d + 500) `div` 1000;
  TimeDelta_Seconds1_div := λ d, float_trunc (1000000 / d + 0.5)%float;
  kZeroHertzIdleRepeatRatePeriod := 1000000;
  RateStatistics := list (Z * Z);
  RateStatistics_new := λ _ _, [];
  RateStatistics_Update := λ count now_ms stats, (count, now_ms) :: stats;
  RateStatistics_Rate := λ _ stats, (None, stats);
  kFrameRateAveragingWindowSizeMs := 1000;
  double_to_uint32 := float_trunc;
|}.

(** A frame of 640 by 480 changed pixels with the given timestamps. *)
Definition sample_frame (buffer : nat) (timestamp ntp : Z) : VideoFrame :=
  {| video_frame_buffer := buffer;
     timestamp_us := timestamp;
     ntp_time_ms := ntp;
     update_rect :=
       {| offset_x := 0; offset_y := 0; width := 640; height := 480 |} |}.

(** A zero-hertz mode of two layers at 30 frames per second, as
    constructed. *)
Definition sample_mode : @ZeroHertzAdapterMode.t micros :=
  ZeroHertzAdapterMode.new 1%nat 30%float {| num_simulcast_layers := 2 |}.

Definition one_layer : ZeroHertzModeParams := {| num_simulcast_layers := 1 |}.

(** A mode that repeats [frame], the first frame it received. *)
Definition repeating_mode (frame : VideoFrame)
  : @ZeroHertzAdapterMode.t micros :=
  ZeroHertzAdapterMode.set_layer_trackers
    [{| ZeroHertzAdapterMode.quality_converged := Some false |}]
    (ZeroHertzAdapterMode.set_is_repeating true
       (ZeroHertzAdapterMode.set_current_frame_id 1
          (ZeroHertzAdapterMode.set_queued_frames [frame]
             (ZeroHertzAdapterMode.new 1%nat 30%float one_layer)))).

Definition constraints_of (min max : float) : VideoTrackSourceConstraints :=
  {| min_fps := Some min; max_fps := Some max |}.

(** An initialized adapter with the field trial enabled, zero-hertz
    parameters set and the given constraints, before any frame. *)
Definition configured (min max : float) : @FrameCadenceAdapterImpl.t micros :=
  FrameCadenceAdapterImpl.set_source_constraints
    (Some (constraints_of min max))
    (FrameCadenceAdapterImpl.set_zero_hertz_params (Some one_layer)
       (FrameCadenceAdapterImpl.Initialize 1%nat
          (FrameCadenceAdapterImpl.new true))).

(** The adapter after zero-hertz mode was activated at 30 frames per
    second. *)
Definition activated : @FrameCadenceAdapterImpl.t micros :=
  FrameCadenceAdapterImpl.set_current_adapter_mode
    FrameCadenceAdapterImpl.to_zero_hertz_adapter
    (FrameCadenceAdapterImpl.set_zero_hertz_adapter
       (Some (ZeroHertzAdapterMode.new 1%nat 30%float one_layer))
       (configured 0 30)).

(** An initialized adapter in pass-through mode to which one frame was
    posted. *)
Definition one_frame_posted : @FrameCadenceAdapterImpl.t micros :=
  (FrameCadenceAdapterImpl.OnFrame (ext := micros) 5
     (sample_frame 1 1000 2000)
     (FrameCadenceAdapterImpl.Initialize 1%nat
        (FrameCadenceAdapterImpl.new false))).1.

(** ** Vocabulary of the properties *)

Section Vocabulary.
Context {ext : External}.
Import ZeroHertzAdapterMode.

(** The three states of a layer tracker. *)
Definition Disabled : SpatialLayerTracker := {| quality_converged := None |}.
Definition Enabled (converged : bool) : SpatialLayerTracker :=
  {| quality_converged := Some converged |}.

(** What an update of layer [i] may change: the tracker of that layer. *)
Definition only_layer (i : Z) (tracker : SpatialLayerTracker)
    (mode mode' : t) : Prop :=
  mode' = set_layer_trackers
            (<[Z.to_nat i := tracker]> (layer_trackers_ mode)) mode.

(** [spatial_index] passes the range check of the layer updates. *)
Definition in_range (spatial_index : Z) (mode : t) : Prop :=
  0 ≤ spatial_index < Z.of_nat (length (layer_trackers_ mode)).

(** The frames handed to the callback, in order. *)
Definition delivered (effects : list Effect) : list VideoFrame :=
  omap (λ effect,
          match effect with
          | Callback_OnFrame _ _ _ frame => Some frame
          | _ => None
          end) effects.

(** A run of repeats of the frame with id [frame_id]: the repeat task fires
    once per entry of the schedule, at the given time and with the given
    scheduled delay. *)
Fixpoint repeats (frame_id : Z) (schedule : list (Timestamp * TimeDelta))
    (mode : t) : option (t * list Effect) :=
  match schedule with
  | [] => Some (mode, [])
  | (now, scheduled_delay) :: schedule =>
      '(mode, effects) ← ProcessRepeatedFrameOnDelayedCadence now frame_id
                            scheduled_delay mode;
      '(mode, effects') ← repeats frame_id schedule mode;
      Some (mode, effects ++ effects')
  end.

(** The scheduled delays of a schedule, added up in each unit. *)
Definition total_us (schedule : list (Timestamp * TimeDelta)) : Z :=
  foldr (λ entry total, TimeDelta_us entry.2 + total) 0 schedule.

Definition total_ms (schedule : list (Timestamp * TimeDelta)) : Z :=
  foldr (λ entry total, TimeDelta_ms entry.2 + total) 0 schedule.

(** The front frame as a repeat with the given scheduled delay sends it. *)
Definition repeated (scheduled_delay : TimeDelta) (frame : VideoFrame)
  : VideoFrame :=
  {| video_frame_buffer := video_frame_buffer frame;
     timestamp_us :=
       if 0 <? timestamp_us frame
       then timestamp_us frame + TimeDelta_us scheduled_delay
       else timestamp_us frame;
     ntp_time_ms :=
       if ntp_time_ms frame =? 0 then ntp_time_ms frame
       else ntp_time_ms frame + TimeDelta_ms scheduled_delay;
     update_rect := {| offset_x := 0; offset_y := 0; width := 0; height := 0 |}
  |}.

(** The frames sent by a run of repeats of [frame]. *)
Fixpoint repeated_frames (frame : VideoFrame)
    (schedule : list (Timestamp * TimeDelta)) : list VideoFrame :=
  match schedule with
  | [] => []
  | entry :: schedule =>
      repeated entry.2 frame :: repeated_frames (repeated entry.2 frame) schedule
  end.

(** Two states of a mode with the configuration of its construction. *)
Definition same_configuration (mode mode' : t) : Prop :=
  callback_ mode' = callback_ mode
  ∧ max_fps_ mode' = max_fps_ mode
  ∧ frame_delay_ mode' = frame_delay_ mode
  ∧ length (layer_trackers_ mode') = length (layer_trackers_ mode).
End Vocabulary.

Section AdapterVocabulary.
Context {ext : External}.
Import FrameCadenceAdapterImpl.

(** A report of the constraint histograms starts with the sample of
    WebRTC.Screenshare.FrameRateConstraints.Exists. *)
Definition is_uma_report (effect : Effect) : bool :=
  match effect with
  | RTC_HISTOGRAM_BOOLEAN name _ =>
      String.eqb name "WebRTC.Screenshare.FrameRateConstraints.Exists"
  | _ => false
  end.

(** How many times the constraint histograms are reported. *)
Fixpoint uma_reports (effects : list Effect) : nat :=
  match effects with
  | [] => 0
  | effect :: effects =>
      ((if is_uma_report effect then 1 else 0) + uma_reports effects)%nat
  end.

(** The histogram a sample is recorded to. *)
Definition histogram_name (effect : Effect) : option string :=
  match effect with
  | RTC_HISTOGRAM_BOOLEAN name _ => Some name
  | RTC_HISTOGRAM_COUNTS_100 name _ => Some name
  | RTC_HISTOGRAM_ENUMERATION_SPARSE name _ _ => Some name
  | _ => None
  end.

Definition is_sample_of (name : string) (effect : Effect) : bool :=
  match histogram_name effect with
  | Some name' => String.eqb name' name
  | None => false
  end.

(** How many samples are recorded to the histogram [name], whichever of
    the constraint histograms it is. *)
Fixpoint samples (name : string) (effects : list Effect) : nat :=
  match effects with
  | [] => 0
  | effect :: effects =>
      ((if is_sample_of name effect then 1 else 0) + samples name effects)%nat
  end.

(** [op] takes [zero_hertz_params_] from unset to set. *)
Definition enables_zero_hertz (op : Op) (self : t) : bool :=
  match op with
  | CallSetZeroHertzModeEnabled (Some _) =>
      negb (has_value (zero_hertz_params_ self))
  | _ => false
  end.

(** How many operations of a run take [zero_hertz_params_] from unset to
    set. *)
Fixpoint enablements (ops : list Op) (self : t) : nat :=
  match ops with
  | [] => 0
  | op :: ops =>
      ((if enables_zero_hertz op self then 1 else 0)
       + match step op self with
         | Some (self, _) => enablements ops self
         | None => 0
         end)%nat
  end.

(** A report is due: nothing was reported since the parameters were set. *)
Definition pending_report (self : t) : nat :=
  if negb (has_reported_screenshare_frame_rate_umas_ self)
     && has_value (zero_hertz_params_ self)
  then 1 else 0.

(** The zero-hertz mode exists exactly while the activation predicate
    holds. *)
Definition consistent (self : t) : Prop :=
  has_value (zero_hertz_adapter_ self) = IsZeroHertzScreenshareEnabled self.

(** What the zero-hertz mode of the adapter became: [kept] when it is the
    same object with the configuration it was constructed with, [created]
    when it is a new object constructed from the constraints and the
    parameters of the adapter, [destroyed] or [absent] otherwise. *)
Inductive ModeChange :=
| kept
| created
| destroyed
| absent.

Definition mode_change (self self' : t) (change : ModeChange) : Prop :=
  match change with
  | kept =>
      ∃ mode mode',
        zero_hertz_adapter_ self = Some mode
        ∧ zero_hertz_adapter_ self' = Some mode'
        ∧ same_configuration mode mode'
  | created =>
      ∃ constraints fps params,
        zero_hertz_adapter_ self = None
        ∧ source_constraints_ self' = Some constraints
        ∧ max_fps constraints = Some fps
        ∧ zero_hertz_params_ self' = Some params
        ∧ zero_hertz_adapter_ self'
          = Some (ZeroHertzAdapterMode.new (callback_ self') fps params)
  | destroyed =>
      is_Some (zero_hertz_adapter_ self) ∧ zero_hertz_adapter_ self' = None
  | absent =>
      zero_hertz_adapter_ self = None ∧ zero_hertz_adapter_ self' = None
  end.

(** The operation leaves alone what decides on the activation of the
    zero-hertz mode, and keeps the mode if there is one. *)
Definition mode_evolves (self self' : t) : Prop :=
  zero_hertz_screenshare_enabled_ self' = zero_hertz_screenshare_enabled_ self
  ∧ source_constraints_ self' = source_constraints_ self
  ∧ zero_hertz_params_ self' = zero_hertz_params_ self
  ∧ match zero_hertz_adapter_ self, zero_hertz_adapter_ self' with
    | Some mode, Some mode' => same_configuration mode mode'
    | None, None => True
    | _, _ => False
    end.
End AdapterVocabulary.

(** ** The cadence: a zero-hertz mode and its delayed tasks

    The task queue holds the delayed tasks the mode posted and has not run
    yet; any of them may be the next to fire. *)

Section CadenceVocabulary.
Context {ext : External}.
Import ZeroHertzAdapterMode.

(** The delayed tasks an operation posted, in order. *)
Definition posted_tasks (effects : list Effect) : list Task :=
  omap (λ effect,
          match effect with
          | PostDelayedTask task _ => Some task
          | _ => None
          end) effects.

Record Cadence := {
  cadence_mode : t;
  pending : list Task;
}.

Inductive CadenceEvent :=
| FrameArrives (post_time : Timestamp) (frames_scheduled_for_processing : Z)
    (frame : VideoFrame)
| TaskFires (now : Timestamp) (k : nat)
| LayerStatusChanges (spatial_index : Z) (enabled : bool)
| LayerQualityChanges (spatial_index : Z) (quality_converged : bool).

Definition cadence_step (event : CadenceEvent) (c : Cadence)
  : option (Cadence * list Effect) :=
  match event with
  | FrameArrives post_time n frame =>
      '(mode, effects) ← OnFrame post_time n frame (cadence_mode c);
      Some ({| cadence_mode := mode;
               pending := pending c ++ posted_tasks effects |}, effects)
  | TaskFires now k =>
      task ← pending c !! k;
      '(mode, effects) ← run_task now task (cadence_mode c);
      Some ({| cadence_mode := mode;
               pending := delete k (pending c) ++ posted_tasks effects |},
            effects)
  | LayerStatusChanges spatial_index enabled =>
      mode ← UpdateLayerStatus spatial_index enabled (cadence_mode c);
      Some ({| cadence_mode := mode; pending := pending c |}, [])
  | LayerQualityChanges spatial_index quality_converged =>
      mode ← UpdateLayerQualityConvergence spatial_index quality_converged
                (cadence_mode c);
      Some ({| cadence_mode := mode; pending := pending c |}, [])
  end.

Fixpoint cadence_run (events : list CadenceEvent) (c : Cadence)
  : option (Cadence * list Effect) :=
  match events with
  | [] => Some (c, [])
  | event :: events =>
      '(c, effects) ← cadence_step event c;
      '(c, effects') ← cadence_run events c;
      Some (c, effects ++ effects')
  end.

(** A mode as constructed, before any task is posted. *)
Definition new_cadence (callback : Callback) (max_fps : float)
    (params : ZeroHertzModeParams) : Cadence :=
  {| cadence_mode := new callback max_fps params; pending := [] |}.

Fixpoint count_tasks (p : Task → bool) (tasks : list Task) : nat :=
  match tasks with
  | [] => 0
  | task :: tasks => ((if p task then 1 else 0) + count_tasks p tasks)%nat
  end.

(** The task [OnFrame] posts. *)
Definition is_first_task (task : Task) : bool :=
  match task with
  | ProcessOnDelayedCadenceTask => true
  | _ => false
  end.

(** A repeat task of the frame with id [frame_id]. *)
Definition is_repeat_of (frame_id : Z) (task : Task) : bool :=
  match task with
  | ProcessRepeatedFrameOnDelayedCadenceTask id _ => id =? frame_id
  | _ => false
  end.

(** A task of the mode whose frame id, if it has one, is not ahead of
    [frame_id]. *)
Definition not_ahead_of (frame_id : Z) (task : Task) : Prop :=
  match task with
  | ProcessOnDelayedCadenceTask => True
  | ProcessRepeatedFrameOnDelayedCadenceTask id _ => id ≤ frame_id
  | _ => False
  end.

(** The state of a cadence between operations: one first task is pending
    per queued frame unless the mode repeats; a repeating mode has one
    queued frame and one pending repeat task with the current frame id; a
    mode that does not repeat has none. *)
Definition cadence_ok (c : Cadence) : Prop :=
  let mode := cadence_mode c in
  count_tasks is_first_task (pending c)
  = (if is_repeating_ mode then 0%nat else length (queued_frames_ mode))
  ∧ (is_repeating_ mode = true → length (queued_frames_ mode) = 1%nat)
  ∧ count_tasks (is_repeat_of (current_frame_id_ mode)) (pending c)
    = (if is_repeating_ mode then 1%nat else 0%nat)
  ∧ Forall (not_ahead_of (current_frame_id_ mode)) (pending c)
  ∧ (queued_frames_ mode = [] → pending c = []).

(** Frames arrive one after the other. *)
Fixpoint receive (arrivals : list (Timestamp * Z * VideoFrame)) (mode : t)
  : option t :=
  match arrivals with
  | [] => Some mode
  | (post_time, n, frame) :: arrivals =>
      '(mode, _) ← OnFrame post_time n frame mode;
      receive arrivals mode
  end.

(** The first tasks of the queued frames fire one after the other, at the
    given times. *)
Fixpoint drain (times : list Timestamp) (mode : t)
  : option (t * list Effect) :=
  match times with
  | [] => Some (mode, [])
  | now :: times =>
      '(mode, effects) ← ProcessOnDelayedCadence now mode;
      '(mode, effects') ← drain times mode;
      Some (mode, effects ++ effects')
  end.
End CadenceVocabulary.

Section CounterVocabulary.
Context {ext : External}.
Import FrameCadenceAdapterImpl.

(** The frames a run posts with [OnFrame], and the frame tasks it runs. *)
Definition posts_frame (op : Op) : Z :=
  match op with
  | CallOnFrame _ _ => 1
  | _ => 0
  end.

Definition runs_frame_task (op : Op) : Z :=
  match op with
  | RunTask _ (OnFrameTask _ _) => 1
  | _ => 0
  end.

Definition frames_in_flight (ops : list Op) : Z :=
  foldr (λ op total, posts_frame op - runs_frame_task op + total) 0 ops.

(** [current_adapter_mode_] is null or points to a mode that exists. *)
Definition mode_pointer_valid (self : t) : Prop :=
  match current_adapter_mode_ self with
  | null_adapter_mode => True
  | to_passthrough_adapter => is_Some (passthrough_adapter_ self)
  | to_zero_hertz_adapter => is_Some (zero_hertz_adapter_ self)
  end.
End CounterVocabulary.

(** * Properties *)

(** ** Layer trackers *)

Section LayerTrackers.
Context {ext : External}.
Import ZeroHertzAdapterMode.

Lemma tracker_at_lookup (i : Z) (mode : t) :
  0 ≤ i → tracker_at i mode = layer_trackers_ mode !! Z.to_nat i.
Proof.
  intros Hi. unfold tracker_at.
  destruct (Z.leb_spec 0 i) as [_|Hlt]; [reflexivity | lia].
Qed.

Lemma tracker_at_only_layer (i : Z) (tracker : SpatialLayerTracker)
    (mode mode' : t) :
  in_range i mode →
  only_layer i tracker mode mode' →
  tracker_at i mode' = Some tracker
  ∧ ∀ j, j ≠ i → tracker_at j mode' = tracker_at j mode.
Proof.
  intros [Hlo Hhi] ->. split.
  - rewrite tracker_at_lookup by assumption. simpl.
    apply list_lookup_insert_eq. lia.
  - intros j Hj. unfold tracker_at. simpl.
    destruct (Z.leb_spec 0 j) as [Hj0|_]; [|reflexivity].
    apply list_lookup_insert_ne. lia.
Qed.

Lemma UpdateLayerStatus_enable_disabled (i : Z) (mode : t) :
  tracker_at i mode = Some Disabled →
  ∃ mode', UpdateLayerStatus i true mode = Some mode'
           ∧ only_layer i (Enabled false) mode mode'.
Proof.
  intros Ht. unfold UpdateLayerStatus. rewrite Ht. simpl.
  eexists. split; reflexivity.
Qed.

Lemma UpdateLayerStatus_enable_enabled (i : Z) (c : bool) (mode : t) :
  tracker_at i mode = Some (Enabled c) →
  UpdateLayerStatus i true mode = Some mode.
Proof. intros Ht. unfold UpdateLayerStatus. rewrite Ht. reflexivity. Qed.

Lemma UpdateLayerStatus_disable (i : Z) (tracker : SpatialLayerTracker)
    (mode : t) :
  tracker_at i mode = Some tracker →
  ∃ mode', UpdateLayerStatus i false mode = Some mode'
           ∧ only_layer i Disabled mode mode'.
Proof.
  intros Ht. unfold UpdateLayerStatus. rewrite Ht. simpl.
  eexists. split; reflexivity.
Qed.

Lemma UpdateLayerQualityConvergence_enabled (i : Z) (c0 c : bool) (mode : t) :
  tracker_at i mode = Some (Enabled c0) →
  ∃ mode', UpdateLayerQualityConvergence i c mode = Some mode'
           ∧ only_layer i (Enabled c) mode mode'.
Proof.
  intros Ht. unfold UpdateLayerQualityConvergence. rewrite Ht. simpl.
  eexists. split; reflexivity.
Qed.

Lemma UpdateLayerQualityConvergence_disabled (i : Z) (c : bool) (mode : t) :
  tracker_at i mode = Some Disabled →
  UpdateLayerQualityConvergence i c mode = Some mode.
Proof.
  intros Ht. unfold UpdateLayerQualityConvergence. rewrite Ht. reflexivity.
Qed.

Lemma in_range_only_layer (i j : Z) (tracker : SpatialLayerTracker)
    (mode mode' : t) :
  only_layer j tracker mode mode' → in_range i mode → in_range i mode'.
Proof.
  intros -> Hi. unfold in_range in *. simpl. rewrite length_insert. exact Hi.
Qed.

(** C8. For an in-range spatial index [i]: [UpdateLayerStatus(i, true)]
    takes a disabled tracker to enabled and not converged and leaves an
    enabled tracker as it is; [UpdateLayerStatus(i, false)] disables the
    tracker whatever its state; [UpdateLayerQualityConvergence(i, c)] sets
    the convergence of an enabled tracker to [c] and does nothing to a
    disabled one; no call touches another layer. Hence disabling, reporting
    convergence and enabling again, in this order, leaves layer [i] enabled
    and not converged. *)
Theorem layer_updates (i : Z) (mode : t) :
  in_range i mode →
  (tracker_at i mode = Some Disabled →
   ∃ mode', UpdateLayerStatus i true mode = Some mode'
            ∧ tracker_at i mode' = Some (Enabled false)
            ∧ ∀ j, j ≠ i → tracker_at j mode' = tracker_at j mode)
  ∧ (∀ c, tracker_at i mode = Some (Enabled c) →
          UpdateLayerStatus i true mode = Some mode)
  ∧ (∃ mode', UpdateLayerStatus i false mode = Some mode'
              ∧ tracker_at i mode' = Some Disabled
              ∧ ∀ j, j ≠ i → tracker_at j mode' = tracker_at j mode)
  ∧ (∀ c0 c, tracker_at i mode = Some (Enabled c0) →
       ∃ mode', UpdateLayerQualityConvergence i c mode = Some mode'
                ∧ tracker_at i mode' = Some (Enabled c)
                ∧ ∀ j, j ≠ i → tracker_at j mode' = tracker_at j mode)
  ∧ (∀ c, tracker_at i mode = Some Disabled →
          UpdateLayerQualityConvergence i c mode = Some mode)
  ∧ (∃ mode1 mode2 mode3,
       UpdateLayerStatus i false mode = Some mode1
       ∧ UpdateLayerQualityConvergence i true mode1 = Some mode2
       ∧ UpdateLayerStatus i true mode2 = Some mode3
       ∧ tracker_at i mode3 = Some (Enabled false)
       ∧ ∀ j, j ≠ i → tracker_at j mode3 = tracker_at j mode).
Proof.
  intros Hi.
  assert (∃ tracker, tracker_at i mode = Some tracker) as [tracker Ht].
  { destruct Hi as [Hlo Hhi]. rewrite tracker_at_lookup by assumption.
    apply lookup_lt_is_Some_2. lia. }
  repeat split.
  - intros Hd. destruct (UpdateLayerStatus_enable_disabled i mode Hd)
      as (mode' & Hrun & Honly).
    exists mode'. split; [exact Hrun|].
    exact (tracker_at_only_layer _ _ _ _ Hi Honly).
  - intros c. apply UpdateLayerStatus_enable_enabled.
  - destruct (UpdateLayerStatus_disable i tracker mode Ht)
      as (mode' & Hrun & Honly).
    exists mode'. split; [exact Hrun|].
    exact (tracker_at_only_layer _ _ _ _ Hi Honly).
  - intros c0 c He.
    destruct (UpdateLayerQualityConvergence_enabled i c0 c mode He)
      as (mode' & Hrun & Honly).
    exists mode'. split; [exact Hrun|].
    exact (tracker_at_only_layer _ _ _ _ Hi Honly).
  - intros c. apply UpdateLayerQualityConvergence_disabled.
  - destruct (UpdateLayerStatus_disable i tracker mode Ht)
      as (mode1 & Hrun1 & Honly1).
    destruct (tracker_at_only_layer _ _ _ _ Hi Honly1) as [Hat1 Hother1].
    pose proof (in_range_only_layer i i _ _ _ Honly1 Hi) as Hi1.
    pose proof (UpdateLayerQualityConvergence_disabled i true mode1 Hat1)
      as Hrun2.
    destruct (UpdateLayerStatus_enable_disabled i mode1 Hat1)
      as (mode3 & Hrun3 & Honly3).
    destruct (tracker_at_only_layer _ _ _ _ Hi1 Honly3) as [Hat3 Hother3].
    exists mode1, mode1, mode3. repeat split; try assumption.
    intros j Hj. rewrite Hother3, Hother1 by assumption. reflexivity.
Qed.
End LayerTrackers.

(** ** Scheduling in the zero-hertz mode *)

Section Scheduling.
Context {ext : External}.
Import ZeroHertzAdapterMode.

Lemma converged_or_disabled_spec (tracker : SpatialLayerTracker) :
  converged_or_disabled tracker = true
  ↔ ∀ c, tracker = Enabled c → c = true.
Proof.
  destruct tracker as [[[]|]]; unfold converged_or_disabled, Enabled; simpl.
  - split; [intros _ c Hc; congruence | reflexivity].
  - split; [discriminate | intros H; exact (H false eq_refl)].
  - split; [intros _ c Hc; discriminate | reflexivity].
Qed.

Lemma all_converged_spec (trackers : list SpatialLayerTracker) :
  forallb converged_or_disabled trackers = true
  ↔ ∀ i c, trackers !! i = Some (Enabled c) → c = true.
Proof.
  induction trackers as [|tracker trackers IH]; simpl.
  - split; [intros _ i c Hi; destruct i; discriminate | reflexivity].
  - rewrite andb_true_iff, IH, converged_or_disabled_spec. split.
    + intros [Hhead Htail] [|i] c Hi; simpl in Hi.
      * apply Hhead. congruence.
      * exact (Htail i c Hi).
    + intros Hall. split.
      * intros c ->. exact (Hall 0%nat c eq_refl).
      * intros i c Hi. exact (Hall (S i) c Hi).
Qed.

(** C2. [ScheduleRepeat] posts one task, [ProcessRepeatedFrameOnDelayedCadence]
    with the given frame id and the repeat delay, delayed by that repeat
    delay. The repeat delay is [kZeroHertzIdleRepeatRatePeriod] when the
    convergence flag is set and [frame_delay_] otherwise, where the flag is
    set if and only if every enabled tracker is converged: disabled trackers
    do not count, and the flag is set when no tracker is enabled or there is
    no tracker at all. [frame_delay_] is one second divided by [max_fps]
    from the construction of the mode on. *)
Theorem schedule_repeat_delay (frame_id : Z) (mode : t) :
  ∃ quality_converged : bool,
    (quality_converged = true
     ↔ ∀ i c, layer_trackers_ mode !! i = Some (Enabled c) → c = true)
    ∧ ((∀ i tracker, layer_trackers_ mode !! i = Some tracker →
                     tracker = Disabled) →
       quality_converged = true)
    ∧ (let repeat_delay :=
         if quality_converged then kZeroHertzIdleRepeatRatePeriod
         else frame_delay_ mode in
       ScheduleRepeat frame_id mode =
         [PostDelayedTask
            (ProcessRepeatedFrameOnDelayedCadenceTask frame_id repeat_delay)
            (TimeDelta_ms repeat_delay)])
    ∧ ∀ callback max_fps params,
        frame_delay_ (new callback max_fps params)
        = TimeDelta_Seconds1_div max_fps.
Proof.
  exists (forallb converged_or_disabled (layer_trackers_ mode)).
  split; [apply all_converged_spec|]. split; [|split; reflexivity].
  intros Hdisabled. apply all_converged_spec. intros i c Hi.
  apply Hdisabled in Hi. discriminate.
Qed.

(** C3. [OnFrame] on a mode whose queue holds one frame when it is
    repeating, and whose frame id is below [INT_MAX]: every enabled tracker
    becomes not converged and every disabled one stays disabled; the stale
    frame is removed if the mode was repeating; the frame is appended to the
    queue; the frame id grows by one; [is_repeating_] is cleared; the
    configuration is kept; and exactly one task is posted,
    [ProcessOnDelayedCadence] delayed by [frame_delay_]. *)
Theorem on_frame_effect (post_time : Timestamp)
    (frames_scheduled_for_processing : Z) (frame : VideoFrame) (mode : t) :
  (is_repeating_ mode = true → length (queued_frames_ mode) = 1%nat) →
  INT_MIN ≤ current_frame_id_ mode < INT_MAX →
  ∃ mode',
    OnFrame post_time frames_scheduled_for_processing frame mode
    = Some (mode',
            [PostDelayedTask ProcessOnDelayedCadenceTask
               (TimeDelta_ms (frame_delay_ mode))])
    ∧ length (layer_trackers_ mode') = length (layer_trackers_ mode)
    ∧ (∀ i c, layer_trackers_ mode !! i = Some (Enabled c) →
              layer_trackers_ mode' !! i = Some (Enabled false))
    ∧ (∀ i, layer_trackers_ mode !! i = Some Disabled →
            layer_trackers_ mode' !! i = Some Disabled)
    ∧ queued_frames_ mode'
      = (if is_repeating_ mode then [] else queued_frames_ mode) ++ [frame]
    ∧ current_frame_id_ mode' = current_frame_id_ mode + 1
    ∧ is_repeating_ mode' = false
    ∧ callback_ mode' = callback_ mode
    ∧ max_fps_ mode' = max_fps_ mode
    ∧ frame_delay_ mode' = frame_delay_ mode.
Proof.
  intros Hrepeating [Hmin Hmax].
  assert (int_add (current_frame_id_ mode) 1
          = Some (current_frame_id_ mode + 1)) as Hid.
  { unfold int_add. simpl.
    destruct (Z.leb_spec INT_MIN (current_frame_id_ mode + 1)); [|lia].
    destruct (Z.leb_spec (current_frame_id_ mode + 1) INT_MAX); [|lia].
    reflexivity. }
  unfold OnFrame. simpl.
  destruct (is_repeating_ mode) eqn:Hrep; simpl.
  - rewrite (Hrepeating eq_refl). simpl. rewrite Hid. simpl.
    eexists. split; [reflexivity|]. simpl.
    destruct (queued_frames_ mode) as [|stale [|? ?]] eqn:Hq;
      try (specialize (Hrepeating eq_refl); discriminate).
    repeat split.
    + apply length_fmap.
    + intros i c Hi. rewrite list_lookup_fmap, Hi. reflexivity.
    + intros i Hi. rewrite list_lookup_fmap, Hi. reflexivity.
  - rewrite Hid. simpl. eexists. split; [reflexivity|]. simpl.
    repeat split.
    + apply length_fmap.
    + intros i c Hi. rewrite list_lookup_fmap, Hi. reflexivity.
    + intros i Hi. rewrite list_lookup_fmap, Hi. reflexivity.
Qed.
End Scheduling.

(** ** Repeats and their cancellation *)

Section Repeats.
Context {ext : External}.
Import ZeroHertzAdapterMode.

(** Case analysis on the timestamp adjustments of a repeat. *)
Ltac case_adjustment :=
  match goal with
  | |- context [int64_add ?a ?b] => destruct (int64_add a b)
  | |- context [if ?b then _ else _] => destruct b
  end.

Lemma int64_add_in_range (a b : Z) :
  INT64_MIN ≤ a + b ≤ INT64_MAX → int64_add a b = Some (a + b).
Proof.
  intros [Hmin Hmax]. unfold int64_add. simpl.
  destruct (Z.leb_spec INT64_MIN (a + b)); [|lia].
  destruct (Z.leb_spec (a + b) INT64_MAX); [|lia].
  reflexivity.
Qed.

Lemma call_OnFrame_Some (callback : Callback) (post_time : Timestamp)
    (n : Z) (frame : VideoFrame) :
  callback ≠ nullptr →
  call_OnFrame callback post_time n frame
  = Some [Callback_OnFrame callback post_time n frame].
Proof.
  intros Hcb. unfold call_OnFrame.
  destruct (Nat.eqb_spec callback nullptr); [contradiction | reflexivity].
Qed.

Lemma call_OnFrame_inv (callback : Callback) (post_time : Timestamp)
    (n : Z) (frame : VideoFrame) (sent : list Effect) :
  call_OnFrame callback post_time n frame = Some sent →
  sent = [Callback_OnFrame callback post_time n frame].
Proof.
  unfold call_OnFrame. destruct (callback =? nullptr)%nat; congruence.
Qed.

(** A stale repeat task changes nothing and has no effect. *)
Lemma stale_repeat_is_noop (now : Timestamp) (frame_id : Z)
    (scheduled_delay : TimeDelta) (mode : t) :
  queued_frames_ mode ≠ [] →
  frame_id ≠ current_frame_id_ mode →
  ProcessRepeatedFrameOnDelayedCadence now frame_id scheduled_delay mode
  = Some (mode, []).
Proof.
  intros Hq Hid. unfold ProcessRepeatedFrameOnDelayedCadence.
  destruct (queued_frames_ mode); [contradiction|].
  destruct (Z.eqb_spec frame_id (current_frame_id_ mode));
    [contradiction | reflexivity].
Qed.

(** The repeat tasks posted by [ScheduleRepeat] carry its argument. *)
Lemma ScheduleRepeat_posts (frame_id fid : Z) (d : TimeDelta) (ms : Z)
    (mode : t) :
  PostDelayedTask (ProcessRepeatedFrameOnDelayedCadenceTask fid d) ms
    ∈ ScheduleRepeat frame_id mode →
  fid = frame_id.
Proof.
  unfold ScheduleRepeat. rewrite list_elem_of_singleton. congruence.
Qed.

Lemma posted_after_send (callback : Callback) (post_time : Timestamp)
    (n : Z) (frame : VideoFrame) (task : Task) (ms : Z)
    (effects : list Effect) :
  PostDelayedTask task ms
    ∈ Callback_OnFrame callback post_time n frame :: effects →
  PostDelayedTask task ms ∈ effects.
Proof.
  rewrite elem_of_cons. intros [Heq|Hin]; [discriminate | exact Hin].
Qed.

(** Whatever a task of the mode posts as a repeat carries the frame id that
    is current when the task is done, and no task changes the frame id. *)
Lemma posted_repeats_carry_current_id (now : Timestamp) (task : Task)
    (mode mode' : t) (effects : list Effect) (fid : Z) (d : TimeDelta)
    (ms : Z) :
  run_task now task mode = Some (mode', effects) →
  PostDelayedTask (ProcessRepeatedFrameOnDelayedCadenceTask fid d) ms
    ∈ effects →
  fid = current_frame_id_ mode'
  ∧ current_frame_id_ mode' = current_frame_id_ mode.
Proof.
  destruct task as [|frame_id repeat_delay| |]; simpl.
  - unfold ProcessOnDelayedCadence.
    destruct (queued_frames_ mode) as [|front rest]; [discriminate|].
    unfold SendFrameNow.
    destruct (call_OnFrame _ _ _ _) as [sent|] eqn:Hsent; [|discriminate].
    apply call_OnFrame_inv in Hsent as ->. simpl.
    destruct rest as [|second rest]; simpl.
    + intros [= <- <-] Hin. apply posted_after_send in Hin.
      apply ScheduleRepeat_posts in Hin. split; [exact Hin | reflexivity].
    + intros [= <- <-] Hin. apply posted_after_send in Hin.
      apply elem_of_nil in Hin. contradiction.
  - unfold ProcessRepeatedFrameOnDelayedCadence.
    destruct (queued_frames_ mode) as [|frame rest]; [discriminate|].
    destruct (Z.eqb_spec frame_id (current_frame_id_ mode)) as [->|Hne];
      simpl.
    + unfold SendFrameNow.
      repeat (case_adjustment; simpl); try discriminate;
        (destruct (call_OnFrame _ _ _ _) as [sent|] eqn:Hsent;
         [|discriminate]);
        apply call_OnFrame_inv in Hsent as ->; simpl;
        intros [= <- <-] Hin; apply posted_after_send in Hin;
        apply ScheduleRepeat_posts in Hin; (split; [exact Hin | reflexivity]).
    + intros [= <- <-] Hin. apply elem_of_nil in Hin. contradiction.
  - intros [= <- <-] Hin. apply elem_of_nil in Hin. contradiction.
  - intros [= <- <-] Hin. apply elem_of_nil in Hin. contradiction.
Qed.

(** The task posted by [OnFrame] delivers the front frame whenever it
    runs. *)
Lemma ProcessOnDelayedCadence_delivers (now : Timestamp) (mode : t)
    (front : VideoFrame) (rest : list VideoFrame) :
  callback_ mode ≠ nullptr →
  queued_frames_ mode = front :: rest →
  ∃ mode' effects,
    ProcessOnDelayedCadence now mode
    = Some (mode', Callback_OnFrame (callback_ mode) now 1 front :: effects).
Proof.
  intros Hcb Hq. unfold ProcessOnDelayedCadence, SendFrameNow. rewrite Hq.
  rewrite (call_OnFrame_Some _ _ _ _ Hcb). simpl.
  destruct rest; simpl; eexists _, _; reflexivity.
Qed.

Lemma repeat_step (now : Timestamp) (scheduled_delay : TimeDelta) (mode : t)
    (frame : VideoFrame) (rest : list VideoFrame) :
  queued_frames_ mode = frame :: rest →
  callback_ mode ≠ nullptr →
  (0 < timestamp_us frame →
   INT64_MIN ≤ timestamp_us frame + TimeDelta_us scheduled_delay ≤ INT64_MAX) →
  (ntp_time_ms frame ≠ 0 →
   INT64_MIN ≤ ntp_time_ms frame + TimeDelta_ms scheduled_delay ≤ INT64_MAX) →
  ProcessRepeatedFrameOnDelayedCadence now (current_frame_id_ mode)
    scheduled_delay mode
  = Some (set_queued_frames (repeated scheduled_delay frame :: rest) mode,
          Callback_OnFrame (callback_ mode) now 1
            (repeated scheduled_delay frame)
          :: ScheduleRepeat (current_frame_id_ mode) mode).
Proof.
  intros Hq Hcb Hts Hntp.
  unfold ProcessRepeatedFrameOnDelayedCadence, SendFrameNow, repeated.
  rewrite Hq, Z.eqb_refl. simpl. rewrite Z.gtb_ltb.
  destruct (Z.ltb_spec 0 (timestamp_us frame)) as [Hpos|_]; simpl.
  - rewrite (int64_add_in_range _ _ (Hts Hpos)). simpl.
    destruct (Z.eqb_spec (ntp_time_ms frame) 0) as [_|Hnz]; simpl.
    + rewrite (call_OnFrame_Some _ _ _ _ Hcb). reflexivity.
    + rewrite (int64_add_in_range _ _ (Hntp Hnz)). simpl.
      rewrite (call_OnFrame_Some _ _ _ _ Hcb). reflexivity.
  - destruct (Z.eqb_spec (ntp_time_ms frame) 0) as [_|Hnz]; simpl.
    + rewrite (call_OnFrame_Some _ _ _ _ Hcb). reflexivity.
    + rewrite (int64_add_in_range _ _ (Hntp Hnz)). simpl.
      rewrite (call_OnFrame_Some _ _ _ _ Hcb). reflexivity.
Qed.

Lemma repeated_positive (scheduled_delay : TimeDelta) (frame : VideoFrame) :
  0 < timestamp_us frame → 0 < ntp_time_ms frame →
  timestamp_us (repeated scheduled_delay frame)
  = timestamp_us frame + TimeDelta_us scheduled_delay
  ∧ ntp_time_ms (repeated scheduled_delay frame)
    = ntp_time_ms frame + TimeDelta_ms scheduled_delay.
Proof.
  intros Hts Hntp. unfold repeated. simpl.
  destruct (Z.ltb_spec 0 (timestamp_us frame)); [|lia].
  destruct (Z.eqb_spec (ntp_time_ms frame) 0); [lia|].
  split; reflexivity.
Qed.

(** A run of repeats of a frame with positive timestamps sends the frames
    of [repeated_frames]. *)
Lemma repeats_deliver (schedule : list (Timestamp * TimeDelta)) :
  ∀ (mode : t) (frame : VideoFrame) (rest : list VideoFrame),
    queued_frames_ mode = frame :: rest →
    callback_ mode ≠ nullptr →
    0 < timestamp_us frame → 0 < ntp_time_ms frame →
    Forall (λ entry, 0 < TimeDelta_us entry.2 ∧ 0 < TimeDelta_ms entry.2)
      schedule →
    timestamp_us frame + total_us schedule ≤ INT64_MAX →
    ntp_time_ms frame + total_ms schedule ≤ INT64_MAX →
    ∃ mode' effects,
      repeats (current_frame_id_ mode) schedule mode = Some (mode', effects)
      ∧ delivered effects = repeated_frames frame schedule.
Proof.
  induction schedule as [|[now d] schedule IH];
    intros mode frame rest Hq Hcb Hts Hntp Hpos Hmax_us Hmax_ms.
  - exists mode, []. split; reflexivity.
  - apply Forall_cons in Hpos as [[Hus Hms] Hpos]. simpl in Hus, Hms.
    unfold total_us in Hmax_us. unfold total_ms in Hmax_ms.
    simpl in Hmax_us, Hmax_ms.
    fold (total_us schedule) in Hmax_us. fold (total_ms schedule) in Hmax_ms.
    assert (0 ≤ total_us schedule ∧ 0 ≤ total_ms schedule) as [Hsum_us Hsum_ms].
    { clear -Hpos. induction Hpos as [|entry entries [Hu Hm] _ [IHu IHm]].
      - split; reflexivity.
      - unfold total_us, total_ms in *. simpl. lia. }
    destruct (repeated_positive d frame Hts Hntp) as [Hts' Hntp'].
    assert (INT64_MIN < 0) by reflexivity.
    simpl. rewrite (repeat_step now d mode frame rest Hq Hcb) by lia. simpl.
    destruct (IH (set_queued_frames (repeated d frame :: rest) mode)
                (repeated d frame) rest eq_refl Hcb)
      as (mode' & effects & Hrun & Hdelivered); try assumption; try lia.
    simpl in Hrun. rewrite Hrun. simpl.
    exists mode'. eexists. split; [reflexivity|].
    rewrite <- Hdelivered. reflexivity.
Qed.

(** In a run of repeats of a frame with positive timestamps, each frame
    exceeds the one sent before it by the scheduled delay. *)
Lemma repeated_frames_successive (schedule : list (Timestamp * TimeDelta)) :
  ∀ (frame : VideoFrame) (k : nat) (prior next : VideoFrame)
    (entry : Timestamp * TimeDelta),
    0 < timestamp_us frame → 0 < ntp_time_ms frame →
    Forall (λ entry, 0 < TimeDelta_us entry.2 ∧ 0 < TimeDelta_ms entry.2)
      schedule →
    (frame :: repeated_frames frame schedule) !! k = Some prior →
    repeated_frames frame schedule !! k = Some next →
    schedule !! k = Some entry →
    UpdateRect_IsEmpty (update_rect next) = true
    ∧ timestamp_us next = timestamp_us prior + TimeDelta_us entry.2
    ∧ ntp_time_ms next = ntp_time_ms prior + TimeDelta_ms entry.2.
Proof.
  induction schedule as [|[now d] schedule IH];
    intros frame k prior next entry Hts Hntp Hpos Hprior Hnext Hentry.
  - destruct k; discriminate.
  - apply Forall_cons in Hpos as [[Hus Hms] Hpos]. simpl in Hus, Hms.
    destruct (repeated_positive d frame Hts Hntp) as [Hts' Hntp'].
    destruct k as [|k]; simpl in Hprior, Hnext, Hentry.
    + injection Hprior as <-. injection Hnext as <-. injection Hentry as <-.
      simpl. split; [reflexivity|]. split; assumption.
    + apply (IH (repeated d frame) k prior next entry); try assumption;
        [rewrite Hts' | rewrite Hntp']; lia.
Qed.

Lemma length_repeated_frames (schedule : list (Timestamp * TimeDelta)) :
  ∀ frame, length (repeated_frames frame schedule) = length schedule.
Proof.
  induction schedule as [|entry schedule IH]; intros frame; simpl;
    [reflexivity | rewrite IH; reflexivity].
Qed.

Lemma OnFrame_posts (post_time : Timestamp) (n : Z) (frame : VideoFrame)
    (mode mode' : t) (effects : list Effect) :
  OnFrame post_time n frame mode = Some (mode', effects) →
  effects = [PostDelayedTask ProcessOnDelayedCadenceTask
               (TimeDelta_ms (frame_delay_ mode))].
Proof.
  unfold OnFrame. simpl.
  destruct (is_repeating_ mode); simpl.
  - destruct (length (queued_frames_ mode) =? 1)%nat; simpl; [|discriminate].
    destruct (int_add _ _); simpl; [|discriminate]. congruence.
  - destruct (int_add _ _); simpl; [|discriminate]. congruence.
Qed.

Lemma OnFrame_succeeds (post_time : Timestamp) (n : Z) (frame : VideoFrame)
    (mode : t) :
  (is_repeating_ mode = true → length (queued_frames_ mode) = 1%nat) →
  INT_MIN ≤ current_frame_id_ mode < INT_MAX →
  is_Some (OnFrame post_time n frame mode).
Proof.
  intros Hone [Hmin Hmax].
  assert (int_add (current_frame_id_ mode) 1
          = Some (current_frame_id_ mode + 1)) as Hid.
  { unfold int_add. simpl.
    destruct (Z.leb_spec INT_MIN (current_frame_id_ mode + 1)); [|lia].
    destruct (Z.leb_spec (current_frame_id_ mode + 1) INT_MAX); [|lia].
    reflexivity. }
  unfold OnFrame. simpl.
  destruct (is_repeating_ mode); simpl.
  - rewrite (Hone eq_refl). simpl. rewrite Hid. simpl. eauto.
  - rewrite Hid. simpl. eauto.
Qed.

(** C1, amended. Every repeat task, the tasks posted by [ScheduleRepeat],
    captures the frame id that is current when it is posted, and does
    nothing when it fires with a frame id that is no longer current. The
    first delayed task of a frame, posted by [OnFrame], captures no frame
    id: when it fires, [ProcessOnDelayedCadence] sends the frame at the
    front of the queue whatever the current frame id is. *)
Theorem repeat_tasks_cancelled_by_frame_id (now : Timestamp) (mode : t) :
  queued_frames_ mode ≠ [] →
  callback_ mode ≠ nullptr →
  (∀ frame_id repeat_delay,
     frame_id ≠ current_frame_id_ mode →
     run_task now
       (ProcessRepeatedFrameOnDelayedCadenceTask frame_id repeat_delay) mode
     = Some (mode, []))
  ∧ (∀ task mode' effects frame_id repeat_delay milliseconds,
       run_task now task mode = Some (mode', effects) →
       PostDelayedTask
         (ProcessRepeatedFrameOnDelayedCadenceTask frame_id repeat_delay)
         milliseconds ∈ effects →
       frame_id = current_frame_id_ mode'
       ∧ current_frame_id_ mode' = current_frame_id_ mode)
  ∧ (∀ post_time n frame mode' effects,
       OnFrame post_time n frame mode = Some (mode', effects) →
       effects = [PostDelayedTask ProcessOnDelayedCadenceTask
                    (TimeDelta_ms (frame_delay_ mode))])
  ∧ (∃ front mode' effects,
       head (queued_frames_ mode) = Some front
       ∧ run_task now ProcessOnDelayedCadenceTask mode
         = Some (mode',
                 Callback_OnFrame (callback_ mode) now 1 front :: effects)).
Proof.
  intros Hq Hcb. repeat split.
  - intros frame_id repeat_delay Hid. simpl.
    apply stale_repeat_is_noop; assumption.
  - eapply posted_repeats_carry_current_id; eassumption.
  - eapply posted_repeats_carry_current_id; eassumption.
  - intros post_time n frame mode' effects. apply OnFrame_posts.
  - destruct (queued_frames_ mode) as [|front rest] eqn:Hfront;
      [contradiction|].
    destruct (ProcessOnDelayedCadence_delivers now mode front rest Hcb Hfront)
      as (mode' & effects & Hrun).
    exists front, mode', effects. split; [reflexivity | exact Hrun].
Qed.

(** C4, amended. A repeat task that is not stale (its frame id is the
    current one, the queue is not empty) sends the front frame with an
    empty update rectangle, with [timestamp_us] increased by the scheduled
    delay in microseconds exactly when [timestamp_us] is positive, and with
    [ntp_time_ms] increased by the scheduled delay in milliseconds exactly
    when [ntp_time_ms] is not zero; the frame sent stays at the front of the
    queue. Hence, for a frame with positive timestamps repeated with
    positive delays, the timestamps of each frame sent exceed those of the
    frame sent before it by the scheduled delay. *)
Theorem repeat_adjusts_front_frame (now : Timestamp) (frame_id : Z)
    (mode : t) (frame : VideoFrame) (rest : list VideoFrame) :
  frame_id = current_frame_id_ mode →
  queued_frames_ mode = frame :: rest →
  callback_ mode ≠ nullptr →
  (∀ scheduled_delay,
     (0 < timestamp_us frame →
      INT64_MIN ≤ timestamp_us frame + TimeDelta_us scheduled_delay
      ≤ INT64_MAX) →
     (ntp_time_ms frame ≠ 0 →
      INT64_MIN ≤ ntp_time_ms frame + TimeDelta_ms scheduled_delay
      ≤ INT64_MAX) →
     ∃ frame',
       ProcessRepeatedFrameOnDelayedCadence now frame_id scheduled_delay mode
       = Some (set_queued_frames (frame' :: rest) mode,
               Callback_OnFrame (callback_ mode) now 1 frame'
               :: ScheduleRepeat frame_id mode)
       ∧ UpdateRect_IsEmpty (update_rect frame') = true
       ∧ video_frame_buffer frame' = video_frame_buffer frame
       ∧ timestamp_us frame'
         = (if 0 <? timestamp_us frame
            then timestamp_us frame + TimeDelta_us scheduled_delay
            else timestamp_us frame)
       ∧ ntp_time_ms frame'
         = (if ntp_time_ms frame =? 0 then ntp_time_ms frame
            else ntp_time_ms frame + TimeDelta_ms scheduled_delay))
  ∧ (∀ schedule,
       0 < timestamp_us frame → 0 < ntp_time_ms frame →
       Forall (λ entry, 0 < TimeDelta_us entry.2 ∧ 0 < TimeDelta_ms entry.2)
         schedule →
       timestamp_us frame + total_us schedule ≤ INT64_MAX →
       ntp_time_ms frame + total_ms schedule ≤ INT64_MAX →
       ∃ mode' effects,
         repeats frame_id schedule mode = Some (mode', effects)
         ∧ length (delivered effects) = length schedule
         ∧ ∀ k prior next entry,
             (frame :: delivered effects) !! k = Some prior →
             delivered effects !! k = Some next →
             schedule !! k = Some entry →
             UpdateRect_IsEmpty (update_rect next) = true
             ∧ timestamp_us next = timestamp_us prior + TimeDelta_us entry.2
             ∧ ntp_time_ms next = ntp_time_ms prior + TimeDelta_ms entry.2
             ∧ timestamp_us prior < timestamp_us next
             ∧ ntp_time_ms prior < ntp_time_ms next).
Proof.
  intros -> Hq Hcb. split.
  - intros scheduled_delay Hts Hntp. exists (repeated scheduled_delay frame).
    split; [apply repeat_step; assumption|]. repeat split.
  - intros schedule Hts Hntp Hpos Hmax_us Hmax_ms.
    destruct (repeats_deliver schedule mode frame rest Hq Hcb Hts Hntp Hpos
                Hmax_us Hmax_ms) as (mode' & effects & Hrun & Hdelivered).
    exists mode', effects. split; [exact Hrun|]. rewrite Hdelivered.
    split; [apply length_repeated_frames|].
    intros k prior next entry Hprior Hnext Hentry.
    destruct (repeated_frames_successive schedule frame k prior next entry
                Hts Hntp Hpos Hprior Hnext Hentry) as (Hrect & Hts' & Hntp').
    pose proof (proj1 (Forall_lookup _ _) Hpos k entry Hentry) as [Hus Hms].
    repeat split; try assumption; lia.
Qed.
End Repeats.

(** ** The adapter *)

Section AdapterProperties.
Context {ext : External}.
Import FrameCadenceAdapterImpl.

Lemma MaybeReconfigureAdapters_keeps (was : bool) (self self' : t) :
  MaybeReconfigureAdapters was self = Some self' →
  has_reported_screenshare_frame_rate_umas_ self'
  = has_reported_screenshare_frame_rate_umas_ self
  ∧ zero_hertz_params_ self' = zero_hertz_params_ self
  ∧ source_constraints_ self' = source_constraints_ self
  ∧ zero_hertz_screenshare_enabled_ self'
    = zero_hertz_screenshare_enabled_ self
  ∧ frames_scheduled_for_processing_ self'
    = frames_scheduled_for_processing_ self
  ∧ passthrough_adapter_ self' = passthrough_adapter_ self
  ∧ callback_ self' = callback_ self.
Proof.
  unfold MaybeReconfigureAdapters. intros Hrun.
  repeat case_match; simplify_option_eq; repeat split; done.
Qed.

Lemma uma_reports_app (effects effects' : list Effect) :
  uma_reports (effects ++ effects')
  = (uma_reports effects + uma_reports effects')%nat.
Proof.
  induction effects as [|effect effects IH]; simpl; [reflexivity|].
  rewrite IH. lia.
Qed.

(** The modes report no histogram. *)
Lemma zero_hertz_task_reports (now : Timestamp) (task : Task)
    (mode mode' : ZeroHertzAdapterMode.t) (effects : list Effect) :
  ZeroHertzAdapterMode.run_task now task mode = Some (mode', effects) →
  uma_reports effects = 0%nat.
Proof.
  destruct task as [|frame_id repeat_delay| |]; simpl.
  - unfold ZeroHertzAdapterMode.ProcessOnDelayedCadence,
      ZeroHertzAdapterMode.SendFrameNow, call_OnFrame.
    intros Hrun. repeat (case_match; simplify_option_eq); reflexivity.
  - unfold ZeroHertzAdapterMode.ProcessRepeatedFrameOnDelayedCadence,
      ZeroHertzAdapterMode.SendFrameNow, call_OnFrame.
    intros Hrun. repeat (case_match; simplify_option_eq); reflexivity.
  - intros [= <- <-]. reflexivity.
  - intros [= <- <-]. reflexivity.
Qed.

Lemma OnFrameOnMainQueue_keeps (post_time : Timestamp) (n : Z)
    (frame : VideoFrame) (self self' : t) (effects : list Effect) :
  OnFrameOnMainQueue post_time n frame self = Some (self', effects) →
  uma_reports effects = 0%nat
  ∧ has_reported_screenshare_frame_rate_umas_ self'
    = has_reported_screenshare_frame_rate_umas_ self
  ∧ zero_hertz_params_ self' = zero_hertz_params_ self
  ∧ source_constraints_ self' = source_constraints_ self
  ∧ zero_hertz_screenshare_enabled_ self'
    = zero_hertz_screenshare_enabled_ self
  ∧ frames_scheduled_for_processing_ self'
    = frames_scheduled_for_processing_ self.
Proof.
  unfold OnFrameOnMainQueue. intros Hrun.
  destruct (current_adapter_mode_ self); [discriminate| |].
  - unfold PassthroughAdapterMode.OnFrame, call_OnFrame in Hrun.
    destruct (passthrough_adapter_ self) as [mode|]; [|discriminate].
    simpl in Hrun.
    destruct (PassthroughAdapterMode.callback_ mode =? nullptr)%nat;
      [discriminate|].
    simpl in Hrun. injection Hrun as <- <-. repeat split.
  - destruct (zero_hertz_adapter_ self) as [mode|]; [|discriminate].
    simpl in Hrun.
    destruct (ZeroHertzAdapterMode.OnFrame post_time n frame mode)
      as [[mode' posted]|] eqn:Hmode; [|discriminate].
    apply OnFrame_posts in Hmode as ->. simpl in Hrun.
    injection Hrun as <- <-. repeat split.
Qed.

Lemma report_constraints_reports (constraints : VideoTrackSourceConstraints) :
  uma_reports (report_constraints constraints) = 0%nat.
Proof.
  destruct constraints as [[min|] [max|]]; unfold report_constraints; simpl;
    try reflexivity.
  destruct (min <? max)%float; reflexivity.
Qed.

Lemma MaybeReport_keeps (self self' : t) (effects : list Effect) :
  MaybeReportFrameRateConstraintUmas self = (self', effects) →
  zero_hertz_params_ self' = zero_hertz_params_ self
  ∧ (uma_reports effects + pending_report self' ≤ pending_report self)%nat
  ∧ (uma_reports effects ≠ 0%nat →
     has_value (zero_hertz_params_ self) = true
     ∧ has_reported_screenshare_frame_rate_umas_ self = false
     ∧ uma_reports effects = 1%nat).
Proof.
  unfold MaybeReportFrameRateConstraintUmas, pending_report.
  destruct (has_reported_screenshare_frame_rate_umas_ self) eqn:Hreported.
  - intros [= <- <-]. rewrite Hreported. simpl. repeat split; lia || done.
  - simpl. destruct (zero_hertz_params_ self) as [params|] eqn:Hparams; simpl.
    + intros [= <- <-]. simpl. rewrite Hparams.
      assert (uma_reports
                match source_constraints_ self with
                | Some constraints => report_constraints constraints
                | None => []
                end = 0%nat) as ->.
      { destruct (source_constraints_ self);
          [apply report_constraints_reports | reflexivity]. }
      repeat split; lia.
    + intros [= <- <-]. simpl. rewrite Hparams. repeat split; lia || done.
Qed.

Lemma run_OnFrameTask_reports (post_time : Timestamp) (frame : VideoFrame)
    (self self' : t) (effects : list Effect) :
  run_OnFrameTask post_time frame self = Some (self', effects) →
  zero_hertz_params_ self' = zero_hertz_params_ self
  ∧ (uma_reports effects + pending_report self' ≤ pending_report self)%nat
  ∧ (uma_reports effects ≠ 0%nat →
     has_value (zero_hertz_params_ self) = true
     ∧ uma_reports effects = 1%nat).
Proof.
  unfold run_OnFrameTask, fetch_sub. intros Hrun.
  destruct (OnFrameOnMainQueue _ _ _ _) as [[self1 delivered]|] eqn:Hmain;
    [|discriminate].
  simpl in Hrun.
  destruct (MaybeReportFrameRateConstraintUmas self1)
    as [self2 reported] eqn:Hreport.
  injection Hrun as <- <-.
  apply OnFrameOnMainQueue_keeps in Hmain
    as (Hnone & Hflag & Hparams & _). simpl in Hflag, Hparams.
  apply MaybeReport_keeps in Hreport as (Hparams' & Hbound & Hwhen).
  rewrite uma_reports_app, Hnone. simpl.
  assert (pending_report self1 = pending_report self) as Hpending.
  { unfold pending_report. rewrite Hflag, Hparams. reflexivity. }
  rewrite Hpending, Hparams in *.
  split; [exact Hparams'|]. split; [exact Hbound|].
  intros Hreports. destruct (Hwhen Hreports) as (Hset & _ & Hone).
  split; assumption.
Qed.

(** One operation reports the constraint histograms at most once, only with
    [zero_hertz_params_] set, and uses up the pending report. *)
Lemma step_reports (op : Op) (self self' : t) (effects : list Effect) :
  step op self = Some (self', effects) →
  (uma_reports effects + pending_report self'
   ≤ (if enables_zero_hertz op self then 1 else 0) + pending_report self)%nat
  ∧ (uma_reports effects ≠ 0%nat →
     has_value (zero_hertz_params_ self) = true
     ∧ zero_hertz_params_ self' = zero_hertz_params_ self
     ∧ uma_reports effects = 1%nat).
Proof.
  destruct op as [callback|params|now_ms|now_ms|i c|i enabled|now frame|
                  |constraints|now task]; simpl; intros Hrun.
  - injection Hrun as <- <-. split; [reflexivity | done].
  - destruct (SetZeroHertzModeEnabled params self) as [self1|] eqn:Hset;
      [|discriminate].
    injection Hrun as <- <-. unfold SetZeroHertzModeEnabled in Hset.
    apply MaybeReconfigureAdapters_keeps in Hset as (Hflag & Hparams & _).
    split; [|done]. unfold pending_report. rewrite Hflag, Hparams.
    destruct params, (zero_hertz_params_ self),
      (has_reported_screenshare_frame_rate_umas_ self) eqn:Hreported;
      simpl; rewrite ?Hreported; simpl; lia.
  - unfold GetInputFrameRateFps in Hrun.
    repeat (case_match; simplify_option_eq); (split; [reflexivity | done]).
  - unfold UpdateFrameRate in Hrun. simplify_option_eq.
    split; [reflexivity | done].
  - unfold UpdateLayerQualityConvergence in Hrun.
    repeat (case_match; simplify_option_eq); (split; [reflexivity | done]).
  - unfold UpdateLayerStatus in Hrun.
    repeat (case_match; simplify_option_eq); (split; [reflexivity | done]).
  - injection Hrun as <- <-. split; [reflexivity | done].
  - unfold OnDiscardedFrame, call_OnDiscardedFrame in Hrun.
    repeat (case_match; simplify_option_eq); (split; [reflexivity | done]).
  - injection Hrun as <- <-. split; [reflexivity | done].
  - destruct task as [|frame_id repeat_delay|post_time frame|constraints].
    + simpl in Hrun. destruct (zero_hertz_adapter_ self) as [mode|].
      * destruct (ZeroHertzAdapterMode.ProcessOnDelayedCadence now mode)
          as [[mode' posted]|] eqn:Hmode; [|discriminate].
        injection Hrun as <- <-.
        rewrite (zero_hertz_task_reports now ProcessOnDelayedCadenceTask
                   _ _ _ Hmode).
        split; [reflexivity | done].
      * injection Hrun as <- <-. split; [reflexivity | done].
    + simpl in Hrun. destruct (zero_hertz_adapter_ self) as [mode|].
      * destruct (ZeroHertzAdapterMode.ProcessRepeatedFrameOnDelayedCadence
                    now frame_id repeat_delay mode)
          as [[mode' posted]|] eqn:Hmode; [|discriminate].
        injection Hrun as <- <-.
        rewrite (zero_hertz_task_reports now
                   (ProcessRepeatedFrameOnDelayedCadenceTask frame_id
                      repeat_delay) _ _ _ Hmode).
        split; [reflexivity | done].
      * injection Hrun as <- <-. split; [reflexivity | done].
    + simpl in Hrun. apply run_OnFrameTask_reports in Hrun
        as (Hparams & Hbound & Hwhen).
      split; [exact Hbound|]. intros Hreports.
      destruct (Hwhen Hreports) as [Hset Hone]. repeat split; assumption.
    + simpl in Hrun.
      destruct (run_OnConstraintsChangedTask constraints self)
        as [self1|] eqn:Htask; [|discriminate].
      injection Hrun as <- <-. unfold run_OnConstraintsChangedTask in Htask.
      apply MaybeReconfigureAdapters_keeps in Htask as (Hflag & Hparams & _).
      split; [|done]. unfold pending_report. rewrite Hflag, Hparams.
      reflexivity.
Qed.

(** *** Every histogram of the report *)

Lemma samples_app (name : string) (effects effects' : list Effect) :
  samples name (effects ++ effects')
  = (samples name effects + samples name effects')%nat.
Proof.
  induction effects as [|effect effects IH]; simpl; [reflexivity|].
  rewrite IH. lia.
Qed.

(** The modes record no sample. *)
Lemma zero_hertz_task_samples (name : string) (now : Timestamp) (task : Task)
    (mode mode' : ZeroHertzAdapterMode.t) (effects : list Effect) :
  ZeroHertzAdapterMode.run_task now task mode = Some (mode', effects) →
  samples name effects = 0%nat.
Proof.
  destruct task as [|frame_id repeat_delay| |]; simpl.
  - unfold ZeroHertzAdapterMode.ProcessOnDelayedCadence,
      ZeroHertzAdapterMode.SendFrameNow, call_OnFrame.
    intros Hrun. repeat (case_match; simplify_option_eq); reflexivity.
  - unfold ZeroHertzAdapterMode.ProcessRepeatedFrameOnDelayedCadence,
      ZeroHertzAdapterMode.SendFrameNow, call_OnFrame.
    intros Hrun. repeat (case_match; simplify_option_eq); reflexivity.
  - intros [= <- <-]. reflexivity.
  - intros [= <- <-]. reflexivity.
Qed.

Lemma OnFrameOnMainQueue_samples (name : string) (post_time : Timestamp)
    (n : Z) (frame : VideoFrame) (self self' : t) (effects : list Effect) :
  OnFrameOnMainQueue post_time n frame self = Some (self', effects) →
  samples name effects = 0%nat.
Proof.
  unfold OnFrameOnMainQueue. intros Hrun.
  destruct (current_adapter_mode_ self); [discriminate| |].
  - unfold PassthroughAdapterMode.OnFrame, call_OnFrame in Hrun.
    destruct (passthrough_adapter_ self) as [mode|]; [|discriminate].
    simpl in Hrun.
    destruct (PassthroughAdapterMode.callback_ mode =? nullptr)%nat;
      [discriminate|].
    simpl in Hrun. injection Hrun as <- <-. reflexivity.
  - destruct (zero_hertz_adapter_ self) as [mode|]; [|discriminate].
    simpl in Hrun.
    destruct (ZeroHertzAdapterMode.OnFrame post_time n frame mode)
      as [[mode' posted]|] eqn:Hmode; [|discriminate].
    apply OnFrame_posts in Hmode as ->. simpl in Hrun.
    injection Hrun as <- <-. reflexivity.
Qed.

(** The histograms of one report are all different: a report records at
    most one sample to each. *)
Lemma report_samples (name : string) (exist : bool)
    (constraints : option VideoTrackSourceConstraints) :
  (samples name
     (RTC_HISTOGRAM_BOOLEAN "WebRTC.Screenshare.FrameRateConstraints.Exists"
        exist
      :: match constraints with
         | None => []
         | Some constraints => report_constraints constraints
         end) ≤ 1)%nat.
Proof.
  destruct constraints as [[[min|] [max|]]|]; unfold report_constraints;
    cbn -[String.eqb]; try destruct (min <? max)%float; cbn -[String.eqb];
    repeat match goal with
           | |- context [String.eqb ?s name] =>
               destruct (String.eqb_spec s name) as [<-|_];
               [vm_compute; lia|]
           end; lia.
Qed.

Lemma MaybeReport_samples (name : string) (self : t) :
  (samples name (MaybeReportFrameRateConstraintUmas self).2
   ≤ uma_reports (MaybeReportFrameRateConstraintUmas self).2)%nat.
Proof.
  unfold MaybeReportFrameRateConstraintUmas.
  destruct (has_reported_screenshare_frame_rate_umas_ self);
    [reflexivity|].
  destruct (negb _); [reflexivity|].
  cbn [snd].
  change (source_constraints_ (set_has_reported true self))
    with (source_constraints_ self).
  pose proof (report_samples name (has_value (source_constraints_ self))
                (source_constraints_ self)) as Hone.
  etransitivity; [exact Hone|].
  cbn [uma_reports is_uma_report]. rewrite String.eqb_refl. lia.
Qed.

(** An operation records samples only as part of a report. *)
Lemma step_samples (name : string) (op : Op) (self self' : t)
    (effects : list Effect) :
  step op self = Some (self', effects) →
  (samples name effects ≤ uma_reports effects)%nat.
Proof.
  destruct op as [callback|params|now_ms|now_ms|i c|i enabled|now frame|
                  |constraints|now task]; simpl; intros Hrun.
  - injection Hrun as <- <-. reflexivity.
  - destruct (SetZeroHertzModeEnabled params self); [|discriminate].
    injection Hrun as <- <-. reflexivity.
  - destruct (GetInputFrameRateFps now_ms self) as [[rate self1]|];
      [|discriminate].
    injection Hrun as <- <-. reflexivity.
  - destruct (UpdateFrameRate now_ms self); [|discriminate].
    injection Hrun as <- <-. reflexivity.
  - destruct (UpdateLayerQualityConvergence i c self); [|discriminate].
    injection Hrun as <- <-. reflexivity.
  - destruct (UpdateLayerStatus i enabled self); [|discriminate].
    injection Hrun as <- <-. reflexivity.
  - injection Hrun as <- <-. reflexivity.
  - unfold OnDiscardedFrame, call_OnDiscardedFrame in Hrun.
    destruct (callback_ self =? nullptr)%nat; [discriminate|].
    injection Hrun as <- <-. reflexivity.
  - injection Hrun as <- <-. reflexivity.
  - destruct task as [|frame_id repeat_delay|post_time frame|constraints];
      simpl in Hrun.
    + destruct (zero_hertz_adapter_ self) as [mode|].
      * destruct (ZeroHertzAdapterMode.ProcessOnDelayedCadence now mode)
          as [[mode' posted]|] eqn:Hmode; [|discriminate].
        injection Hrun as <- <-.
        rewrite (zero_hertz_task_samples name now
                   ProcessOnDelayedCadenceTask _ _ _ Hmode).
        lia.
      * injection Hrun as <- <-. reflexivity.
    + destruct (zero_hertz_adapter_ self) as [mode|].
      * destruct (ZeroHertzAdapterMode.ProcessRepeatedFrameOnDelayedCadence
                    now frame_id repeat_delay mode)
          as [[mode' posted]|] eqn:Hmode; [|discriminate].
        injection Hrun as <- <-.
        rewrite (zero_hertz_task_samples name now
                   (ProcessRepeatedFrameOnDelayedCadenceTask frame_id
                      repeat_delay) _ _ _ Hmode).
        lia.
      * injection Hrun as <- <-. reflexivity.
    + unfold run_OnFrameTask, fetch_sub in Hrun.
      destruct (OnFrameOnMainQueue _ _ _ _) as [[self1 delivered]|] eqn:Hmain;
        [|discriminate].
      simpl in Hrun.
      pose proof (MaybeReport_samples name self1) as Hreport.
      destruct (MaybeReportFrameRateConstraintUmas self1)
        as [self2 reported].
      injection Hrun as <- <-. simpl in Hreport.
      rewrite samples_app, uma_reports_app,
        (OnFrameOnMainQueue_samples name _ _ _ _ _ _ Hmain).
      lia.
    + destruct (run_OnConstraintsChangedTask constraints self);
        [|discriminate].
      injection Hrun as <- <-. reflexivity.
Qed.

(** C6, amended. Each of the constraint histograms is reported at most
    once each time zero-hertz mode is enabled: over every sequence of
    operations, the number of samples recorded to any one histogram, and
    the number of reports, is at most the number of calls of
    [SetZeroHertzModeEnabled] that set the parameters while they were
    unset, plus one if a report is due at the start, which is not the case
    for a new adapter. Every operation that records a sample to some
    histogram does so as part of one report, at a point where
    [zero_hertz_params_] is set, and records one sample to that
    histogram. *)
Theorem uma_reports_once_per_enablement :
  (∀ ops self self' effects name,
     run ops self = Some (self', effects) →
     (samples name effects ≤ enablements ops self + pending_report self)%nat)
  ∧ (∀ ops self self' effects,
       run ops self = Some (self', effects) →
       (uma_reports effects
        ≤ enablements ops self + pending_report self)%nat)
  ∧ (∀ field_trial_enabled, pending_report (new field_trial_enabled) = 0%nat)
  ∧ (∀ op self self' effects,
       step op self = Some (self', effects) →
       uma_reports effects ≠ 0%nat →
       has_value (zero_hertz_params_ self) = true
       ∧ zero_hertz_params_ self' = zero_hertz_params_ self
       ∧ uma_reports effects = 1%nat)
  ∧ (∀ op self self' effects name,
       step op self = Some (self', effects) →
       samples name effects ≠ 0%nat →
       has_value (zero_hertz_params_ self) = true
       ∧ zero_hertz_params_ self' = zero_hertz_params_ self
       ∧ uma_reports effects = 1%nat
       ∧ samples name effects = 1%nat).
Proof.
  assert (∀ ops self self' effects,
            run ops self = Some (self', effects) →
            (uma_reports effects
             ≤ enablements ops self + pending_report self)%nat
            ∧ ∀ name, (samples name effects ≤ uma_reports effects)%nat)
    as Hruns.
  { induction ops as [|op ops IH]; intros self self' effects Hrun.
    - injection Hrun as <- <-. simpl. split; [lia | reflexivity].
    - simpl in Hrun.
      destruct (step op self) as [[self1 effects1]|] eqn:Hstep;
        [|discriminate].
      simpl in Hrun.
      destruct (run ops self1) as [[self2 effects2]|] eqn:Hrest;
        [|discriminate].
      injection Hrun as <- <-.
      apply step_reports in Hstep as Hbound. destruct Hbound as [Hbound _].
      destruct (IH _ _ _ Hrest) as [Hreports Hsamples].
      split.
      + simpl. rewrite Hstep, uma_reports_app. lia.
      + intros name. rewrite samples_app, uma_reports_app.
        pose proof (step_samples name _ _ _ _ Hstep).
        specialize (Hsamples name). lia. }
  split; [|split; [|split; [|split]]].
  - intros ops self self' effects name Hrun.
    destruct (Hruns _ _ _ _ Hrun) as [Hreports Hsamples].
    specialize (Hsamples name). lia.
  - intros ops self self' effects Hrun.
    exact (proj1 (Hruns _ _ _ _ Hrun)).
  - reflexivity.
  - intros op self self' effects Hstep. apply step_reports in Hstep as [_ H].
    exact H.
  - intros op self self' effects name Hstep Hsample.
    pose proof (step_samples name _ _ _ _ Hstep) as Hle.
    apply step_reports in Hstep as [_ Hwhen].
    destruct Hwhen as (Hset & Hparams & Hone); [lia|].
    repeat split; try assumption. lia.
Qed.

(** C7, amended. With a report due and both [min_fps] and [max_fps]
    present, [MaybeReportFrameRateConstraintUmas] always emits the sparse
    enumeration 60MinPlusMaxMinusOne with the sample
    [60 * min_fps + max_fps - 1] and the boundary [60 * 60 + 60 - 1],
    whether or not [min_fps < max_fps]; the counters MinLessThanMax.Min and
    MinLessThanMax.Max are emitted if and only if [min_fps < max_fps]. *)
Theorem min_max_histograms (self : t)
    (constraints : VideoTrackSourceConstraints) (min max : float) :
  has_reported_screenshare_frame_rate_umas_ self = false →
  has_value (zero_hertz_params_ self) = true →
  source_constraints_ self = Some constraints →
  min_fps constraints = Some min →
  max_fps constraints = Some max →
  let effects := (MaybeReportFrameRateConstraintUmas self).2 in
  let sparse :=
    RTC_HISTOGRAM_ENUMERATION_SPARSE
      "WebRTC.Screenshare.FrameRateConstraints.60MinPlusMaxMinusOne"
      (min * 60 + max - 1)%float 3659 in
  let less_min :=
    RTC_HISTOGRAM_COUNTS_100
      "WebRTC.Screenshare.FrameRateConstraints.MinLessThanMax.Min" min in
  let less_max :=
    RTC_HISTOGRAM_COUNTS_100
      "WebRTC.Screenshare.FrameRateConstraints.MinLessThanMax.Max" max in
  effects
  = [RTC_HISTOGRAM_BOOLEAN "WebRTC.Screenshare.FrameRateConstraints.Exists"
       true;
     RTC_HISTOGRAM_BOOLEAN
       "WebRTC.Screenshare.FrameRateConstraints.Min.Exists" true;
     RTC_HISTOGRAM_COUNTS_100
       "WebRTC.Screenshare.FrameRateConstraints.Min.Value" min;
     RTC_HISTOGRAM_BOOLEAN
       "WebRTC.Screenshare.FrameRateConstraints.Max.Exists" true;
     RTC_HISTOGRAM_COUNTS_100
       "WebRTC.Screenshare.FrameRateConstraints.Max.Value" max]
    ++ (if (min <? max)%float then [less_min; less_max] else [])
    ++ [sparse]
  ∧ sparse ∈ effects
  ∧ (less_min ∈ effects ↔ (min <? max)%float = true)
  ∧ (less_max ∈ effects ↔ (min <? max)%float = true).
Proof.
  intros Hreported Hparams Hconstraints Hmin Hmax.
  unfold MaybeReportFrameRateConstraintUmas, report_constraints.
  rewrite Hreported. simpl. rewrite Hparams, Hconstraints, Hmin, Hmax. simpl.
  destruct (min <? max)%float; simpl.
  - split; [reflexivity|]. split; [|split].
    + do 7 apply list_elem_of_further. apply list_elem_of_here.
    + split; [reflexivity|]. intros _.
      do 5 apply list_elem_of_further. apply list_elem_of_here.
    + split; [reflexivity|]. intros _.
      do 6 apply list_elem_of_further. apply list_elem_of_here.
  - split; [reflexivity|]. split; [|split].
    + do 5 apply list_elem_of_further. apply list_elem_of_here.
    + split; [|discriminate]. rewrite !elem_of_cons, elem_of_nil.
      intros Hin. repeat destruct Hin as [Hin|Hin]; done.
    + split; [|discriminate]. rewrite !elem_of_cons, elem_of_nil.
      intros Hin. repeat destruct Hin as [Hin|Hin]; done.
Qed.

(** C9, amended. On a new adapter, [SetZeroHertzModeEnabled],
    [GetInputFrameRateFps], [UpdateFrameRate], [OnDiscardedFrame] and the
    tasks posted by [OnFrame] and [OnConstraintsChanged] fail, so
    [Initialize] has to be called before them. [Initialize] itself never
    fails, also when it is called again: it binds the callback, replaces
    the pass-through mode by a new one and makes it the current mode,
    leaving the rest of the adapter as it is. After [Initialize] with a
    callback that is not null the operations above succeed. *)
Theorem initialize_contract (field_trial_enabled : bool) :
  let fresh := new field_trial_enabled in
  ((∀ params, SetZeroHertzModeEnabled params fresh = None)
   ∧ (∀ now_ms, GetInputFrameRateFps now_ms fresh = None)
   ∧ (∀ now_ms, UpdateFrameRate now_ms fresh = None)
   ∧ OnDiscardedFrame fresh = None
   ∧ (∀ post_time frame, run_OnFrameTask post_time frame fresh = None)
   ∧ (∀ constraints, run_OnConstraintsChangedTask constraints fresh = None))
  ∧ (∀ callback self,
       step (CallInitialize callback) self
       = Some (Initialize callback self, [])
       ∧ callback_ (Initialize callback self) = callback
       ∧ passthrough_adapter_ (Initialize callback self)
         = Some (PassthroughAdapterMode.new callback)
       ∧ current_adapter_mode_ (Initialize callback self)
         = to_passthrough_adapter
       ∧ zero_hertz_adapter_ (Initialize callback self)
         = zero_hertz_adapter_ self
       ∧ zero_hertz_params_ (Initialize callback self)
         = zero_hertz_params_ self
       ∧ source_constraints_ (Initialize callback self)
         = source_constraints_ self
       ∧ has_reported_screenshare_frame_rate_umas_ (Initialize callback self)
         = has_reported_screenshare_frame_rate_umas_ self
       ∧ frames_scheduled_for_processing_ (Initialize callback self)
         = frames_scheduled_for_processing_ self)
  ∧ (∀ callback,
       callback ≠ nullptr →
       let initialized := Initialize callback fresh in
       (∀ params, is_Some (SetZeroHertzModeEnabled params initialized))
       ∧ (∀ now_ms, is_Some (GetInputFrameRateFps now_ms initialized))
       ∧ (∀ now_ms, is_Some (UpdateFrameRate now_ms initialized))
       ∧ is_Some (OnDiscardedFrame initialized)
       ∧ (∀ post_time frame,
            is_Some (run_OnFrameTask post_time frame initialized))
       ∧ (∀ constraints,
            is_Some (run_OnConstraintsChangedTask constraints initialized))).
Proof.
  intros fresh. subst fresh. split; [|split].
  - repeat split.
    + intros params. unfold SetZeroHertzModeEnabled, MaybeReconfigureAdapters,
        IsZeroHertzScreenshareEnabled.
      destruct params; simpl; rewrite andb_false_r; reflexivity.
    + intros constraints.
      unfold run_OnConstraintsChangedTask, MaybeReconfigureAdapters,
        IsZeroHertzScreenshareEnabled. simpl.
      rewrite !andb_false_r. reflexivity.
  - intros callback self. repeat split.
  - intros callback Hcallback initialized. subst initialized. repeat split.
    + intros params.
      unfold SetZeroHertzModeEnabled, MaybeReconfigureAdapters,
        IsZeroHertzScreenshareEnabled.
      destruct params; simpl; rewrite andb_false_r; simpl; eauto.
    + intros now_ms. unfold GetInputFrameRateFps. simpl.
      destruct (PassthroughAdapterMode.GetInputFrameRateFps _ _). eauto.
    + intros now_ms. unfold UpdateFrameRate. simpl. eauto.
    + unfold OnDiscardedFrame, call_OnDiscardedFrame. simpl.
      destruct (Nat.eqb_spec callback nullptr); [contradiction | eauto].
    + intros post_time frame.
      unfold run_OnFrameTask, OnFrameOnMainQueue,
        PassthroughAdapterMode.OnFrame, call_OnFrame. simpl.
      destruct (Nat.eqb_spec callback nullptr); [contradiction|]. simpl.
      eauto.
    + intros constraints.
      unfold run_OnConstraintsChangedTask, MaybeReconfigureAdapters,
        IsZeroHertzScreenshareEnabled. simpl.
      rewrite !andb_false_r. simpl. eauto.
Qed.

Lemma atomic_int_wrap_in_range (z : Z) :
  INT_MIN ≤ z ≤ INT_MAX → atomic_int_wrap z = z.
Proof.
  unfold atomic_int_wrap, INT_MIN, INT_MAX. intros Hz.
  rewrite Z.mod_small; lia.
Qed.

Lemma MaybeReport_keeps_count (self : t) :
  frames_scheduled_for_processing_
    (MaybeReportFrameRateConstraintUmas self).1
  = frames_scheduled_for_processing_ self.
Proof.
  unfold MaybeReportFrameRateConstraintUmas.
  repeat case_match; reflexivity.
Qed.

Lemma MaybeReport_keeps_zero_hertz (self : t) :
  zero_hertz_adapter_ (MaybeReportFrameRateConstraintUmas self).1
  = zero_hertz_adapter_ self.
Proof.
  unfold MaybeReportFrameRateConstraintUmas.
  repeat case_match; reflexivity.
Qed.

(** C5, amended. The task posted by [OnFrame] decrements
    [frames_scheduled_for_processing_] and passes the value the counter
    held before the decrement to [OnFrameOnMainQueue], whichever mode is
    current: the number of frame tasks still pending, the running one
    included, which is one more than the value of the counter after the
    decrement. In pass-through mode the callback receives that value; in
    zero-hertz mode it is the argument of [OnFrame] of the mode. The task
    returns in pass-through mode when the callback is not null, and in
    zero-hertz mode when the check of [OnFrame] of the mode holds and the
    frame id can be incremented. *)
Theorem frame_task_passes_count_before_decrement (post_time : Timestamp)
    (frame : VideoFrame) (self : t) :
  (∀ self' effects,
     run_OnFrameTask post_time frame self = Some (self', effects) →
     frames_scheduled_for_processing_ self'
     = atomic_int_wrap (frames_scheduled_for_processing_ self - 1)
     ∧ (INT_MIN < frames_scheduled_for_processing_ self ≤ INT_MAX →
        frames_scheduled_for_processing_ self
        = frames_scheduled_for_processing_ self' + 1)
     ∧ ∃ self1 delivered reported,
         OnFrameOnMainQueue post_time
           (frames_scheduled_for_processing_ self) frame
           (set_frames_scheduled
              (atomic_int_wrap (frames_scheduled_for_processing_ self - 1))
              self)
         = Some (self1, delivered)
         ∧ MaybeReportFrameRateConstraintUmas self1 = (self', reported)
         ∧ effects = delivered ++ reported
         ∧ match current_adapter_mode_ self with
           | null_adapter_mode => False
           | to_passthrough_adapter =>
               ∃ mode,
                 passthrough_adapter_ self = Some mode
                 ∧ delivered
                   = [Callback_OnFrame (PassthroughAdapterMode.callback_ mode)
                        post_time (frames_scheduled_for_processing_ self)
                        frame]
           | to_zero_hertz_adapter =>
               ∃ mode mode',
                 zero_hertz_adapter_ self = Some mode
                 ∧ ZeroHertzAdapterMode.OnFrame post_time
                     (frames_scheduled_for_processing_ self) frame mode
                   = Some (mode', delivered)
                 ∧ zero_hertz_adapter_ self' = Some mode'
           end)
  ∧ (∀ mode,
       current_adapter_mode_ self = to_passthrough_adapter →
       passthrough_adapter_ self = Some mode →
       PassthroughAdapterMode.callback_ mode ≠ nullptr →
       INT_MIN < frames_scheduled_for_processing_ self ≤ INT_MAX →
       ∃ self' reported,
         run_OnFrameTask post_time frame self
         = Some (self',
                 Callback_OnFrame (PassthroughAdapterMode.callback_ mode)
                   post_time (frames_scheduled_for_processing_ self) frame
                 :: reported)
         ∧ frames_scheduled_for_processing_ self
           = frames_scheduled_for_processing_ self' + 1)
  ∧ (∀ mode,
       current_adapter_mode_ self = to_zero_hertz_adapter →
       zero_hertz_adapter_ self = Some mode →
       (ZeroHertzAdapterMode.is_repeating_ mode = true →
        length (ZeroHertzAdapterMode.queued_frames_ mode) = 1%nat) →
       INT_MIN ≤ ZeroHertzAdapterMode.current_frame_id_ mode < INT_MAX →
       INT_MIN < frames_scheduled_for_processing_ self ≤ INT_MAX →
       ∃ self' effects,
         run_OnFrameTask post_time frame self = Some (self', effects)
         ∧ frames_scheduled_for_processing_ self
           = frames_scheduled_for_processing_ self' + 1).
Proof.
  split; [|split].
  - intros self' effects Hrun.
    unfold run_OnFrameTask, fetch_sub in Hrun.
    destruct (OnFrameOnMainQueue _ _ _ _) as [[self1 delivered]|] eqn:Hmain;
      [|discriminate].
    simpl in Hrun.
    pose proof (MaybeReport_keeps_count self1) as Hcount.
    pose proof (MaybeReport_keeps_zero_hertz self1) as Hzero.
    destruct (MaybeReportFrameRateConstraintUmas self1)
      as [self2 reported] eqn:Hreport.
    injection Hrun as <- <-. simpl in Hcount, Hzero.
    apply OnFrameOnMainQueue_keeps in Hmain as Hkeeps.
    destruct Hkeeps as (_ & _ & _ & _ & _ & Hcount1). simpl in Hcount1.
    assert (frames_scheduled_for_processing_ self2
            = atomic_int_wrap (frames_scheduled_for_processing_ self - 1))
      as Hafter by congruence.
    split; [exact Hafter|]. split.
    { intros Hrange. rewrite Hafter, atomic_int_wrap_in_range;
        unfold INT_MIN, INT_MAX in *; lia. }
    exists self1, delivered, reported.
    split; [reflexivity|]. split; [exact Hreport|]. split; [reflexivity|].
    unfold OnFrameOnMainQueue in Hmain. simpl in Hmain.
    destruct (current_adapter_mode_ self); [discriminate| |].
    + destruct (passthrough_adapter_ self) as [mode|]; [|discriminate].
      simpl in Hmain. unfold PassthroughAdapterMode.OnFrame in Hmain.
      destruct (call_OnFrame _ _ _ _) as [sent|] eqn:Hsent; [|discriminate].
      apply call_OnFrame_inv in Hsent as ->. simpl in Hmain.
      injection Hmain as <- <-. exists mode. split; reflexivity.
    + destruct (zero_hertz_adapter_ self) as [mode|]; [|discriminate].
      simpl in Hmain.
      destruct (ZeroHertzAdapterMode.OnFrame _ _ _ _) as [[mode' posted]|]
        eqn:Hframe; [|discriminate].
      simpl in Hmain. injection Hmain as <- <-.
      exists mode, mode'. split; [reflexivity|]. split; [exact Hframe|].
      rewrite Hzero. reflexivity.
  - intros mode Hcurrent Hmode Hcallback Hcount.
    unfold run_OnFrameTask, fetch_sub, OnFrameOnMainQueue,
      PassthroughAdapterMode.OnFrame. simpl.
    rewrite Hcurrent, Hmode. simpl.
    rewrite (call_OnFrame_Some _ _ _ _ Hcallback). simpl.
    match goal with
    | |- context [MaybeReportFrameRateConstraintUmas ?a] =>
        pose proof (MaybeReport_keeps_count a) as Hkeep;
        destruct (MaybeReportFrameRateConstraintUmas a) as [self' reported]
    end.
    simpl in Hkeep. exists self', reported. split; [reflexivity|].
    rewrite Hkeep, atomic_int_wrap_in_range;
      unfold INT_MIN, INT_MAX in *; lia.
  - intros mode Hcurrent Hmode Hone Hid Hcount.
    destruct (OnFrame_succeeds post_time
                (frames_scheduled_for_processing_ self) frame mode Hone Hid)
      as [[mode' posted] Hframe].
    unfold run_OnFrameTask, fetch_sub, OnFrameOnMainQueue. simpl.
    rewrite Hcurrent, Hmode. simpl. rewrite Hframe. simpl.
    match goal with
    | |- context [MaybeReportFrameRateConstraintUmas ?a] =>
        pose proof (MaybeReport_keeps_count a) as Hkeep;
        destruct (MaybeReportFrameRateConstraintUmas a) as [self' reported]
    end.
    simpl in Hkeep. exists self'. eexists. split; [reflexivity|].
    rewrite Hkeep, atomic_int_wrap_in_range;
      unfold INT_MIN, INT_MAX in *; lia.
Qed.

(** *** The life of the zero-hertz mode *)

Lemma same_configuration_refl (mode : ZeroHertzAdapterMode.t) :
  same_configuration mode mode.
Proof. repeat split. Qed.

Lemma zero_hertz_OnFrame_configuration (post_time : Timestamp) (n : Z)
    (frame : VideoFrame) (mode mode' : ZeroHertzAdapterMode.t)
    (effects : list Effect) :
  ZeroHertzAdapterMode.OnFrame post_time n frame mode = Some (mode', effects) →
  same_configuration mode mode'.
Proof.
  unfold ZeroHertzAdapterMode.OnFrame. simpl. intros Hrun.
  repeat (case_match; simplify_option_eq);
    repeat split; simpl; apply length_fmap.
Qed.

Lemma zero_hertz_task_configuration (now : Timestamp) (task : Task)
    (mode mode' : ZeroHertzAdapterMode.t) (effects : list Effect) :
  ZeroHertzAdapterMode.run_task now task mode = Some (mode', effects) →
  same_configuration mode mode'.
Proof.
  destruct task as [|frame_id repeat_delay| |]; simpl.
  - unfold ZeroHertzAdapterMode.ProcessOnDelayedCadence,
      ZeroHertzAdapterMode.SendFrameNow.
    intros Hrun. repeat (case_match; simplify_option_eq); repeat split.
  - unfold ZeroHertzAdapterMode.ProcessRepeatedFrameOnDelayedCadence,
      ZeroHertzAdapterMode.SendFrameNow.
    intros Hrun. repeat (case_match; simplify_option_eq); repeat split.
  - intros [= <- <-]. apply same_configuration_refl.
  - intros [= <- <-]. apply same_configuration_refl.
Qed.

Lemma zero_hertz_layer_configuration (i : Z) (b : bool)
    (mode mode' : ZeroHertzAdapterMode.t) :
  ZeroHertzAdapterMode.UpdateLayerStatus i b mode = Some mode'
  ∨ ZeroHertzAdapterMode.UpdateLayerQualityConvergence i b mode = Some mode' →
  same_configuration mode mode'.
Proof.
  unfold ZeroHertzAdapterMode.UpdateLayerStatus,
    ZeroHertzAdapterMode.UpdateLayerQualityConvergence.
  intros [Hrun|Hrun];
    (destruct (ZeroHertzAdapterMode.tracker_at i mode) as [tracker|];
     simpl in Hrun; [|discriminate]);
    repeat case_match; simplify_eq;
    repeat split; simpl; rewrite ?length_insert; reflexivity.
Qed.

Lemma IsZeroHertzScreenshareEnabled_ext (self self' : t) :
  zero_hertz_screenshare_enabled_ self' = zero_hertz_screenshare_enabled_ self →
  source_constraints_ self' = source_constraints_ self →
  zero_hertz_params_ self' = zero_hertz_params_ self →
  IsZeroHertzScreenshareEnabled self' = IsZeroHertzScreenshareEnabled self.
Proof.
  intros Htrial Hconstraints Hparams. unfold IsZeroHertzScreenshareEnabled.
  rewrite Htrial, Hconstraints, Hparams. reflexivity.
Qed.

Lemma mode_evolves_refl (self : t) : mode_evolves self self.
Proof.
  repeat split. destruct (zero_hertz_adapter_ self);
    [apply same_configuration_refl | exact I].
Qed.

Lemma mode_evolves_change (self self' : t) :
  mode_evolves self self' →
  consistent self →
  consistent self'
  ∧ ∃ change, mode_change self self' change ∧ change ≠ created.
Proof.
  intros (Htrial & Hconstraints & Hparams & Hmode) Hconsistent.
  unfold consistent in *.
  rewrite (IsZeroHertzScreenshareEnabled_ext _ _ Htrial Hconstraints Hparams).
  rewrite <- Hconsistent.
  destruct (zero_hertz_adapter_ self) as [mode|] eqn:Hbefore,
    (zero_hertz_adapter_ self') as [mode'|] eqn:Hafter; try contradiction.
  - split; [reflexivity|]. exists kept. split; [|discriminate].
    exists mode, mode'. repeat split; try assumption; apply Hmode.
  - split; [reflexivity|]. exists absent. split; [|discriminate].
    split; assumption.
Qed.

(** What [MaybeReconfigureAdapters] does to the zero-hertz mode. *)
Lemma MaybeReconfigureAdapters_mode (was : bool) (self self' : t) :
  MaybeReconfigureAdapters was self = Some self' →
  match IsZeroHertzScreenshareEnabled self, was with
  | true, true =>
      is_Some (zero_hertz_adapter_ self)
      ∧ zero_hertz_adapter_ self' = zero_hertz_adapter_ self
  | true, false =>
      ∃ constraints fps params,
        source_constraints_ self = Some constraints
        ∧ max_fps constraints = Some fps
        ∧ zero_hertz_params_ self = Some params
        ∧ zero_hertz_adapter_ self'
          = Some (ZeroHertzAdapterMode.new (callback_ self) fps params)
  | false, true => zero_hertz_adapter_ self' = None
  | false, false => zero_hertz_adapter_ self' = zero_hertz_adapter_ self
  end.
Proof.
  unfold MaybeReconfigureAdapters.
  destruct (IsZeroHertzScreenshareEnabled self), was; simpl; intros Hrun.
  - destruct (zero_hertz_adapter_ self) as [mode|] eqn:Hmode;
      [|discriminate].
    simpl in Hrun. injection Hrun as <-. simpl. rewrite Hmode.
    split; [eauto | reflexivity].
  - destruct (source_constraints_ self) as [constraints|];
      [|discriminate]. simpl in Hrun.
    destruct (max_fps constraints) as [fps|] eqn:Hfps; [|discriminate].
    simpl in Hrun.
    destruct (zero_hertz_params_ self) as [params|]; [|discriminate].
    simpl in Hrun. injection Hrun as <-.
    exists constraints, fps, params. repeat split. exact Hfps.
  - destruct (passthrough_adapter_ self); [|discriminate].
    simpl in Hrun. injection Hrun as <-. reflexivity.
  - destruct (passthrough_adapter_ self); [|discriminate].
    simpl in Hrun. injection Hrun as <-. reflexivity.
Qed.

(** A reconfiguration from a consistent state, where [was] tells whether
    the mode existed: the mode is kept, created, destroyed or stays absent
    as the activation predicate tells. *)
Lemma reconfigure_change (was : bool) (before self self' : t) :
  consistent before →
  zero_hertz_adapter_ self = zero_hertz_adapter_ before →
  (IsZeroHertzScreenshareEnabled self = true → was = true →
   IsZeroHertzScreenshareEnabled before = true) →
  (was = false → IsZeroHertzScreenshareEnabled before = false) →
  MaybeReconfigureAdapters was self = Some self' →
  consistent self'
  ∧ ∃ change,
      mode_change before self' change
      ∧ (change = created →
         IsZeroHertzScreenshareEnabled before = false
         ∧ IsZeroHertzScreenshareEnabled self' = true).
Proof.
  intros Hconsistent Hmode Hwas Hwasnt Hrun.
  pose proof (MaybeReconfigureAdapters_mode _ _ _ Hrun) as Hcases.
  pose proof (MaybeReconfigureAdapters_keeps _ _ _ Hrun)
    as (_ & Hparams & Hconstraints & Htrial & _ & _ & Hcallback).
  pose proof (IsZeroHertzScreenshareEnabled_ext _ _ Htrial Hconstraints
                Hparams) as Hactive.
  unfold consistent in *. rewrite Hactive.
  destruct (IsZeroHertzScreenshareEnabled self) eqn:His, was.
  - destruct Hcases as [[mode Hsome] Hsame]. rewrite Hsame, Hsome.
    split; [reflexivity|]. exists kept. split; [|discriminate].
    exists mode, mode. rewrite <- Hmode, Hsame, Hsome.
    repeat split.
  - destruct Hcases as (constraints & fps & params & Hc & Hfps & Hp & Hnew).
    rewrite Hnew. split; [reflexivity|]. exists created.
    specialize (Hwasnt eq_refl). rewrite Hwasnt in Hconsistent.
    destruct (zero_hertz_adapter_ before) eqn:Hbefore; [discriminate|].
    split.
    + exists constraints, fps, params.
      rewrite Hconstraints, Hparams, Hcallback. repeat split; assumption.
    + intros _. split; [assumption | reflexivity].
  - rewrite Hcases. split; [reflexivity|].
    destruct (zero_hertz_adapter_ before) as [mode|] eqn:Hbefore.
    + exists destroyed. split; [|discriminate]. split; [eauto | assumption].
    + exists absent. split; [|discriminate]. split; assumption.
  - rewrite Hcases, Hmode. specialize (Hwasnt eq_refl).
    rewrite Hwasnt in Hconsistent.
    destruct (zero_hertz_adapter_ before) eqn:Hbefore; [discriminate|].
    split; [reflexivity|]. exists absent. split; [|discriminate].
    split; [assumption|]. rewrite Hcases. rewrite Hmode. reflexivity.
Qed.

Lemma mode_evolves_same (self self' : t) :
  zero_hertz_screenshare_enabled_ self' = zero_hertz_screenshare_enabled_ self →
  source_constraints_ self' = source_constraints_ self →
  zero_hertz_params_ self' = zero_hertz_params_ self →
  zero_hertz_adapter_ self' = zero_hertz_adapter_ self →
  mode_evolves self self'.
Proof.
  intros Htrial Hconstraints Hparams Hmode. repeat split; try assumption.
  rewrite Hmode. destruct (zero_hertz_adapter_ self);
    [apply same_configuration_refl | exact I].
Qed.

Lemma mode_evolves_trans (self self' self'' : t) :
  mode_evolves self self' → mode_evolves self' self'' →
  mode_evolves self self''.
Proof.
  intros (Htrial & Hconstraints & Hparams & Hmode)
    (Htrial' & Hconstraints' & Hparams' & Hmode').
  repeat split; try congruence.
  destruct (zero_hertz_adapter_ self), (zero_hertz_adapter_ self'),
    (zero_hertz_adapter_ self''); try contradiction; try exact I.
  destruct Hmode as (? & ? & ? & ?), Hmode' as (? & ? & ? & ?).
  repeat split; congruence.
Qed.

Lemma OnFrameOnMainQueue_evolves (post_time : Timestamp) (n : Z)
    (frame : VideoFrame) (self self' : t) (effects : list Effect) :
  OnFrameOnMainQueue post_time n frame self = Some (self', effects) →
  mode_evolves self self'.
Proof.
  unfold OnFrameOnMainQueue. intros Hrun.
  destruct (current_adapter_mode_ self); [discriminate| |].
  - destruct (passthrough_adapter_ self) as [mode|]; [|discriminate].
    simpl in Hrun.
    destruct (PassthroughAdapterMode.OnFrame post_time n frame mode)
      as [[mode' delivered]|]; [|discriminate].
    simpl in Hrun. injection Hrun as <- <-.
    apply mode_evolves_same; reflexivity.
  - destruct (zero_hertz_adapter_ self) as [mode|] eqn:Hbefore;
      [|discriminate].
    simpl in Hrun.
    destruct (ZeroHertzAdapterMode.OnFrame post_time n frame mode)
      as [[mode' posted]|] eqn:Hmode; [|discriminate].
    simpl in Hrun. injection Hrun as <- <-.
    apply zero_hertz_OnFrame_configuration in Hmode.
    repeat split; simpl; try rewrite Hbefore; apply Hmode.
Qed.

Lemma MaybeReport_evolves (self : t) :
  mode_evolves self (MaybeReportFrameRateConstraintUmas self).1.
Proof.
  unfold MaybeReportFrameRateConstraintUmas.
  repeat case_match; simpl; apply mode_evolves_same; reflexivity.
Qed.

Lemma mode_task_evolves (now : Timestamp) (task : Task) (self self' : t)
    (effects : list Effect) :
  match zero_hertz_adapter_ self with
  | Some mode =>
      '(mode, effects) ← ZeroHertzAdapterMode.run_task now task mode;
      Some (set_zero_hertz_adapter (Some mode) self, effects)
  | None => Some (self, [])
  end = Some (self', effects) →
  mode_evolves self self'.
Proof.
  destruct (zero_hertz_adapter_ self) as [mode|] eqn:Hbefore.
  - destruct (ZeroHertzAdapterMode.run_task now task mode)
      as [[mode' posted]|] eqn:Hmode; [|discriminate].
    simpl. intros [= <- <-].
    apply zero_hertz_task_configuration in Hmode.
    repeat split; simpl; try rewrite Hbefore; apply Hmode.
  - intros [= <- <-]. apply mode_evolves_refl.
Qed.

(** What one operation does to the zero-hertz mode of a consistent
    adapter. *)
Lemma step_mode_change (op : Op) (self self' : t) (effects : list Effect) :
  consistent self →
  step op self = Some (self', effects) →
  consistent self'
  ∧ ∃ change,
      mode_change self self' change
      ∧ (change = created →
         IsZeroHertzScreenshareEnabled self = false
         ∧ IsZeroHertzScreenshareEnabled self' = true).
Proof.
  intros Hconsistent Hstep.
  assert (mode_evolves self self' →
          consistent self'
          ∧ ∃ change,
              mode_change self self' change
              ∧ (change = created →
                 IsZeroHertzScreenshareEnabled self = false
                 ∧ IsZeroHertzScreenshareEnabled self' = true)) as Hevolves.
  { intros Hev.
    destruct (mode_evolves_change _ _ Hev Hconsistent)
      as (Hc & change & Hchange & Hnot).
    split; [exact Hc|]. exists change. split; [exact Hchange|].
    intros ->. contradiction. }
  destruct op as [callback|params|now_ms|now_ms|i c|i enabled|now frame|
                  |constraints|now task]; simpl in Hstep.
  - injection Hstep as <- <-. apply Hevolves.
    apply mode_evolves_same; reflexivity.
  - destruct (SetZeroHertzModeEnabled params self) as [self1|] eqn:Hset;
      [|discriminate].
    injection Hstep as <- <-. unfold SetZeroHertzModeEnabled in Hset.
    eapply reconfigure_change; [exact Hconsistent | | | | exact Hset].
    + destruct (has_value params && _); reflexivity.
    + unfold IsZeroHertzScreenshareEnabled.
      destruct (has_value params && _); simpl; intros H1 H2; rewrite H2;
        apply andb_true_iff in H1 as [H1 _]; rewrite H1; reflexivity.
    + unfold IsZeroHertzScreenshareEnabled.
      destruct (zero_hertz_params_ self); simpl; [discriminate|].
      intros _. apply andb_false_r.
  - apply Hevolves. unfold GetInputFrameRateFps in Hstep.
    repeat (case_match; simplify_option_eq);
      apply mode_evolves_same; reflexivity.
  - apply Hevolves. unfold UpdateFrameRate in Hstep. simplify_option_eq.
    apply mode_evolves_same; reflexivity.
  - apply Hevolves. unfold UpdateLayerQualityConvergence in Hstep.
    destruct (zero_hertz_adapter_ self) as [mode|] eqn:Hbefore.
    + destruct (ZeroHertzAdapterMode.UpdateLayerQualityConvergence i c mode)
        as [mode'|] eqn:Hmode; [|discriminate].
      simpl in Hstep. injection Hstep as <- <-.
      pose proof (zero_hertz_layer_configuration i c mode mode'
                    (or_intror Hmode)) as Hconfiguration.
      repeat split; simpl; try rewrite Hbefore; apply Hconfiguration.
    + simpl in Hstep. injection Hstep as <- <-. apply mode_evolves_refl.
  - apply Hevolves. unfold UpdateLayerStatus in Hstep.
    destruct (zero_hertz_adapter_ self) as [mode|] eqn:Hbefore.
    + destruct (ZeroHertzAdapterMode.UpdateLayerStatus i enabled mode)
        as [mode'|] eqn:Hmode; [|discriminate].
      simpl in Hstep. injection Hstep as <- <-.
      pose proof (zero_hertz_layer_configuration i enabled mode mode'
                    (or_introl Hmode)) as Hconfiguration.
      repeat split; simpl; try rewrite Hbefore; apply Hconfiguration.
    + simpl in Hstep. injection Hstep as <- <-. apply mode_evolves_refl.
  - injection Hstep as <- <-. apply Hevolves.
    apply mode_evolves_same; reflexivity.
  - apply Hevolves. destruct (OnDiscardedFrame self); [|discriminate].
    simpl in Hstep. injection Hstep as <- <-. apply mode_evolves_refl.
  - injection Hstep as <- <-. apply Hevolves. apply mode_evolves_refl.
  - destruct task as [|frame_id repeat_delay|post_time frame|constraints].
    + apply Hevolves. exact (mode_task_evolves _ _ _ _ _ Hstep).
    + apply Hevolves. exact (mode_task_evolves _ _ _ _ _ Hstep).
    + apply Hevolves. simpl in Hstep.
      unfold run_OnFrameTask, fetch_sub in Hstep.
      destruct (OnFrameOnMainQueue _ _ _ _) as [[self1 delivered]|] eqn:Hmain;
        [|discriminate].
      simpl in Hstep.
      pose proof (MaybeReport_evolves self1) as Hreport.
      destruct (MaybeReportFrameRateConstraintUmas self1)
        as [self2 reported].
      injection Hstep as <- <-. simpl in Hreport.
      apply OnFrameOnMainQueue_evolves in Hmain.
      eapply mode_evolves_trans; [|exact Hreport].
      eapply mode_evolves_trans; [|exact Hmain].
      apply mode_evolves_same; reflexivity.
    + simpl in Hstep.
      destruct (run_OnConstraintsChangedTask constraints self)
        as [self1|] eqn:Htask; [|discriminate].
      injection Hstep as <- <-. unfold run_OnConstraintsChangedTask in Htask.
      eapply reconfigure_change; [exact Hconsistent | | | | exact Htask].
      * reflexivity.
      * intros _ H. exact H.
      * intros H. exact H.
Qed.

(** C10. A change of constraints processed while zero-hertz mode is and
    stays active keeps the zero-hertz mode object as it is, with its
    [max_fps_], [frame_delay_], queue, frame id, [is_repeating_] and layer
    trackers. Moreover a new adapter is consistent, every operation keeps
    the adapter consistent, and all it does to the mode is to keep it with
    its configuration, to destroy it, or to create it from the constraints
    in force when there was none and the activation predicate went from
    false to true: a mode with another [max_fps_] only comes after a
    deactivation and a reactivation. *)
Theorem constraints_change_keeps_mode (now : Timestamp)
    (constraints : VideoTrackSourceConstraints) (self : t)
    (mode : ZeroHertzAdapterMode.t) :
  IsZeroHertzScreenshareEnabled self = true →
  zero_hertz_adapter_ self = Some mode →
  IsZeroHertzScreenshareEnabled
    (set_source_constraints (Some constraints) self) = true →
  (∃ self',
     run_task now (OnConstraintsChangedTask constraints) self
     = Some (self', [])
     ∧ zero_hertz_adapter_ self' = Some mode
     ∧ source_constraints_ self' = Some constraints
     ∧ current_adapter_mode_ self' = to_zero_hertz_adapter)
  ∧ (∀ field_trial_enabled, consistent (new field_trial_enabled))
  ∧ (∀ op before after effects,
       consistent before →
       step op before = Some (after, effects) →
       consistent after
       ∧ ∃ change,
           mode_change before after change
           ∧ (change = created →
              IsZeroHertzScreenshareEnabled before = false
              ∧ IsZeroHertzScreenshareEnabled after = true)).
Proof.
  intros Hwas Hmode His. split; [|split].
  - simpl. unfold run_OnConstraintsChangedTask, MaybeReconfigureAdapters.
    rewrite Hwas, His. simpl. rewrite Hmode. simpl.
    eexists. split; [reflexivity|]. repeat split. exact Hmode.
  - intros field_trial_enabled.
    unfold consistent, IsZeroHertzScreenshareEnabled. simpl.
    rewrite andb_false_r. reflexivity.
  - intros op before after effects. apply step_mode_change.
Qed.
End AdapterProperties.

(** ** The properties at work on the concrete platform *)

Section Examples.
#[local] Existing Instance micros.

(** The sample states are states the code reaches. *)
Example repeating_mode_reached (frame : VideoFrame) :
  (mode ← ZeroHertzAdapterMode.UpdateLayerStatus 0 true
            (ZeroHertzAdapterMode.new 1%nat 30%float one_layer);
   '(mode, _) ← ZeroHertzAdapterMode.OnFrame 0 1 frame mode;
   '(mode, _) ← ZeroHertzAdapterMode.ProcessOnDelayedCadence 33 mode;
   Some mode)
  = Some (repeating_mode frame).
Proof. reflexivity. Qed.

Example activated_reached :
  FrameCadenceAdapterImpl.run
    [FrameCadenceAdapterImpl.CallInitialize 1%nat;
     FrameCadenceAdapterImpl.CallSetZeroHertzModeEnabled (Some one_layer);
     FrameCadenceAdapterImpl.RunTask 0
       (OnConstraintsChangedTask (constraints_of 0 30))]
    (FrameCadenceAdapterImpl.new true)
  = Some (activated, []).
Proof. reflexivity. Qed.

(** C1: the task posted by [OnFrame] for the first of two frames belongs
    to frame id 1; it fires when the current frame id is 2, and yet sends
    the first frame and removes it from the queue. *)
Lemma first_task_of_a_frame_is_not_cancelled :
  ∃ mode1 mode2 task milliseconds mode3,
    ZeroHertzAdapterMode.OnFrame 0 1 (sample_frame 1 1000 2000) sample_mode
    = Some (mode1, [PostDelayedTask task milliseconds])
    ∧ ZeroHertzAdapterMode.OnFrame 10 1 (sample_frame 2 3000 4000) mode1
      = Some (mode2, [PostDelayedTask task milliseconds])
    ∧ ZeroHertzAdapterMode.current_frame_id_ mode1 = 1
    ∧ ZeroHertzAdapterMode.current_frame_id_ mode2 = 2
    ∧ ZeroHertzAdapterMode.run_task 33 task mode2
      = Some (mode3,
              [Callback_OnFrame 1%nat 33 1 (sample_frame 1 1000 2000)])
    ∧ ZeroHertzAdapterMode.queued_frames_ mode2
      = [sample_frame 1 1000 2000; sample_frame 2 3000 4000]
    ∧ ZeroHertzAdapterMode.queued_frames_ mode3
      = [sample_frame 2 3000 4000].
Proof.
  do 5 eexists. repeat split; reflexivity.
Qed.

Lemma repeat_tasks_cancelled_by_frame_id_witness :
  ZeroHertzAdapterMode.run_task 66
    (ProcessRepeatedFrameOnDelayedCadenceTask 0 33333)
    (repeating_mode (sample_frame 1 1000 2000))
  = Some (repeating_mode (sample_frame 1 1000 2000), []).
Proof.
  refine (proj1 (repeat_tasks_cancelled_by_frame_id (ext := micros) 66
                   (repeating_mode (sample_frame 1 1000 2000)) _ _)
            0 33333 _);
    by vm_compute.
Defined.

Lemma on_frame_effect_witness :
  ∃ mode',
    ZeroHertzAdapterMode.OnFrame 0 1 (sample_frame 1 1000 2000) sample_mode
    = Some (mode', [PostDelayedTask ProcessOnDelayedCadenceTask 33])
    ∧ ZeroHertzAdapterMode.current_frame_id_ mode' = 1.
Proof.
  destruct (on_frame_effect (ext := micros) 0 1 (sample_frame 1 1000 2000)
              sample_mode)
    as (mode' & Hrun & _ & _ & _ & _ & Hid & _).
  - by vm_compute.
  - by vm_compute.
  - exists mode'. split; [exact Hrun | exact Hid].
Defined.

(** C4: a frame with negative timestamps: [timestamp_us] is not zero and
    is not increased, [ntp_time_ms] is not positive and is increased. *)
Lemma negative_timestamps_on_repeat :
  ∃ mode' frame' effects,
    ZeroHertzAdapterMode.ProcessRepeatedFrameOnDelayedCadence 1033 1 1000000
      (repeating_mode (sample_frame 1 (-7) (-5)))
    = Some (mode', Callback_OnFrame 1%nat 1033 1 frame' :: effects)
    ∧ ntp_time_ms (sample_frame 1 (-7) (-5)) <= 0
    ∧ ntp_time_ms frame' = ntp_time_ms (sample_frame 1 (-7) (-5)) + 1000
    ∧ timestamp_us (sample_frame 1 (-7) (-5)) ≠ 0
    ∧ timestamp_us frame' = timestamp_us (sample_frame 1 (-7) (-5)).
Proof.
  do 3 eexists. repeat split; (reflexivity || discriminate).
Qed.

Lemma repeat_adjusts_front_frame_witness :
  ∃ frame',
    ZeroHertzAdapterMode.ProcessRepeatedFrameOnDelayedCadence 66 1 33333
      (repeating_mode (sample_frame 1 1000 2000))
    = Some (ZeroHertzAdapterMode.set_queued_frames [frame']
              (repeating_mode (sample_frame 1 1000 2000)),
            Callback_OnFrame 1%nat 66 1 frame'
            :: ZeroHertzAdapterMode.ScheduleRepeat 1
                 (repeating_mode (sample_frame 1 1000 2000)))
    ∧ timestamp_us frame' = 34333
    ∧ ntp_time_ms frame' = 2033.
Proof.
  destruct (proj1 (repeat_adjusts_front_frame (ext := micros) 66 1
                     (repeating_mode (sample_frame 1 1000 2000))
                     (sample_frame 1 1000 2000) [] eq_refl eq_refl
                     ltac:(by vm_compute)) 33333)
    as (frame' & Hrun & _ & _ & Hts & Hntp).
  - intros _. by vm_compute.
  - intros _. by vm_compute.
  - exists frame'. split; [exact Hrun|]. split; [exact Hts | exact Hntp].
Defined.

Lemma layer_updates_witness :
  ∃ mode1 mode2 mode3,
    ZeroHertzAdapterMode.UpdateLayerStatus 1 false sample_mode = Some mode1
    ∧ ZeroHertzAdapterMode.UpdateLayerQualityConvergence 1 true mode1
      = Some mode2
    ∧ ZeroHertzAdapterMode.UpdateLayerStatus 1 true mode2 = Some mode3
    ∧ ZeroHertzAdapterMode.tracker_at 1 mode3 = Some (Enabled false).
Proof.
  destruct (layer_updates (ext := micros) 1 sample_mode)
    as (_ & _ & _ & _ & _ & Hsequence).
  - by vm_compute.
  - destruct Hsequence as (mode1 & mode2 & mode3 & H1 & H2 & H3 & H4 & _).
    exists mode1, mode2, mode3. repeat split; assumption.
Defined.

(** C5: one frame is posted to an initialized adapter and its task runs:
    the callback receives the count 1, the value of the counter before the
    decrement, and not 0, its value after the decrement. *)
Lemma frame_count_is_the_value_before_decrement :
  ∃ self' count,
    FrameCadenceAdapterImpl.run
      [FrameCadenceAdapterImpl.CallInitialize 1%nat;
       FrameCadenceAdapterImpl.CallOnFrame 5 (sample_frame 1 1000 2000);
       FrameCadenceAdapterImpl.RunTask 7
         (OnFrameTask 5 (sample_frame 1 1000 2000))]
      (FrameCadenceAdapterImpl.new false)
    = Some (self',
            [PostTask (OnFrameTask 5 (sample_frame 1 1000 2000));
             Callback_OnFrame 1%nat 5 count (sample_frame 1 1000 2000)])
    ∧ count = 1
    ∧ FrameCadenceAdapterImpl.frames_scheduled_for_processing_ self' = 0.
Proof.
  do 2 eexists. repeat split; reflexivity.
Qed.

Lemma frame_task_passes_count_before_decrement_witness :
  (∃ self' reported,
     FrameCadenceAdapterImpl.run_OnFrameTask 5 (sample_frame 1 1000 2000)
       one_frame_posted
     = Some (self',
             Callback_OnFrame 1%nat 5 1 (sample_frame 1 1000 2000)
             :: reported)
     ∧ FrameCadenceAdapterImpl.frames_scheduled_for_processing_ self' = 0)
  ∧ (∃ self' effects,
       FrameCadenceAdapterImpl.run_OnFrameTask (ext := micros) 5
         (sample_frame 1 1000 2000)
         (FrameCadenceAdapterImpl.OnFrame (ext := micros) 5
            (sample_frame 1 1000 2000) activated).1
       = Some (self', effects)
       ∧ FrameCadenceAdapterImpl.frames_scheduled_for_processing_ self' = 0).
Proof.
  split.
  - destruct (proj1 (proj2
                (frame_task_passes_count_before_decrement (ext := micros) 5
                   (sample_frame 1 1000 2000) one_frame_posted))
                (PassthroughAdapterMode.new 1%nat))
      as (self' & reported & Hrun & Hcount).
    + reflexivity.
    + reflexivity.
    + by vm_compute.
    + by vm_compute.
    + exists self', reported. split; [exact Hrun|].
      change (1 = FrameCadenceAdapterImpl.frames_scheduled_for_processing_
                    self' + 1) in Hcount.
      lia.
  - destruct (FrameCadenceAdapterImpl.run_OnFrameTask (ext := micros) 5
                (sample_frame 1 1000 2000)
                (FrameCadenceAdapterImpl.OnFrame (ext := micros) 5
                   (sample_frame 1 1000 2000) activated).1)
      as [[self' effects]|] eqn:Hrun; [|discriminate Hrun].
    exists self', effects. split; [reflexivity|].
    exact (proj1 (proj1
             (frame_task_passes_count_before_decrement (ext := micros) 5
                (sample_frame 1 1000 2000)
                (FrameCadenceAdapterImpl.OnFrame (ext := micros) 5
                   (sample_frame 1 1000 2000) activated).1)
             self' effects Hrun)).
Defined.

(** C6: zero-hertz mode is enabled, a frame is processed, the mode is
    disabled and enabled again, and another frame is processed: the
    constraint histograms are reported twice in the life of one adapter. *)
Lemma uma_reported_again_after_enabling_again :
  (λ result, uma_reports result.2)
    <$> FrameCadenceAdapterImpl.run (ext := micros)
          [FrameCadenceAdapterImpl.CallInitialize 1%nat;
           FrameCadenceAdapterImpl.CallSetZeroHertzModeEnabled
             (Some one_layer);
           FrameCadenceAdapterImpl.CallOnFrame 5 (sample_frame 1 1000 2000);
           FrameCadenceAdapterImpl.RunTask 7
             (OnFrameTask 5 (sample_frame 1 1000 2000));
           FrameCadenceAdapterImpl.CallSetZeroHertzModeEnabled None;
           FrameCadenceAdapterImpl.CallSetZeroHertzModeEnabled
             (Some one_layer);
           FrameCadenceAdapterImpl.CallOnFrame 50 (sample_frame 2 3000 4000);
           FrameCadenceAdapterImpl.RunTask 52
             (OnFrameTask 50 (sample_frame 2 3000 4000))]
          (FrameCadenceAdapterImpl.new false)
  = Some 2%nat.
Proof. vm_compute. reflexivity. Qed.

(** C7: with [min_fps] 5 and [max_fps] 4 the sparse enumeration is emitted,
    with the sample 60 * 5 + 4 - 1, although [min_fps < max_fps] fails. *)
Lemma sparse_histogram_without_min_less_than_max :
  (5 <? 4)%float = false
  ∧ RTC_HISTOGRAM_ENUMERATION_SPARSE
      "WebRTC.Screenshare.FrameRateConstraints.60MinPlusMaxMinusOne" 303 3659
    ∈ (FrameCadenceAdapterImpl.MaybeReportFrameRateConstraintUmas
         (configured 5 4)).2.
Proof.
  split; [reflexivity|].
  do 5 apply list_elem_of_further. apply list_elem_of_here.
Qed.

Lemma min_max_histograms_witness :
  RTC_HISTOGRAM_COUNTS_100
    "WebRTC.Screenshare.FrameRateConstraints.MinLessThanMax.Min" 0
  ∈ (FrameCadenceAdapterImpl.MaybeReportFrameRateConstraintUmas
       (configured 0 30)).2.
Proof.
  apply (min_max_histograms (ext := micros) (configured 0 30)
           (constraints_of 0 30) 0 30 eq_refl eq_refl eq_refl eq_refl eq_refl).
  reflexivity.
Defined.

(** C9: a second call of [Initialize] succeeds and rebinds the callback. *)
Lemma second_initialize_succeeds :
  FrameCadenceAdapterImpl.run
    [FrameCadenceAdapterImpl.CallInitialize 1%nat;
     FrameCadenceAdapterImpl.CallInitialize 2%nat]
    (FrameCadenceAdapterImpl.new false)
  = Some (FrameCadenceAdapterImpl.Initialize 2%nat
            (FrameCadenceAdapterImpl.new false), []).
Proof. reflexivity. Qed.

Lemma constraints_change_keeps_mode_witness :
  ∃ self',
    FrameCadenceAdapterImpl.run_task 100
      (OnConstraintsChangedTask (constraints_of 0 15)) activated
    = Some (self', [])
    ∧ FrameCadenceAdapterImpl.zero_hertz_adapter_ self'
      = Some (ZeroHertzAdapterMode.new 1%nat 30%float one_layer)
    ∧ FrameCadenceAdapterImpl.source_constraints_ self'
      = Some (constraints_of 0 15).
Proof.
  destruct (constraints_change_keeps_mode (ext := micros) 100
              (constraints_of 0 15) activated
              (ZeroHertzAdapterMode.new 1%nat 30%float one_layer))
    as ((self' & Hrun & Hmode & Hconstraints & _) & _).
  - reflexivity.
  - reflexivity.
  - reflexivity.
  - exists self'. repeat split; assumption.
Defined.
End Examples.

(** ** The cadence and its pending tasks *)

Section CadenceProperties.
Context {ext : External}.
Import ZeroHertzAdapterMode.

(** Case analysis on the guards and additions of a repeat. *)
Ltac case_timestamps :=
  match goal with
  | |- context [int64_add ?a ?b] => destruct (int64_add a b)
  | |- context [if ?b then _ else _] => destruct b
  end.

Lemma count_tasks_app (p : Task → bool) (tasks tasks' : list Task) :
  count_tasks p (tasks ++ tasks')
  = (count_tasks p tasks + count_tasks p tasks')%nat.
Proof.
  induction tasks as [|task tasks IH]; simpl; [reflexivity|].
  rewrite IH. lia.
Qed.

Lemma count_tasks_delete (p : Task → bool) (tasks : list Task) :
  ∀ k task,
    tasks !! k = Some task →
    (count_tasks p (delete k tasks) + (if p task then 1 else 0))%nat
    = count_tasks p tasks.
Proof.
  induction tasks as [|head tasks IH]; intros [|k] task Hk;
    try discriminate; simpl in *.
  - injection Hk as ->. lia.
  - rewrite <- (IH k task Hk). lia.
Qed.

Lemma not_ahead_of_mono (id id' : Z) (task : Task) :
  id ≤ id' → not_ahead_of id task → not_ahead_of id' task.
Proof. intros Hle. destruct task; simpl; try done. lia. Qed.

Lemma no_repeat_ahead (id id' : Z) (tasks : list Task) :
  Forall (not_ahead_of id) tasks → id < id' →
  count_tasks (is_repeat_of id') tasks = 0%nat.
Proof.
  intros Hall Hlt. induction Hall as [|task tasks Htask _ IH]; simpl;
    [reflexivity|].
  rewrite IH. destruct task as [|fid d| |]; simpl in *; try reflexivity.
  destruct (Z.eqb_spec fid id'); [lia | reflexivity].
Qed.

(** What [OnFrame] does to the queue, the frame id and the flag. *)
Lemma OnFrame_inv (post_time : Timestamp) (n : Z) (frame : VideoFrame)
    (mode mode' : t) (effects : list Effect) :
  OnFrame post_time n frame mode = Some (mode', effects) →
  (is_repeating_ mode = true → length (queued_frames_ mode) = 1%nat)
  ∧ queued_frames_ mode'
    = (if is_repeating_ mode then tail (queued_frames_ mode)
       else queued_frames_ mode) ++ [frame]
  ∧ current_frame_id_ mode' = current_frame_id_ mode + 1
  ∧ is_repeating_ mode' = false
  ∧ posted_tasks effects = [ProcessOnDelayedCadenceTask].
Proof.
  unfold OnFrame, int_add. simpl.
  destruct (is_repeating_ mode) eqn:Hrepeating; simpl.
  - destruct (Nat.eqb_spec (length (queued_frames_ mode)) 1) as [Hone|];
      [|discriminate]. simpl.
    destruct (_ && _); [|discriminate]. simpl.
    intros [= <- <-]. repeat split. intros _. exact Hone.
  - destruct (_ && _); [|discriminate]. simpl.
    intros [= <- <-]. repeat split. discriminate.
Qed.

(** What a first task does when it fires. *)
Lemma ProcessOnDelayedCadence_inv (now : Timestamp) (mode mode' : t)
    (effects : list Effect) :
  ProcessOnDelayedCadence now mode = Some (mode', effects) →
  ∃ front rest,
    queued_frames_ mode = front :: rest
    ∧ delivered effects = [front]
    ∧ ((rest ≠ [] ∧ mode' = set_queued_frames rest mode
        ∧ posted_tasks effects = [])
       ∨ (rest = [] ∧ mode' = set_is_repeating true mode
          ∧ ∃ repeat_delay,
              posted_tasks effects
              = [ProcessRepeatedFrameOnDelayedCadenceTask
                   (current_frame_id_ mode) repeat_delay])).
Proof.
  unfold ProcessOnDelayedCadence, SendFrameNow.
  destruct (queued_frames_ mode) as [|front rest]; [discriminate|].
  destruct (call_OnFrame _ _ _ _) as [sent|] eqn:Hsent; [|discriminate].
  apply call_OnFrame_inv in Hsent as ->. simpl.
  destruct rest as [|second rest]; simpl; intros [= <- <-];
    exists front; eexists; (split; [reflexivity|]); (split; [reflexivity|]).
  - right. split; [reflexivity|]. split; [reflexivity|].
    eexists. reflexivity.
  - left. split; [discriminate|]. split; reflexivity.
Qed.

(** What a repeat task does when it fires. *)
Lemma ProcessRepeatedFrameOnDelayedCadence_inv (now : Timestamp)
    (frame_id : Z) (scheduled_delay : TimeDelta) (mode mode' : t)
    (effects : list Effect) :
  ProcessRepeatedFrameOnDelayedCadence now frame_id scheduled_delay mode
  = Some (mode', effects) →
  ∃ frame rest,
    queued_frames_ mode = frame :: rest
    ∧ ((frame_id ≠ current_frame_id_ mode ∧ mode' = mode ∧ effects = [])
       ∨ (frame_id = current_frame_id_ mode
          ∧ ∃ frame' repeat_delay,
              mode' = set_queued_frames (frame' :: rest) mode
              ∧ video_frame_buffer frame' = video_frame_buffer frame
              ∧ delivered effects = [frame']
              ∧ posted_tasks effects
                = [ProcessRepeatedFrameOnDelayedCadenceTask frame_id
                     repeat_delay])).
Proof.
  unfold ProcessRepeatedFrameOnDelayedCadence, SendFrameNow.
  destruct (queued_frames_ mode) as [|frame rest]; [discriminate|].
  intros Hrun. exists frame, rest. split; [reflexivity|].
  destruct (Z.eqb_spec frame_id (current_frame_id_ mode)) as [->|Hne];
    simpl in Hrun.
  - right. split; [reflexivity|]. revert Hrun.
    repeat (case_timestamps; simpl); try discriminate;
      (destruct (call_OnFrame _ _ _ _) as [sent|] eqn:Hsent;
       [|discriminate]);
      apply call_OnFrame_inv in Hsent as ->; simpl;
      intros [= <- <-]; eexists _, _; repeat split.
  - left. injection Hrun as <- <-. repeat split. exact Hne.
Qed.

Lemma layer_update_keeps_queue (i : Z) (b : bool) (mode mode' : t) :
  UpdateLayerStatus i b mode = Some mode'
  ∨ UpdateLayerQualityConvergence i b mode = Some mode' →
  queued_frames_ mode' = queued_frames_ mode
  ∧ current_frame_id_ mode' = current_frame_id_ mode
  ∧ is_repeating_ mode' = is_repeating_ mode.
Proof.
  unfold UpdateLayerStatus, UpdateLayerQualityConvergence.
  intros [Hrun|Hrun];
    (destruct (tracker_at i mode) as [tracker|]; simpl in Hrun;
     [|discriminate]);
    repeat case_match; simplify_eq; repeat split.
Qed.

Lemma cadence_ok_new (callback : Callback) (max_fps : float)
    (params : ZeroHertzModeParams) :
  cadence_ok (new_cadence callback max_fps params).
Proof.
  unfold cadence_ok. simpl. repeat split; [discriminate | constructor].
Qed.

Lemma cadence_ok_frame (post_time : Timestamp) (n : Z) (frame : VideoFrame)
    (c c' : Cadence) (effects : list Effect) :
  cadence_ok c →
  cadence_step (FrameArrives post_time n frame) c = Some (c', effects) →
  cadence_ok c'.
Proof.
  intros (Hfirst & Hone & Hlive & Hahead & Hempty). simpl.
  destruct (OnFrame post_time n frame (cadence_mode c))
    as [[mode' posted]|] eqn:Hrun; [|discriminate].
  simpl. intros [= <- <-].
  apply OnFrame_inv in Hrun as (_ & Hqueue & Hid & Hrepeating & Hposted).
  unfold cadence_ok. simpl.
  rewrite Hposted, Hrepeating, Hqueue, Hid, !count_tasks_app, length_app.
  simpl. repeat split.
  - rewrite Hfirst. destruct (is_repeating_ (cadence_mode c)) eqn:Hrep.
    + specialize (Hone eq_refl).
      destruct (queued_frames_ (cadence_mode c)) as [|stale [|? ?]];
        try discriminate. reflexivity.
    + lia.
  - discriminate.
  - rewrite (no_repeat_ahead (current_frame_id_ (cadence_mode c))) by
      (assumption || lia). reflexivity.
  - apply Forall_app. split.
    + eapply Forall_impl; [exact Hahead|]. intros task.
      apply not_ahead_of_mono. lia.
    + constructor; [exact I | constructor].
  - intros Hnil. apply app_eq_nil in Hnil as [_ Hnil]. discriminate.
Qed.

(** Closes the parts of [cadence_ok] after a task has fired. *)
Ltac cadence_parts :=
  repeat split; simpl in *; rewrite ?app_nil_r;
  first
    [ lia
    | discriminate
    | assumption
    | apply Forall_app; split;
      [assumption | constructor; [simpl; lia | constructor]]
    | idtac ].

Lemma cadence_ok_fire (now : Timestamp) (k : nat) (c c' : Cadence)
    (effects : list Effect) :
  cadence_ok c →
  cadence_step (TaskFires now k) c = Some (c', effects) →
  cadence_ok c'.
Proof.
  intros (Hfirst & Hone & Hlive & Hahead & Hempty). simpl.
  destruct (pending c !! k) as [task|] eqn:Hk; [|discriminate]. simpl.
  destruct (run_task now task (cadence_mode c))
    as [[mode' posted]|] eqn:Hrun; [|discriminate].
  simpl. intros [= <- <-].
  pose proof (count_tasks_delete is_first_task _ _ _ Hk) as Hfirst'.
  pose proof (count_tasks_delete
                (is_repeat_of (current_frame_id_ (cadence_mode c))) _ _ _ Hk)
    as Hlive'.
  pose proof (Forall_delete _ _ k Hahead) as Hahead'.
  pose proof (proj1 (Forall_lookup _ _) Hahead k task Hk) as Htask.
  unfold cadence_ok. simpl.
  destruct task as [|frame_id repeat_delay| |]; simpl in Hrun, Htask;
    try contradiction.
  - apply ProcessOnDelayedCadence_inv in Hrun
      as (front & rest & Hqueue & _ & Hcases).
    simpl in Hfirst', Hlive'. rewrite Hqueue in *.
    destruct (is_repeating_ (cadence_mode c)) eqn:Hrepeating; [lia|].
    destruct Hcases as [(Hrest & -> & Hposted)|(-> & -> & d & Hposted)];
      rewrite Hposted, !count_tasks_app; simpl;
      rewrite ?Hrepeating, ?Hqueue, ?Z.eqb_refl; cadence_parts.
    intros ->. contradiction.
  - apply ProcessRepeatedFrameOnDelayedCadence_inv in Hrun
      as (frame & rest & Hqueue & Hcases).
    simpl in Hfirst', Hlive'.
    destruct Hcases
      as [(Hstale & -> & ->)|(-> & frame' & d & -> & _ & _ & Hposted)].
    + destruct (Z.eqb_spec frame_id (current_frame_id_ (cadence_mode c)));
        [contradiction|].
      cadence_parts. rewrite Hqueue. discriminate.
    + rewrite Z.eqb_refl in Hlive'.
      destruct (is_repeating_ (cadence_mode c)) eqn:Hrepeating; [|lia].
      specialize (Hone eq_refl). rewrite Hqueue in Hone.
      destruct rest; [|discriminate].
      rewrite Hposted, !count_tasks_app. simpl.
      rewrite ?Hrepeating, ?Z.eqb_refl. cadence_parts.
Qed.

Lemma cadence_step_ok (event : CadenceEvent) (c c' : Cadence)
    (effects : list Effect) :
  cadence_ok c →
  cadence_step event c = Some (c', effects) →
  cadence_ok c'.
Proof.
  destruct event as [post_time n frame|now k|i enabled|i converged].
  - apply cadence_ok_frame.
  - apply cadence_ok_fire.
  - intros Hok. simpl.
    destruct (UpdateLayerStatus i enabled (cadence_mode c)) as [mode'|]
      eqn:Hrun; [|discriminate].
    simpl. intros [= <- <-].
    destruct (layer_update_keeps_queue _ _ _ _ (or_introl Hrun))
      as (Hqueue & Hid & Hrepeating).
    unfold cadence_ok in *. simpl. rewrite Hqueue, Hid, Hrepeating.
    exact Hok.
  - intros Hok. simpl.
    destruct (UpdateLayerQualityConvergence i converged (cadence_mode c))
      as [mode'|] eqn:Hrun; [|discriminate].
    simpl. intros [= <- <-].
    destruct (layer_update_keeps_queue _ _ _ _ (or_intror Hrun))
      as (Hqueue & Hid & Hrepeating).
    unfold cadence_ok in *. simpl. rewrite Hqueue, Hid, Hrepeating.
    exact Hok.
Qed.

Lemma cadence_run_ok (events : list CadenceEvent) :
  ∀ c c' effects,
    cadence_ok c →
    cadence_run events c = Some (c', effects) →
    cadence_ok c'.
Proof.
  induction events as [|event events IH]; intros c c' effects Hok; simpl.
  - intros [= <- <-]. exact Hok.
  - destruct (cadence_step event c) as [[c1 effects1]|] eqn:Hstep;
      [|discriminate].
    simpl.
    destruct (cadence_run events c1) as [[c2 effects2]|] eqn:Hrun;
      [|discriminate].
    simpl. intros [= <- <-].
    exact (IH _ _ _ (cadence_step_ok _ _ _ _ Hok Hstep) Hrun).
Qed.

(** X1. Whatever frames arrive, tasks fire and layers change, starting
    from a mode as constructed: one first task is pending per queued frame
    while the mode does not repeat and none while it repeats; a repeating
    mode holds exactly one frame; exactly one repeat task with the current
    frame id is pending while the mode repeats and none otherwise; no
    pending task carries a frame id ahead of the current one; and nothing
    is pending while the queue is empty. *)
Theorem cadence_invariant (callback : Callback) (max_fps : float)
    (params : ZeroHertzModeParams) (events : list CadenceEvent)
    (c : Cadence) (effects : list Effect) :
  cadence_run events (new_cadence callback max_fps params)
  = Some (c, effects) →
  count_tasks is_first_task (pending c)
  = (if is_repeating_ (cadence_mode c) then 0%nat
     else length (queued_frames_ (cadence_mode c)))
  ∧ (is_repeating_ (cadence_mode c) = true →
     length (queued_frames_ (cadence_mode c)) = 1%nat)
  ∧ count_tasks (is_repeat_of (current_frame_id_ (cadence_mode c)))
      (pending c)
    = (if is_repeating_ (cadence_mode c) then 1%nat else 0%nat)
  ∧ (∀ k frame_id repeat_delay,
       pending c !! k
       = Some (ProcessRepeatedFrameOnDelayedCadenceTask frame_id
                 repeat_delay) →
       frame_id ≤ current_frame_id_ (cadence_mode c))
  ∧ (queued_frames_ (cadence_mode c) = [] → pending c = []).
Proof.
  intros Hrun.
  destruct (cadence_run_ok events _ _ _ (cadence_ok_new _ _ _) Hrun)
    as (Hfirst & Hone & Hlive & Hahead & Hempty).
  repeat split; try assumption.
  intros k frame_id repeat_delay Hk.
  exact (proj1 (Forall_lookup _ _) Hahead k _ Hk).
Qed.

(** X2. In a state of the cadence, with a callback that is not null: a
    pending first task finds a frame in the queue and fires without
    failing; a pending repeat task finds the queue not empty, and one whose
    frame id is not current changes nothing and has no effect; and
    [OnFrame] passes its check and succeeds as long as the frame id can be
    incremented. *)
Theorem pending_tasks_pass_their_checks (c : Cadence) :
  cadence_ok c →
  callback_ (cadence_mode c) ≠ nullptr →
  (∀ now k,
     pending c !! k = Some ProcessOnDelayedCadenceTask →
     ∃ front c' effects,
       head (queued_frames_ (cadence_mode c)) = Some front
       ∧ cadence_step (TaskFires now k) c = Some (c', effects)
       ∧ delivered effects = [front])
  ∧ (∀ now k frame_id repeat_delay,
       pending c !! k
       = Some (ProcessRepeatedFrameOnDelayedCadenceTask frame_id
                 repeat_delay) →
       queued_frames_ (cadence_mode c) ≠ []
       ∧ (frame_id ≠ current_frame_id_ (cadence_mode c) →
          cadence_step (TaskFires now k) c
          = Some ({| cadence_mode := cadence_mode c;
                     pending := delete k (pending c) |}, [])))
  ∧ (∀ post_time n frame,
       INT_MIN ≤ current_frame_id_ (cadence_mode c) < INT_MAX →
       is_Some (cadence_step (FrameArrives post_time n frame) c)).
Proof.
  intros (Hfirst & Hone & Hlive & Hahead & Hempty) Hcallback.
  assert (∀ k task, pending c !! k = Some task →
                    queued_frames_ (cadence_mode c) ≠ []) as Hqueue.
  { intros k task Hk Hnil. rewrite (Hempty Hnil) in Hk. discriminate. }
  split; [|split].
  - intros now k Hk.
    destruct (queued_frames_ (cadence_mode c)) as [|front rest] eqn:Hfront.
    { exfalso. exact (Hqueue _ _ Hk eq_refl). }
    destruct (ProcessOnDelayedCadence_delivers now _ front rest Hcallback
                Hfront) as (mode' & effects & Hrun).
    exists front. eexists _, _. split; [reflexivity|].
    simpl. rewrite Hk. simpl. rewrite Hrun. simpl.
    split; [reflexivity|].
    apply ProcessOnDelayedCadence_inv in Hrun
      as (front' & rest' & Hfront' & Hdelivered & _).
    rewrite Hfront in Hfront'. injection Hfront' as <- <-.
    exact Hdelivered.
  - intros now k frame_id repeat_delay Hk.
    split; [exact (Hqueue _ _ Hk)|]. intros Hstale.
    simpl. rewrite Hk. simpl.
    rewrite (stale_repeat_is_noop _ _ _ _ (Hqueue _ _ Hk) Hstale). simpl.
    rewrite app_nil_r. reflexivity.
  - intros post_time n frame Hid. simpl.
    destruct (OnFrame_succeeds post_time n frame _ Hone Hid)
      as [[mode' posted] Hrun].
    rewrite Hrun. simpl. eauto.
Qed.

(** X3. Once a new frame is accepted, every repeat task that is still
    pending belongs to an earlier frame: when it fires it sends nothing,
    posts nothing and leaves the mode as it is. *)
Theorem new_frame_cancels_pending_repeats (post_time : Timestamp) (n : Z)
    (frame : VideoFrame) (c c' : Cadence) (effects : list Effect) :
  cadence_ok c →
  cadence_step (FrameArrives post_time n frame) c = Some (c', effects) →
  ∀ now k frame_id repeat_delay,
    pending c' !! k
    = Some (ProcessRepeatedFrameOnDelayedCadenceTask frame_id repeat_delay) →
    frame_id < current_frame_id_ (cadence_mode c')
    ∧ cadence_step (TaskFires now k) c'
      = Some ({| cadence_mode := cadence_mode c';
                 pending := delete k (pending c') |}, []).
Proof.
  intros Hok Hstep now k frame_id repeat_delay Hk.
  pose proof (cadence_ok_frame _ _ _ _ _ _ Hok Hstep)
    as (_ & _ & _ & _ & Hempty').
  destruct Hok as (_ & _ & _ & Hahead & _).
  simpl in Hstep.
  destruct (OnFrame post_time n frame (cadence_mode c))
    as [[mode' posted]|] eqn:Hrun; [|discriminate].
  simpl in Hstep. injection Hstep as <- <-.
  apply OnFrame_inv in Hrun as (_ & _ & Hid & _ & Hposted).
  simpl in *. rewrite Hposted in *.
  assert (frame_id ≤ current_frame_id_ (cadence_mode c)) as Hle.
  { apply lookup_app_Some in Hk as [Hk|[_ Hk]].
    - exact (proj1 (Forall_lookup _ _) Hahead k _ Hk).
    - destruct (k - length (pending c))%nat as [|[|?]]; discriminate. }
  split; [lia|].
  rewrite Hk. simpl.
  rewrite stale_repeat_is_noop; [simpl; rewrite app_nil_r; reflexivity| |lia].
  intros Hnil. rewrite (Hempty' Hnil) in Hk. discriminate.
Qed.
End CadenceProperties.

(** ** Bursts and the speed of the cadence *)

Section BurstProperties.
Context {ext : External}.
Import ZeroHertzAdapterMode.

Lemma delivered_effects_app (effects effects' : list Effect) :
  delivered (effects ++ effects') = delivered effects ++ delivered effects'.
Proof. apply omap_app. Qed.

Lemma posted_tasks_app (effects effects' : list Effect) :
  posted_tasks (effects ++ effects')
  = posted_tasks effects ++ posted_tasks effects'.
Proof. apply omap_app. Qed.

Lemma receive_appends (arrivals : list (Timestamp * Z * VideoFrame)) :
  ∀ mode,
    is_repeating_ mode = false →
    INT_MIN ≤ current_frame_id_ mode →
    current_frame_id_ mode + Z.of_nat (length arrivals) ≤ INT_MAX →
    ∃ mode',
      receive arrivals mode = Some mode'
      ∧ queued_frames_ mode' = queued_frames_ mode ++ arrivals.*2
      ∧ is_repeating_ mode' = false
      ∧ current_frame_id_ mode'
        = current_frame_id_ mode + Z.of_nat (length arrivals)
      ∧ callback_ mode' = callback_ mode.
Proof.
  induction arrivals as [|[[post_time n] frame] arrivals IH];
    intros mode Hrepeating Hmin Hmax; simpl in *.
  - exists mode. rewrite app_nil_r, Z.add_0_r. repeat split. exact Hrepeating.
  - destruct (OnFrame_succeeds post_time n frame mode)
      as [[mode1 posted] Hrun]; [rewrite Hrepeating; discriminate | lia |].
    rewrite Hrun. simpl.
    pose proof (zero_hertz_OnFrame_configuration _ _ _ _ _ _ Hrun)
      as (Hcallback & _).
    apply OnFrame_inv in Hrun as (_ & Hqueue & Hid & Hrepeating1 & _).
    rewrite Hrepeating in Hqueue.
    destruct (IH mode1 Hrepeating1) as (mode' & Hrest & Hq & Hr & Hi & Hc);
      [lia | lia |].
    exists mode'. rewrite Hrest, Hq, Hqueue, Hr, Hi, Hid, Hc, Hcallback.
    rewrite <- app_assoc. repeat split. lia.
Qed.

Lemma drain_delivers (times : list Timestamp) :
  ∀ mode front rest,
    is_repeating_ mode = false →
    queued_frames_ mode = front :: rest →
    length times = S (length rest) →
    callback_ mode ≠ nullptr →
    ∃ mode' effects repeat_delay final,
      drain times mode = Some (mode', effects)
      ∧ delivered effects = front :: rest
      ∧ posted_tasks effects
        = [ProcessRepeatedFrameOnDelayedCadenceTask (current_frame_id_ mode)
             repeat_delay]
      ∧ last (front :: rest) = Some final
      ∧ queued_frames_ mode' = [final]
      ∧ is_repeating_ mode' = true.
Proof.
  induction times as [|now times IH];
    intros mode front rest Hrepeating Hqueue Hlength Hcallback;
    [discriminate|].
  simpl. unfold ProcessOnDelayedCadence, SendFrameNow. rewrite Hqueue.
  rewrite (call_OnFrame_Some _ _ _ _ Hcallback). simpl.
  destruct rest as [|second rest]; simpl in *.
  - destruct times; [|discriminate]. simpl.
    eexists _, _, _, front. repeat split. exact Hqueue.
  - destruct (IH (set_queued_frames (second :: rest) mode) second rest)
      as (mode' & effects & d & final & Hrun & Hdelivered & Hposted & Hlast
          & Hfinal & Hrep); try assumption; try reflexivity; [lia|].
    rewrite Hrun. simpl. eexists mode', _, d, final.
    split; [reflexivity|]. simpl. rewrite Hdelivered, Hposted.
    repeat split; assumption.
Qed.

(** X4. A mode that does not repeat receives a burst of frames, and then
    one first task fires per queued frame: the callback receives the
    queued frames followed by the frames of the burst, each once and in
    the order of arrival; only the last task to fire schedules a repeat,
    with the frame id of the last frame; and the mode ends up repeating
    that last frame. *)
Theorem burst_is_delivered_in_order
    (arrivals : list (Timestamp * Z * VideoFrame)) (times : list Timestamp)
    (mode : t) :
  is_repeating_ mode = false →
  callback_ mode ≠ nullptr →
  queued_frames_ mode ++ arrivals.*2 ≠ [] →
  INT_MIN ≤ current_frame_id_ mode →
  current_frame_id_ mode + Z.of_nat (length arrivals) ≤ INT_MAX →
  length times = (length (queued_frames_ mode) + length arrivals)%nat →
  ∃ mode1 mode2 effects repeat_delay final,
    receive arrivals mode = Some mode1
    ∧ drain times mode1 = Some (mode2, effects)
    ∧ delivered effects = queued_frames_ mode ++ arrivals.*2
    ∧ posted_tasks effects
      = [ProcessRepeatedFrameOnDelayedCadenceTask
           (current_frame_id_ mode + Z.of_nat (length arrivals))
           repeat_delay]
    ∧ last (queued_frames_ mode ++ arrivals.*2) = Some final
    ∧ queued_frames_ mode2 = [final]
    ∧ is_repeating_ mode2 = true.
Proof.
  intros Hrepeating Hcallback Hframes Hmin Hmax Hlength.
  destruct (receive_appends arrivals mode Hrepeating Hmin Hmax)
    as (mode1 & Hreceive & Hqueue & Hrepeating1 & Hid & Hcallback1).
  destruct (queued_frames_ mode ++ arrivals.*2) as [|front rest] eqn:Hall;
    [contradiction|].
  destruct (drain_delivers times mode1 front rest Hrepeating1 Hqueue)
    as (mode2 & effects & d & final & Hdrain & Hdelivered & Hposted & Hlast
        & Hfinal & Hrep).
  - apply (f_equal length) in Hall.
    rewrite length_app, length_fmap in Hall. simpl in Hall. lia.
  - rewrite Hcallback1. exact Hcallback.
  - exists mode1, mode2, effects, d, final. rewrite <- Hid.
    repeat split; assumption.
Qed.

Lemma OnFrame_trackers (post_time : Timestamp) (n : Z) (frame : VideoFrame)
    (mode mode' : t) (effects : list Effect) :
  OnFrame post_time n frame mode = Some (mode', effects) →
  layer_trackers_ mode' = reset_tracker <$> layer_trackers_ mode
  ∧ frame_delay_ mode' = frame_delay_ mode.
Proof.
  unfold OnFrame. simpl. intros Hrun.
  repeat (case_match; simplify_option_eq); split; reflexivity.
Qed.

(** X5. After a new frame, the next repeat is scheduled after
    [frame_delay_] whenever some layer is enabled, whatever convergence
    the layers had reported before the frame; it is scheduled after the
    idle period when no layer is enabled. *)
Theorem new_frame_restarts_fast_cadence (post_time : Timestamp) (n : Z)
    (frame : VideoFrame) (mode mode' : t) (effects : list Effect)
    (frame_id : Z) :
  OnFrame post_time n frame mode = Some (mode', effects) →
  ((∃ i c, layer_trackers_ mode !! i = Some (Enabled c)) →
   ScheduleRepeat frame_id mode'
   = [PostDelayedTask
        (ProcessRepeatedFrameOnDelayedCadenceTask frame_id
           (frame_delay_ mode))
        (TimeDelta_ms (frame_delay_ mode))])
  ∧ ((∀ i tracker, layer_trackers_ mode !! i = Some tracker →
                   tracker = Disabled) →
     ScheduleRepeat frame_id mode'
     = [PostDelayedTask
          (ProcessRepeatedFrameOnDelayedCadenceTask frame_id
             kZeroHertzIdleRepeatRatePeriod)
          (TimeDelta_ms kZeroHertzIdleRepeatRatePeriod)]).
Proof.
  intros Hrun. apply OnFrame_trackers in Hrun as [Htrackers Hdelay].
  unfold ScheduleRepeat. rewrite Htrackers, Hdelay. split.
  - intros (i & c & Hi).
    destruct (forallb converged_or_disabled
                (reset_tracker <$> layer_trackers_ mode)) eqn:Hall;
      [|reflexivity].
    pose proof (proj1 (all_converged_spec _) Hall i false) as Hfalse.
    rewrite list_lookup_fmap, Hi in Hfalse.
    specialize (Hfalse eq_refl). discriminate.
  - intros Hdisabled.
    destruct (forallb converged_or_disabled
                (reset_tracker <$> layer_trackers_ mode)) eqn:Hall;
      [reflexivity|].
    assert (forallb converged_or_disabled
              (reset_tracker <$> layer_trackers_ mode) = true) as Htrue.
    { apply all_converged_spec. intros i c Hi.
      rewrite list_lookup_fmap in Hi.
      destruct (layer_trackers_ mode !! i) as [tracker|] eqn:Htracker;
        [|discriminate].
      rewrite (Hdisabled i tracker Htracker) in Hi. discriminate. }
    congruence.
Qed.

(** X6. When an enabled layer reports that its quality has not converged,
    the next repeat is scheduled after [frame_delay_]; when it reports
    convergence and every other enabled layer is converged, the next repeat
    is scheduled after the idle period. *)
Theorem layer_reports_set_the_cadence (i : Z) (c0 : bool) (mode : t)
    (frame_id : Z) :
  tracker_at i mode = Some (Enabled c0) →
  (∃ mode',
     UpdateLayerQualityConvergence i false mode = Some mode'
     ∧ ScheduleRepeat frame_id mode'
       = [PostDelayedTask
            (ProcessRepeatedFrameOnDelayedCadenceTask frame_id
               (frame_delay_ mode))
            (TimeDelta_ms (frame_delay_ mode))])
  ∧ ((∀ j c, j ≠ Z.to_nat i →
             layer_trackers_ mode !! j = Some (Enabled c) → c = true) →
     ∃ mode',
       UpdateLayerQualityConvergence i true mode = Some mode'
       ∧ ScheduleRepeat frame_id mode'
         = [PostDelayedTask
              (ProcessRepeatedFrameOnDelayedCadenceTask frame_id
                 kZeroHertzIdleRepeatRatePeriod)
              (TimeDelta_ms kZeroHertzIdleRepeatRatePeriod)]).
Proof.
  intros Hat.
  assert (0 ≤ i ∧ (Z.to_nat i < length (layer_trackers_ mode))%nat)
    as [Hlo Hhi].
  { unfold tracker_at in Hat. destruct (Z.leb_spec 0 i); [|discriminate].
    split; [assumption|]. exact (lookup_lt_Some _ _ _ Hat). }
  split.
  - destruct (UpdateLayerQualityConvergence_enabled i c0 false mode Hat)
      as (mode' & Hrun & ->).
    eexists. split; [exact Hrun|]. unfold ScheduleRepeat. simpl.
    destruct (forallb converged_or_disabled _) eqn:Hall; [|reflexivity].
    pose proof (proj1 (all_converged_spec _) Hall (Z.to_nat i) false)
      as Hfalse.
    rewrite list_lookup_insert_eq in Hfalse by assumption.
    specialize (Hfalse eq_refl). discriminate.
  - intros Hothers.
    destruct (UpdateLayerQualityConvergence_enabled i c0 true mode Hat)
      as (mode' & Hrun & ->).
    eexists. split; [exact Hrun|]. unfold ScheduleRepeat. simpl.
    assert (forallb converged_or_disabled
              (<[Z.to_nat i := Enabled true]> (layer_trackers_ mode))
            = true) as ->; [|reflexivity].
    apply all_converged_spec. intros j c Hj.
    destruct (decide (j = Z.to_nat i)) as [->|Hne].
    + rewrite list_lookup_insert_eq in Hj by assumption.
      unfold Enabled in Hj. congruence.
    + rewrite list_lookup_insert_ne in Hj by congruence.
      exact (Hothers j c Hne Hj).
Qed.
End BurstProperties.

(** ** The counter, the mode pointer and the routing of frames *)

Section AdapterInvariants.
Context {ext : External}.
Import FrameCadenceAdapterImpl.

Lemma atomic_int_wrap_range (z : Z) :
  INT_MIN ≤ atomic_int_wrap z ≤ INT_MAX.
Proof.
  unfold atomic_int_wrap, INT_MIN, INT_MAX.
  pose proof (Z.mod_pos_bound (z + 2 ^ 31) (2 ^ 32)). lia.
Qed.

Lemma atomic_int_wrap_add (a b : Z) :
  atomic_int_wrap (atomic_int_wrap a + b) = atomic_int_wrap (a + b).
Proof.
  unfold atomic_int_wrap.
  replace ((a + 2 ^ 31) `mod` 2 ^ 32 - 2 ^ 31 + b + 2 ^ 31)
    with ((a + 2 ^ 31) `mod` 2 ^ 32 + b) by lia.
  rewrite Zplus_mod_idemp_l. f_equal. f_equal. lia.
Qed.

(** What one operation does to the counter. *)
Lemma step_counter (op : Op) (self self' : t) (effects : list Effect) :
  step op self = Some (self', effects) →
  frames_scheduled_for_processing_ self'
  = (if decide (posts_frame op - runs_frame_task op = 0)
     then frames_scheduled_for_processing_ self
     else atomic_int_wrap
            (frames_scheduled_for_processing_ self
             + (posts_frame op - runs_frame_task op))).
Proof.
  destruct op as [callback|params|now_ms|now_ms|i c|i enabled|now frame|
                  |constraints|now task]; simpl; intros Hstep.
  - injection Hstep as <- <-. reflexivity.
  - destruct (SetZeroHertzModeEnabled params self) as [self1|] eqn:Hset;
      [|discriminate].
    injection Hstep as <- <-. unfold SetZeroHertzModeEnabled in Hset.
    apply MaybeReconfigureAdapters_keeps in Hset
      as (_ & _ & _ & _ & Hcount & _).
    rewrite Hcount. destruct (has_value params && _); reflexivity.
  - unfold GetInputFrameRateFps in Hstep.
    repeat (case_match; simplify_option_eq); reflexivity.
  - unfold UpdateFrameRate in Hstep. simplify_option_eq. reflexivity.
  - unfold UpdateLayerQualityConvergence in Hstep.
    repeat (case_match; simplify_option_eq); reflexivity.
  - unfold UpdateLayerStatus in Hstep.
    repeat (case_match; simplify_option_eq); reflexivity.
  - injection Hstep as <- <-. reflexivity.
  - destruct (OnDiscardedFrame self); [|discriminate].
    simpl in Hstep. injection Hstep as <- <-. reflexivity.
  - injection Hstep as <- <-. reflexivity.
  - destruct task as [|frame_id repeat_delay|post_time frame|constraints];
      simpl in *.
    + repeat (case_match; simplify_option_eq); reflexivity.
    + repeat (case_match; simplify_option_eq); reflexivity.
    + unfold run_OnFrameTask, fetch_sub in Hstep.
      destruct (OnFrameOnMainQueue _ _ _ _) as [[self1 delivered]|] eqn:Hmain;
        [|discriminate].
      simpl in Hstep.
      pose proof (MaybeReport_keeps_count self1) as Hreport.
      destruct (MaybeReportFrameRateConstraintUmas self1)
        as [self2 reported].
      injection Hstep as <- <-. simpl in Hreport.
      apply OnFrameOnMainQueue_keeps in Hmain
        as (_ & _ & _ & _ & _ & Hcount).
      rewrite Hreport, Hcount. reflexivity.
    + destruct (run_OnConstraintsChangedTask constraints self)
        as [self1|] eqn:Htask; [|discriminate].
      injection Hstep as <- <-. unfold run_OnConstraintsChangedTask in Htask.
      apply MaybeReconfigureAdapters_keeps in Htask
        as (_ & _ & _ & _ & Hcount & _).
      exact Hcount.
Qed.

Lemma run_counter (ops : list Op) :
  ∀ self self' effects,
    run ops self = Some (self', effects) →
    INT_MIN ≤ frames_scheduled_for_processing_ self ≤ INT_MAX →
    frames_scheduled_for_processing_ self'
    = atomic_int_wrap
        (frames_scheduled_for_processing_ self + frames_in_flight ops).
Proof.
  induction ops as [|op ops IH]; intros self self' effects Hrun Hrange;
    simpl in Hrun.
  - injection Hrun as <- <-. unfold frames_in_flight. simpl.
    rewrite Z.add_0_r. symmetry. apply atomic_int_wrap_in_range. exact Hrange.
  - destruct (step op self) as [[self1 effects1]|] eqn:Hstep;
      [|discriminate].
    simpl in Hrun.
    destruct (run ops self1) as [[self2 effects2]|] eqn:Hrest;
      [|discriminate].
    injection Hrun as <- <-.
    apply step_counter in Hstep.
    assert (frames_scheduled_for_processing_ self1
            = atomic_int_wrap
                (frames_scheduled_for_processing_ self
                 + (posts_frame op - runs_frame_task op))) as Hone.
    { rewrite Hstep. destruct (decide _) as [Hzero|_]; [|reflexivity].
      rewrite Hzero, Z.add_0_r. symmetry.
      apply atomic_int_wrap_in_range. exact Hrange. }
    rewrite (IH _ _ _ Hrest) by (rewrite Hone; apply atomic_int_wrap_range).
    rewrite Hone, atomic_int_wrap_add.
    unfold frames_in_flight. simpl. f_equal. lia.
Qed.

(** X7. Over every sequence of operations, the counter
    [frames_scheduled_for_processing_] moves with the frames in flight: its
    value is the value at the start plus the frames posted by [OnFrame]
    minus the frame tasks that ran, up to the wrap-around of the atomic
    integer; when that sum is an [int], as it is while fewer than 2^31
    frames are in flight, it is that sum. *)
Theorem counter_counts_frames_in_flight (ops : list Op) (self self' : t)
    (effects : list Effect) :
  run ops self = Some (self', effects) →
  INT_MIN ≤ frames_scheduled_for_processing_ self ≤ INT_MAX →
  frames_scheduled_for_processing_ self'
  = atomic_int_wrap
      (frames_scheduled_for_processing_ self + frames_in_flight ops)
  ∧ INT_MIN ≤ frames_scheduled_for_processing_ self' ≤ INT_MAX
  ∧ (INT_MIN
     ≤ frames_scheduled_for_processing_ self + frames_in_flight ops
     ≤ INT_MAX →
     frames_scheduled_for_processing_ self'
     = frames_scheduled_for_processing_ self + frames_in_flight ops).
Proof.
  intros Hrun Hrange. pose proof (run_counter _ _ _ _ Hrun Hrange) as Hcount.
  split; [exact Hcount|]. split.
  - rewrite Hcount. apply atomic_int_wrap_range.
  - intros Hsum. rewrite Hcount. apply atomic_int_wrap_in_range. exact Hsum.
Qed.

Lemma MaybeReconfigureAdapters_pointer (was : bool) (self self' : t) :
  MaybeReconfigureAdapters was self = Some self' →
  mode_pointer_valid self'
  ∧ current_adapter_mode_ self'
    = (if IsZeroHertzScreenshareEnabled self then to_zero_hertz_adapter
       else to_passthrough_adapter).
Proof.
  unfold MaybeReconfigureAdapters, mode_pointer_valid. intros Hrun.
  destruct (IsZeroHertzScreenshareEnabled self), was; simpl in Hrun.
  - destruct (zero_hertz_adapter_ self) as [mode|] eqn:Hmode;
      [|discriminate].
    simpl in Hrun. injection Hrun as <-. simpl. rewrite Hmode. eauto.
  - destruct (source_constraints_ self) as [constraints|]; [|discriminate].
    simpl in Hrun.
    destruct (max_fps constraints) as [fps|]; [|discriminate].
    simpl in Hrun.
    destruct (zero_hertz_params_ self) as [params|]; [|discriminate].
    simpl in Hrun. injection Hrun as <-. simpl. eauto.
  - destruct (passthrough_adapter_ self) as [mode|] eqn:Hmode;
      [|discriminate].
    simpl in Hrun. injection Hrun as <-. simpl. rewrite Hmode. eauto.
  - destruct (passthrough_adapter_ self) as [mode|] eqn:Hmode;
      [|discriminate].
    simpl in Hrun. injection Hrun as <-. simpl. rewrite Hmode. eauto.
Qed.

Lemma MaybeReconfigureAdapters_selects (was : bool) (self self' : t) :
  MaybeReconfigureAdapters was self = Some self' →
  current_adapter_mode_ self'
  = (if IsZeroHertzScreenshareEnabled self' then to_zero_hertz_adapter
     else to_passthrough_adapter).
Proof.
  intros Hrun.
  pose proof (MaybeReconfigureAdapters_pointer _ _ _ Hrun) as [_ ->].
  apply MaybeReconfigureAdapters_keeps in Hrun
    as (_ & Hparams & Hconstraints & Htrial & _).
  rewrite (IsZeroHertzScreenshareEnabled_ext self self'); done.
Qed.

(** An operation that leaves the pointer and keeps the modes that exist
    keeps the pointer valid. *)
Lemma mode_pointer_valid_kept (self self' : t) :
  current_adapter_mode_ self' = current_adapter_mode_ self →
  (is_Some (passthrough_adapter_ self) →
   is_Some (passthrough_adapter_ self')) →
  (is_Some (zero_hertz_adapter_ self) →
   is_Some (zero_hertz_adapter_ self')) →
  mode_pointer_valid self → mode_pointer_valid self'.
Proof.
  unfold mode_pointer_valid. intros -> Hpassthrough Hzero.
  destruct (current_adapter_mode_ self); auto.
Qed.

Lemma OnFrameOnMainQueue_pointer (post_time : Timestamp) (n : Z)
    (frame : VideoFrame) (self self' : t) (effects : list Effect) :
  OnFrameOnMainQueue post_time n frame self = Some (self', effects) →
  mode_pointer_valid self'.
Proof.
  unfold OnFrameOnMainQueue, mode_pointer_valid. intros Hrun.
  destruct (current_adapter_mode_ self) eqn:Hpointer; [discriminate| |].
  - destruct (passthrough_adapter_ self) as [mode|]; [|discriminate].
    simpl in Hrun.
    destruct (PassthroughAdapterMode.OnFrame _ _ _ _) as [[mode' e]|];
      [|discriminate].
    simpl in Hrun. injection Hrun as <- <-. simpl. rewrite Hpointer. eauto.
  - destruct (zero_hertz_adapter_ self) as [mode|]; [|discriminate].
    simpl in Hrun.
    destruct (ZeroHertzAdapterMode.OnFrame _ _ _ _) as [[mode' e]|];
      [|discriminate].
    simpl in Hrun. injection Hrun as <- <-. simpl. rewrite Hpointer. eauto.
Qed.

Lemma MaybeReport_pointer (self : t) :
  mode_pointer_valid self →
  mode_pointer_valid (MaybeReportFrameRateConstraintUmas self).1.
Proof.
  unfold MaybeReportFrameRateConstraintUmas.
  intros Hvalid. repeat case_match; exact Hvalid.
Qed.

Lemma step_pointer_valid (op : Op) (self self' : t) (effects : list Effect) :
  mode_pointer_valid self →
  step op self = Some (self', effects) →
  mode_pointer_valid self'.
Proof.
  intros Hvalid.
  destruct op as [callback|params|now_ms|now_ms|i c|i enabled|now frame|
                  |constraints|now task]; simpl; intros Hstep.
  - injection Hstep as <- <-. unfold mode_pointer_valid. simpl. eauto.
  - destruct (SetZeroHertzModeEnabled params self) as [self1|] eqn:Hset;
      [|discriminate].
    injection Hstep as <- <-.
    apply MaybeReconfigureAdapters_pointer in Hset as [Hset _]. exact Hset.
  - unfold GetInputFrameRateFps in Hstep.
    destruct (current_adapter_mode_ self) eqn:Hpointer; [discriminate| |].
    + destruct (passthrough_adapter_ self) as [mode|]; [|discriminate].
      simpl in Hstep.
      destruct (PassthroughAdapterMode.GetInputFrameRateFps now_ms mode).
      simpl in Hstep. injection Hstep as <- <-.
      unfold mode_pointer_valid. simpl. rewrite Hpointer. eauto.
    + destruct (zero_hertz_adapter_ self) as [mode|]; [|discriminate].
      simpl in Hstep. injection Hstep as <- <-. exact Hvalid.
  - unfold UpdateFrameRate in Hstep.
    destruct (passthrough_adapter_ self) as [mode|]; [|discriminate].
    simpl in Hstep. injection Hstep as <- <-.
    eapply mode_pointer_valid_kept; [..|exact Hvalid]; simpl; eauto.
  - unfold UpdateLayerQualityConvergence in Hstep.
    destruct (zero_hertz_adapter_ self) as [mode|].
    + destruct (ZeroHertzAdapterMode.UpdateLayerQualityConvergence _ _ _);
        [|discriminate].
      simpl in Hstep. injection Hstep as <- <-.
      eapply mode_pointer_valid_kept; [..|exact Hvalid]; simpl; eauto.
    + simpl in Hstep. injection Hstep as <- <-. exact Hvalid.
  - unfold UpdateLayerStatus in Hstep.
    destruct (zero_hertz_adapter_ self) as [mode|].
    + destruct (ZeroHertzAdapterMode.UpdateLayerStatus _ _ _);
        [|discriminate].
      simpl in Hstep. injection Hstep as <- <-.
      eapply mode_pointer_valid_kept; [..|exact Hvalid]; simpl; eauto.
    + simpl in Hstep. injection Hstep as <- <-. exact Hvalid.
  - injection Hstep as <- <-. exact Hvalid.
  - destruct (OnDiscardedFrame self); [|discriminate].
    simpl in Hstep. injection Hstep as <- <-. exact Hvalid.
  - injection Hstep as <- <-. exact Hvalid.
  - destruct task as [|frame_id repeat_delay|post_time frame|constraints];
      simpl in Hstep.
    + destruct (zero_hertz_adapter_ self) as [mode|] eqn:Hmode.
      * destruct (ZeroHertzAdapterMode.ProcessOnDelayedCadence _ _)
          as [[mode' e]|]; [|discriminate].
        simpl in Hstep. injection Hstep as <- <-.
        eapply mode_pointer_valid_kept; [..|exact Hvalid]; simpl; eauto.
      * injection Hstep as <- <-. exact Hvalid.
    + destruct (zero_hertz_adapter_ self) as [mode|] eqn:Hmode.
      * destruct (ZeroHertzAdapterMode.ProcessRepeatedFrameOnDelayedCadence
                    _ _ _ _) as [[mode' e]|]; [|discriminate].
        simpl in Hstep. injection Hstep as <- <-.
        eapply mode_pointer_valid_kept; [..|exact Hvalid]; simpl; eauto.
      * injection Hstep as <- <-. exact Hvalid.
    + unfold run_OnFrameTask, fetch_sub in Hstep.
      destruct (OnFrameOnMainQueue _ _ _ _) as [[self1 delivered]|] eqn:Hmain;
        [|discriminate].
      simpl in Hstep.
      apply OnFrameOnMainQueue_pointer, MaybeReport_pointer in Hmain.
      destruct (MaybeReportFrameRateConstraintUmas self1)
        as [self2 reported].
      injection Hstep as <- <-. exact Hmain.
    + destruct (run_OnConstraintsChangedTask constraints self)
        as [self1|] eqn:Htask; [|discriminate].
      injection Hstep as <- <-.
      apply MaybeReconfigureAdapters_pointer in Htask as [Htask _].
      exact Htask.
Qed.

Lemma run_pointer_valid (ops : list Op) :
  ∀ self self' effects,
    mode_pointer_valid self →
    run ops self = Some (self', effects) →
    mode_pointer_valid self'.
Proof.
  induction ops as [|op ops IH]; intros self self' effects Hvalid Hrun;
    simpl in Hrun.
  - injection Hrun as <- <-. exact Hvalid.
  - destruct (step op self) as [[self1 effects1]|] eqn:Hstep;
      [|discriminate].
    simpl in Hrun.
    destruct (run ops self1) as [[self2 effects2]|] eqn:Hrest;
      [|discriminate].
    injection Hrun as <- <-.
    eapply IH; [|exact Hrest]. eapply step_pointer_valid; eassumption.
Qed.

(** X8. [current_adapter_mode_] never dangles: in an adapter as constructed
    it is null, and after every sequence of operations that runs without
    undefined behaviour it is null or points to a mode object that exists.
    After [SetZeroHertzModeEnabled] and after the task of
    [OnConstraintsChanged] it points to the zero-hertz mode exactly when
    [IsZeroHertzScreenshareEnabled] holds, and to the pass-through mode
    otherwise; [Initialize] points it to the pass-through mode whatever
    the configuration. *)
Theorem mode_pointer_follows_configuration :
  (∀ field_trial_enabled, mode_pointer_valid (new field_trial_enabled))
  ∧ (∀ ops self self' effects,
       mode_pointer_valid self →
       run ops self = Some (self', effects) →
       mode_pointer_valid self')
  ∧ (∀ params self self',
       SetZeroHertzModeEnabled params self = Some self' →
       current_adapter_mode_ self'
       = (if IsZeroHertzScreenshareEnabled self' then to_zero_hertz_adapter
          else to_passthrough_adapter))
  ∧ (∀ constraints self self',
       run_OnConstraintsChangedTask constraints self = Some self' →
       current_adapter_mode_ self'
       = (if IsZeroHertzScreenshareEnabled self' then to_zero_hertz_adapter
          else to_passthrough_adapter))
  ∧ (∀ callback self,
       current_adapter_mode_ (Initialize callback self)
       = to_passthrough_adapter
       ∧ passthrough_adapter_ (Initialize callback self)
         = Some (PassthroughAdapterMode.new callback)
       ∧ zero_hertz_adapter_ (Initialize callback self)
         = zero_hertz_adapter_ self).
Proof.
  split; [intros b; exact I|].
  split; [intros ops self self' effects Hvalid Hrun;
          exact (run_pointer_valid ops _ _ _ Hvalid Hrun)|].
  split; [intros params self self' Hset;
          exact (MaybeReconfigureAdapters_selects _ _ _ Hset)|].
  split; [intros constraints self self' Htask;
          exact (MaybeReconfigureAdapters_selects _ _ _ Htask)|].
  intros callback self. repeat split.
Qed.
End AdapterInvariants.

(** ** Index checks, the shape of the report and the routing of frames *)

Section RoutingProperties.
Context {ext : External}.
Import FrameCadenceAdapterImpl.

Ltac case_adjusted :=
  match goal with
  | |- context [int64_add ?a ?b] => destruct (int64_add a b)
  | |- context [if ?b then _ else _] => destruct b
  end.





(** X10. The report when a constraint is missing. With a report due,
    [MaybeReportFrameRateConstraintUmas] emits the sample Exists alone when
    no constraints were received; with constraints it emits Min.Exists and
    Max.Exists and the value of each bound that is present; MinUnset.Max is
    emitted when only the maximum is present; nothing else is emitted when
    a bound is missing. Whatever was emitted, the flag is set afterwards and
    a second call emits nothing and changes nothing. *)
Theorem report_with_missing_constraints (self : FrameCadenceAdapterImpl.t) :
  has_reported_screenshare_frame_rate_umas_ self = false →
  has_value (zero_hertz_params_ self) = true →
  let result := FrameCadenceAdapterImpl.MaybeReportFrameRateConstraintUmas
                  self in
  let exist b :=
    RTC_HISTOGRAM_BOOLEAN "WebRTC.Screenshare.FrameRateConstraints.Exists"
      b in
  let min_exists b :=
    RTC_HISTOGRAM_BOOLEAN
      "WebRTC.Screenshare.FrameRateConstraints.Min.Exists" b in
  let max_exists b :=
    RTC_HISTOGRAM_BOOLEAN
      "WebRTC.Screenshare.FrameRateConstraints.Max.Exists" b in
  (source_constraints_ self = None → result.2 = [exist false])
  ∧ (∀ constraints,
       source_constraints_ self = Some constraints →
       min_fps constraints = None → max_fps constraints = None →
       result.2 = [exist true; min_exists false; max_exists false])
  ∧ (∀ constraints max,
       source_constraints_ self = Some constraints →
       min_fps constraints = None → max_fps constraints = Some max →
       result.2
       = [exist true; min_exists false; max_exists true;
          RTC_HISTOGRAM_COUNTS_100
            "WebRTC.Screenshare.FrameRateConstraints.Max.Value" max;
          RTC_HISTOGRAM_COUNTS_100
            "WebRTC.Screenshare.FrameRateConstraints.MinUnset.Max" max])
  ∧ (∀ constraints min,
       source_constraints_ self = Some constraints →
       min_fps constraints = Some min → max_fps constraints = None →
       result.2
       = [exist true; min_exists true;
          RTC_HISTOGRAM_COUNTS_100
            "WebRTC.Screenshare.FrameRateConstraints.Min.Value" min;
          max_exists false])
  ∧ has_reported_screenshare_frame_rate_umas_ result.1 = true
  ∧ FrameCadenceAdapterImpl.MaybeReportFrameRateConstraintUmas result.1
    = (result.1, []).
Proof.
  intros Hreported Hparams.
  unfold FrameCadenceAdapterImpl.MaybeReportFrameRateConstraintUmas,
    FrameCadenceAdapterImpl.report_constraints.
  rewrite Hreported. simpl. rewrite Hparams. simpl.
  repeat split.
  - intros ->. reflexivity.
  - intros constraints -> -> ->. reflexivity.
  - intros constraints max -> -> ->. reflexivity.
  - intros constraints min -> -> ->. reflexivity.
Qed.

(** X11. What the zero-hertz mode hands to the callback. Every call of
    [OnFrame] on the callback made by a delayed task of the mode goes to
    the callback the mode was constructed with, carries the clock reading
    of the task as post time and the count 1, and a task makes at most one
    such call. The post time and the count the adapter passes to [OnFrame]
    of the mode are dropped: they change neither the state nor the task
    that is posted, and [OnFrame] itself delivers nothing. *)
Theorem zero_hertz_callback_arguments (now : Timestamp) (task : Task)
    (mode mode' : ZeroHertzAdapterMode.t) (effects : list Effect) :
  ZeroHertzAdapterMode.run_task now task mode = Some (mode', effects) →
  (∀ callback post_time n frame,
     Callback_OnFrame callback post_time n frame ∈ effects →
     callback = ZeroHertzAdapterMode.callback_ mode
     ∧ post_time = now
     ∧ n = 1)
  ∧ (length (delivered effects) ≤ 1)%nat
  ∧ ZeroHertzAdapterMode.callback_ mode' = ZeroHertzAdapterMode.callback_ mode
  ∧ (∀ post_time post_time' n n' frame,
       ZeroHertzAdapterMode.OnFrame post_time n frame mode
       = ZeroHertzAdapterMode.OnFrame post_time' n' frame mode)
  ∧ (∀ post_time n frame mode1 effects1,
       ZeroHertzAdapterMode.OnFrame post_time n frame mode
       = Some (mode1, effects1) →
       delivered effects1 = []).
Proof.
  intros Hrun.
  assert (effects = []
          ∨ ∃ frame rest,
              effects = Callback_OnFrame (ZeroHertzAdapterMode.callback_ mode)
                          now 1 frame :: rest
              ∧ delivered rest = []
              ∧ ∀ callback post_time n frame',
                  Callback_OnFrame callback post_time n frame' ∉ rest)
    as Hshape.
  { destruct task as [|frame_id repeat_delay|post_time frame|constraints];
      simpl in Hrun.
    - unfold ZeroHertzAdapterMode.ProcessOnDelayedCadence,
        ZeroHertzAdapterMode.SendFrameNow in Hrun.
      destruct (ZeroHertzAdapterMode.queued_frames_ mode) as [|front rest];
        [discriminate|].
      destruct (call_OnFrame _ _ _ _) as [sent|] eqn:Hsent; [|discriminate].
      apply call_OnFrame_inv in Hsent as ->. simpl in Hrun.
      right. exists front.
      destruct (1 <? _)%nat.
      + injection Hrun as <- <-. exists []. repeat split.
        intros ? ? ? ?. apply not_elem_of_nil.
      + injection Hrun as <- <-. eexists. split; [reflexivity|].
        split; [reflexivity|].
        intros ? ? ? ?. unfold ZeroHertzAdapterMode.ScheduleRepeat.
        rewrite list_elem_of_singleton. discriminate.
    - unfold ZeroHertzAdapterMode.ProcessRepeatedFrameOnDelayedCadence,
        ZeroHertzAdapterMode.SendFrameNow in Hrun.
      destruct (ZeroHertzAdapterMode.queued_frames_ mode) as [|front rest];
        [discriminate|].
      destruct (negb _); [injection Hrun as <- <-; left; reflexivity|].
      revert Hrun.
      repeat (case_adjusted; simpl); try discriminate;
        (destruct (call_OnFrame _ _ _ _) as [sent|] eqn:Hsent;
         [|discriminate]);
        apply call_OnFrame_inv in Hsent as ->; simpl;
        intros [= <- <-]; right; eexists; eexists;
        (split; [reflexivity|]); (split; [reflexivity|]);
        intros ? ? ? ?; unfold ZeroHertzAdapterMode.ScheduleRepeat;
        rewrite list_elem_of_singleton; discriminate.
    - injection Hrun as <- <-. left. reflexivity.
    - injection Hrun as <- <-. left. reflexivity. }
  split; [|split; [|split; [|split]]].
  - intros callback post_time n frame Hin.
    destruct Hshape as [->|(front & rest & -> & _ & Hrest)].
    + apply elem_of_nil in Hin. contradiction.
    + apply elem_of_cons in Hin as [Hin|Hin].
      * injection Hin as -> -> -> ->. repeat split.
      * apply Hrest in Hin. contradiction.
  - destruct Hshape as [->|(front & rest & -> & Hrest & _)]; simpl.
    + lia.
    + change (S (length (delivered rest)) ≤ 1)%nat. rewrite Hrest.
      simpl. lia.
  - destruct task as [|frame_id repeat_delay|post_time frame|constraints];
      simpl in Hrun.
    + unfold ZeroHertzAdapterMode.ProcessOnDelayedCadence in Hrun.
      repeat (case_match; simplify_option_eq); reflexivity.
    + unfold ZeroHertzAdapterMode.ProcessRepeatedFrameOnDelayedCadence
        in Hrun.
      repeat (case_match; simplify_option_eq); reflexivity.
    + injection Hrun as <- <-. reflexivity.
    + injection Hrun as <- <-. reflexivity.
  - reflexivity.
  - intros post_time n frame mode1 effects1.
    unfold ZeroHertzAdapterMode.OnFrame. intros Hframe.
    repeat (case_match; simplify_option_eq); reflexivity.
Qed.

Lemma report_constraints_silent (constraints : VideoTrackSourceConstraints) :
  delivered (report_constraints constraints) = []
  ∧ posted_tasks (report_constraints constraints) = [].
Proof.
  destruct constraints as [[min|] [max|]]; unfold report_constraints; simpl;
    try (split; reflexivity).
  destruct (min <? max)%float; split; reflexivity.
Qed.

Lemma MaybeReport_silent (self : t) :
  delivered (MaybeReportFrameRateConstraintUmas self).2 = []
  ∧ posted_tasks (MaybeReportFrameRateConstraintUmas self).2 = []
  ∧ passthrough_adapter_ (MaybeReportFrameRateConstraintUmas self).1
    = passthrough_adapter_ self
  ∧ zero_hertz_adapter_ (MaybeReportFrameRateConstraintUmas self).1
    = zero_hertz_adapter_ self
  ∧ current_adapter_mode_ (MaybeReportFrameRateConstraintUmas self).1
    = current_adapter_mode_ self.
Proof.
  unfold MaybeReportFrameRateConstraintUmas.
  destruct (has_reported_screenshare_frame_rate_umas_ self);
    [repeat split|].
  destruct (negb _); [repeat split|]. simpl.
  destruct (source_constraints_ self) as [constraints|]; [|repeat split].
  destruct (report_constraints_silent constraints) as [Hdelivered Hposted].
  split; [exact Hdelivered|]. split; [exact Hposted|]. repeat split.
Qed.

(** X12. The frame task hands the frame to the current mode and to no
    other. With the pass-through mode current, the frame is delivered to
    the callback at once, no delayed task is posted and neither mode
    changes: the frame does not enter the frame rate statistics, which only
    [UpdateFrameRate] feeds. With the zero-hertz mode current, nothing is
    delivered, the frame is appended to the queue of the mode, after the
    repeated frame is dropped if the mode was repeating, and one first task
    is posted. The task never changes which mode is current, and it fails
    when no mode is current. *)
Theorem frame_task_goes_to_current_mode (post_time : Timestamp)
    (frame : VideoFrame) (self self' : t) (effects : list Effect) :
  run_OnFrameTask post_time frame self = Some (self', effects) →
  current_adapter_mode_ self' = current_adapter_mode_ self
  ∧ match current_adapter_mode_ self with
    | null_adapter_mode => False
    | to_passthrough_adapter =>
        delivered effects = [frame]
        ∧ posted_tasks effects = []
        ∧ passthrough_adapter_ self' = passthrough_adapter_ self
        ∧ zero_hertz_adapter_ self' = zero_hertz_adapter_ self
    | to_zero_hertz_adapter =>
        delivered effects = []
        ∧ posted_tasks effects = [ProcessOnDelayedCadenceTask]
        ∧ passthrough_adapter_ self' = passthrough_adapter_ self
        ∧ ∃ mode mode',
            zero_hertz_adapter_ self = Some mode
            ∧ zero_hertz_adapter_ self' = Some mode'
            ∧ ZeroHertzAdapterMode.queued_frames_ mode'
              = (if ZeroHertzAdapterMode.is_repeating_ mode
                 then tail (ZeroHertzAdapterMode.queued_frames_ mode)
                 else ZeroHertzAdapterMode.queued_frames_ mode) ++ [frame]
    end.
Proof.
  unfold run_OnFrameTask, fetch_sub. intros Hrun.
  destruct (OnFrameOnMainQueue _ _ _ _) as [[self1 sent]|] eqn:Hmain;
    [|discriminate].
  simpl in Hrun.
  destruct (MaybeReport_silent self1)
    as (Hdelivered & Hposted & Hpassthrough & Hzero & Hcurrent).
  destruct (MaybeReportFrameRateConstraintUmas self1) as [self2 reported].
  injection Hrun as <- <-. simpl in *.
  rewrite delivered_effects_app, posted_tasks_app, Hdelivered, Hposted,
    !app_nil_r, Hpassthrough, Hzero, Hcurrent.
  clear Hdelivered Hposted Hpassthrough Hzero Hcurrent.
  unfold OnFrameOnMainQueue in Hmain. simpl in Hmain.
  destruct (current_adapter_mode_ self) eqn:Hpointer; [discriminate| |].
  - destruct (passthrough_adapter_ self) as [mode|] eqn:Hmode;
      [|discriminate].
    simpl in Hmain. unfold PassthroughAdapterMode.OnFrame in Hmain.
    destruct (call_OnFrame _ _ _ _) as [sent'|] eqn:Hsent; [|discriminate].
    apply call_OnFrame_inv in Hsent as ->. simpl in Hmain.
    injection Hmain as <- <-. simpl. repeat split; assumption.
  - destruct (zero_hertz_adapter_ self) as [mode|] eqn:Hmode;
      [|discriminate].
    simpl in Hmain.
    destruct (ZeroHertzAdapterMode.OnFrame _ _ _ _) as [[mode' sent']|]
      eqn:Hframe; [|discriminate].
    simpl in Hmain. injection Hmain as <- <-. simpl.
    apply OnFrame_inv in Hframe as Hinv.
    destruct Hinv as (_ & Hqueue & _ & _ & Htasks).
    split; [assumption|]. split.
    + revert Hframe. unfold ZeroHertzAdapterMode.OnFrame. intros Hframe.
      repeat (case_match; simplify_option_eq); reflexivity.
    + split; [exact Htasks|]. split; [reflexivity|].
      exists mode, mode'. repeat split. exact Hqueue.
Qed.




End RoutingProperties.

(** ** The cadence and the adapter at work on the concrete platform *)

Section CadenceExamples.
#[local] Existing Instance micros.

(** X1: a frame arrives and its first task fires: the mode repeats the
    frame and one repeat task with the current frame id is pending. *)
Lemma cadence_invariant_witness :
  ∃ c effects,
    cadence_run (ext := micros)
      [FrameArrives (ext := micros) 0 1 (sample_frame 1 1000 2000);
       TaskFires (ext := micros) 33 0%nat]
      (new_cadence 1%nat 30%float one_layer)
    = Some (c, effects)
    ∧ count_tasks
        (is_repeat_of (ZeroHertzAdapterMode.current_frame_id_ (cadence_mode c)))
        (pending c)
      = (if ZeroHertzAdapterMode.is_repeating_ (cadence_mode c)
         then 1%nat else 0%nat).
Proof.
  destruct (cadence_run (ext := micros)
              [FrameArrives (ext := micros) 0 1 (sample_frame 1 1000 2000);
               TaskFires (ext := micros) 33 0%nat]
              (new_cadence 1%nat 30%float one_layer))
    as [[c effects]|] eqn:Hrun; [|discriminate Hrun].
  exists c, effects. split; [reflexivity|].
  exact (proj1 (proj2 (proj2
           (cadence_invariant (ext := micros) 1%nat 30%float one_layer _ c
              effects Hrun)))).
Defined.

(** X2: a mode that repeats a frame, with its repeat task pending, accepts
    the next frame. *)
Lemma pending_tasks_pass_their_checks_witness :
  is_Some
    (cadence_step (ext := micros)
       (FrameArrives (ext := micros) 50 1 (sample_frame 2 3000 4000))
       {| cadence_mode := repeating_mode (sample_frame 1 1000 2000);
          pending :=
            [ProcessRepeatedFrameOnDelayedCadenceTask (ext := micros) 1
               33333] |}).
Proof.
  apply (pending_tasks_pass_their_checks (ext := micros)
           {| cadence_mode := repeating_mode (sample_frame 1 1000 2000);
              pending :=
            [ProcessRepeatedFrameOnDelayedCadenceTask (ext := micros) 1
               33333] |}).
  - split; [reflexivity|]. split; [reflexivity|]. split; [reflexivity|].
    split; [|discriminate].
    apply Forall_cons. split; [by vm_compute | apply Forall_nil_2].
  - discriminate.
  - by vm_compute.
Defined.

(** X3: the repeat task of the first frame is still pending when the
    second frame arrives; when it fires it does nothing. *)
Lemma new_frame_cancels_pending_repeats_witness :
  ∃ c' effects,
    cadence_step (ext := micros)
      (FrameArrives (ext := micros) 50 1 (sample_frame 2 3000 4000))
      {| cadence_mode := repeating_mode (sample_frame 1 1000 2000);
         pending :=
            [ProcessRepeatedFrameOnDelayedCadenceTask (ext := micros) 1
               33333] |}
    = Some (c', effects)
    ∧ (pending c' !! 0%nat
       = Some (ProcessRepeatedFrameOnDelayedCadenceTask (ext := micros) 1
                 33333) →
       cadence_step (TaskFires (ext := micros) 66 0%nat) c'
       = Some ({| cadence_mode := cadence_mode c';
                  pending := delete 0%nat (pending c') |}, [])).
Proof.
  destruct (cadence_step (ext := micros)
              (FrameArrives (ext := micros) 50 1 (sample_frame 2 3000 4000))
              {| cadence_mode := repeating_mode (sample_frame 1 1000 2000);
                 pending :=
                   [ProcessRepeatedFrameOnDelayedCadenceTask (ext := micros)
                      1 33333] |})
    as [[c' effects]|] eqn:Hstep; [|discriminate Hstep].
  exists c', effects. split; [reflexivity|]. intros Hpending.
  refine (proj2 (new_frame_cancels_pending_repeats (ext := micros) 50 1
                   (sample_frame 2 3000 4000) _ c' effects _ Hstep
                   66 0%nat 1 33333 Hpending)).
  split; [reflexivity|]. split; [reflexivity|]. split; [reflexivity|].
  split; [|discriminate].
  apply Forall_cons. split; [by vm_compute | apply Forall_nil_2].
Defined.

(** X4: two frames arrive at a new mode before the first task fires. *)
Lemma burst_is_delivered_in_order_witness :
  ∃ mode1 mode2 effects,
    receive (ext := micros)
      [(0, 1, sample_frame 1 1000 2000); (5, 1, sample_frame 2 6000 2005)]
      sample_mode
    = Some mode1
    ∧ drain (ext := micros) [33; 38] mode1 = Some (mode2, effects)
    ∧ delivered effects
      = [sample_frame 1 1000 2000; sample_frame 2 6000 2005]
    ∧ ZeroHertzAdapterMode.queued_frames_ mode2
      = [sample_frame 2 6000 2005].
Proof.
  destruct (burst_is_delivered_in_order (ext := micros)
              [(0, 1, sample_frame 1 1000 2000);
               (5, 1, sample_frame 2 6000 2005)]
              [33; 38] sample_mode)
    as (mode1 & mode2 & effects & repeat_delay & final & Hreceive & Hdrain
        & Hdelivered & _ & Hlast & Hqueue & _).
  - reflexivity.
  - discriminate.
  - discriminate.
  - by vm_compute.
  - by vm_compute.
  - reflexivity.
  - exists mode1, mode2, effects.
    split; [exact Hreceive|]. split; [exact Hdrain|].
    split; [exact Hdelivered|].
    injection Hlast as <-. exact Hqueue.
Defined.

(** X5: no layer of a new mode is enabled: after a frame the repeat is
    scheduled after the idle period. *)
Lemma new_frame_restarts_fast_cadence_witness :
  ∃ mode' effects,
    ZeroHertzAdapterMode.OnFrame (ext := micros) 0 1
      (sample_frame 1 1000 2000) sample_mode
    = Some (mode', effects)
    ∧ ZeroHertzAdapterMode.ScheduleRepeat 1 mode'
      = [PostDelayedTask
           (ProcessRepeatedFrameOnDelayedCadenceTask (ext := micros) 1
              1000000)
           1000].
Proof.
  destruct (ZeroHertzAdapterMode.OnFrame (ext := micros) 0 1
              (sample_frame 1 1000 2000) sample_mode)
    as [[mode' effects]|] eqn:Hrun; [|discriminate Hrun].
  exists mode', effects. split; [reflexivity|].
  apply (new_frame_restarts_fast_cadence (ext := micros) 0 1
           (sample_frame 1 1000 2000) sample_mode mode' effects 1 Hrun).
  intros i tracker Hi. apply lookup_replicate in Hi as [-> _]. reflexivity.
Defined.

(** X6: the enabled layer of a repeating mode reports that its quality has
    not converged: the next repeat comes after the frame delay. *)
Lemma layer_reports_set_the_cadence_witness :
  ∃ mode',
    ZeroHertzAdapterMode.UpdateLayerQualityConvergence (ext := micros) 0
      false (repeating_mode (sample_frame 1 1000 2000))
    = Some mode'
    ∧ ZeroHertzAdapterMode.ScheduleRepeat 1 mode'
      = [PostDelayedTask
           (ProcessRepeatedFrameOnDelayedCadenceTask (ext := micros) 1
              33333)
           33].
Proof.
  exact (proj1 (layer_reports_set_the_cadence (ext := micros) 0 false
                  (repeating_mode (sample_frame 1 1000 2000)) 1 eq_refl)).
Defined.

(** X7: two frames are posted and the task of one of them runs: one frame
    is in flight. *)
Lemma counter_counts_frames_in_flight_witness :
  ∃ self' effects,
    FrameCadenceAdapterImpl.run (ext := micros)
      [FrameCadenceAdapterImpl.CallOnFrame (ext := micros) 5
         (sample_frame 1 1000 2000);
       FrameCadenceAdapterImpl.CallOnFrame (ext := micros) 6
         (sample_frame 2 3000 4000);
       FrameCadenceAdapterImpl.RunTask (ext := micros) 7
         (OnFrameTask (ext := micros) 5 (sample_frame 1 1000 2000))]
      (FrameCadenceAdapterImpl.Initialize 1%nat
         (FrameCadenceAdapterImpl.new false))
    = Some (self', effects)
    ∧ FrameCadenceAdapterImpl.frames_scheduled_for_processing_ self' = 1.
Proof.
  destruct (FrameCadenceAdapterImpl.run (ext := micros)
              [FrameCadenceAdapterImpl.CallOnFrame (ext := micros) 5
                 (sample_frame 1 1000 2000);
               FrameCadenceAdapterImpl.CallOnFrame (ext := micros) 6
                 (sample_frame 2 3000 4000);
               FrameCadenceAdapterImpl.RunTask (ext := micros) 7
                 (OnFrameTask (ext := micros) 5 (sample_frame 1 1000 2000))]
              (FrameCadenceAdapterImpl.Initialize 1%nat
                 (FrameCadenceAdapterImpl.new false)))
    as [[self' effects]|] eqn:Hrun; [|discriminate Hrun].
  exists self', effects. split; [reflexivity|].
  destruct (counter_counts_frames_in_flight (ext := micros) _ _ self'
              effects Hrun) as (_ & _ & Hexact).
  - by vm_compute.
  - apply Hexact. by vm_compute.
Defined.

(** X10: zero-hertz mode is enabled with a maximum frame rate and no
    minimum. *)
Lemma report_with_missing_constraints_witness :
  (FrameCadenceAdapterImpl.MaybeReportFrameRateConstraintUmas
     (FrameCadenceAdapterImpl.set_source_constraints (ext := micros)
        (Some {| min_fps := None; max_fps := Some 30%float |})
        (configured 0 30))).2
  = [RTC_HISTOGRAM_BOOLEAN "WebRTC.Screenshare.FrameRateConstraints.Exists"
       true;
     RTC_HISTOGRAM_BOOLEAN
       "WebRTC.Screenshare.FrameRateConstraints.Min.Exists" false;
     RTC_HISTOGRAM_BOOLEAN
       "WebRTC.Screenshare.FrameRateConstraints.Max.Exists" true;
     RTC_HISTOGRAM_COUNTS_100
       "WebRTC.Screenshare.FrameRateConstraints.Max.Value" 30;
     RTC_HISTOGRAM_COUNTS_100
       "WebRTC.Screenshare.FrameRateConstraints.MinUnset.Max" 30].
Proof.
  pose proof (report_with_missing_constraints (ext := micros)
                (FrameCadenceAdapterImpl.set_source_constraints
                   (Some {| min_fps := None; max_fps := Some 30%float |})
                   (configured 0 30)) eq_refl eq_refl)
    as (_ & _ & Hmax & _).
  exact (Hmax _ 30%float eq_refl eq_refl eq_refl).
Defined.

(** X11: the repeat task of a repeating mode fires at time 66. *)
Lemma zero_hertz_callback_arguments_witness :
  ∃ mode' effects,
    ZeroHertzAdapterMode.run_task (ext := micros) 66
      (ProcessRepeatedFrameOnDelayedCadenceTask (ext := micros) 1 33333)
      (repeating_mode (sample_frame 1 1000 2000))
    = Some (mode', effects)
    ∧ ∀ callback post_time n frame,
        Callback_OnFrame callback post_time n frame ∈ effects →
        callback = 1%nat ∧ post_time = 66 ∧ n = 1.
Proof.
  destruct (ZeroHertzAdapterMode.run_task (ext := micros) 66
              (ProcessRepeatedFrameOnDelayedCadenceTask (ext := micros) 1 33333)
              (repeating_mode (sample_frame 1 1000 2000)))
    as [[mode' effects]|] eqn:Hrun; [|discriminate Hrun].
  exists mode', effects. split; [reflexivity|].
  exact (proj1 (zero_hertz_callback_arguments (ext := micros) 66 _ _ mode'
                  effects Hrun)).
Defined.

(** X12: a frame task runs while the zero-hertz mode is current. *)
Lemma frame_task_goes_to_current_mode_witness :
  ∃ self' effects,
    FrameCadenceAdapterImpl.run_OnFrameTask (ext := micros) 5
      (sample_frame 1 1000 2000) activated
    = Some (self', effects)
    ∧ delivered effects = []
    ∧ posted_tasks effects = [ProcessOnDelayedCadenceTask].
Proof.
  destruct (FrameCadenceAdapterImpl.run_OnFrameTask (ext := micros) 5
              (sample_frame 1 1000 2000) activated)
    as [[self' effects]|] eqn:Hrun; [|discriminate Hrun].
  exists self', effects. split; [reflexivity|].
  destruct (frame_task_goes_to_current_mode (ext := micros) 5
              (sample_frame 1 1000 2000) activated self' effects Hrun)
    as (_ & Hdelivered & Hposted & _).
  split; [exact Hdelivered | exact Hposted].
Defined.
End CadenceExamples.
